(** * clincrush: the trial matching algorithm and the search orchestrator

    A shallow embedding of [utils/matchingAlgorithm] (allergy filter,
    match score, ranking) and of the [loadTrials] effect of the
    [TrialMatching] component, with the properties of the design
    document stated over them. *)

From Stdlib Require Import QArith Qreduction ZArith List String Ascii Bool.
From Stdlib Require Import Lia Lqa Permutation Sorted.
Import ListNotations.

Set Implicit Arguments.

(** ** JavaScript numbers

    A [number] is an exact rational extended with the two infinities and
    [NaN].  Rounding of IEEE doubles and the sign of zero are not
    represented; every finite result is kept in lowest terms so that two
    equal finite results are the same term. *)

Module JS.

Inductive number : Type :=
| Fin (q : Q)
| PosInf
| NegInf
| NaN.

Definition fin (q : Q) : number := Fin (Qred q).

Definition num_add (a b : number) : number :=
  match a, b with
  | NaN, _ | _, NaN => NaN
  | Fin x, Fin y => fin (x + y)
  | PosInf, NegInf | NegInf, PosInf => NaN
  | PosInf, _ | _, PosInf => PosInf
  | NegInf, _ | _, NegInf => NegInf
  end.

Definition num_sub (a b : number) : number :=
  match a, b with
  | NaN, _ | _, NaN => NaN
  | Fin x, Fin y => fin (x - y)
  | PosInf, PosInf | NegInf, NegInf => NaN
  | PosInf, _ | _, NegInf => PosInf
  | NegInf, _ | _, PosInf => NegInf
  end.

(** The infinity with the sign of [c], the comparison of a finite factor
    with zero; [zero] is the result when that factor is zero. *)
Definition signed_inf (c : comparison) (zero : number) : number :=
  match c with
  | Eq => zero
  | Gt => PosInf
  | Lt => NegInf
  end.

Definition num_mul (a b : number) : number :=
  match a, b with
  | NaN, _ | _, NaN => NaN
  | Fin x, Fin y => fin (x * y)
  | PosInf, Fin y | Fin y, PosInf => signed_inf (y ?= 0) NaN
  | NegInf, Fin y | Fin y, NegInf => signed_inf (0 ?= y) NaN
  | PosInf, PosInf | NegInf, NegInf => PosInf
  | PosInf, NegInf | NegInf, PosInf => NegInf
  end.

Definition num_div (a b : number) : number :=
  match a, b with
  | NaN, _ | _, NaN => NaN
  | Fin x, Fin y =>
      if Qeq_bool y 0 then signed_inf (x ?= 0) NaN else fin (x / y)
  | Fin _, _ => Fin 0
  | PosInf, Fin y => signed_inf (y ?= 0) PosInf
  | NegInf, Fin y => signed_inf (0 ?= y) NegInf
  | _, _ => NaN
  end.

(** [a <= b]; a comparison with [NaN] is false. *)
Definition num_le (a b : number) : bool :=
  match a, b with
  | NaN, _ | _, NaN => false
  | Fin x, Fin y => Qle_bool x y
  | NegInf, _ | _, PosInf => true
  | _, _ => false
  end.

(** [a < b]. *)
Definition num_lt (a b : number) : bool :=
  match a, b with
  | NaN, _ | _, NaN => false
  | Fin x, Fin y => negb (Qle_bool y x)
  | PosInf, _ | _, NegInf => false
  | _, _ => true
  end.

Definition num_ge (a b : number) : bool := num_le b a.
Definition num_gt (a b : number) : bool := num_lt b a.

Definition isNaN (a : number) : bool :=
  match a with NaN => true | _ => false end.

Definition Math_max (a b : number) : number :=
  if isNaN a || isNaN b then NaN else if num_le a b then b else a.

Definition Math_min (a b : number) : number :=
  if isNaN a || isNaN b then NaN else if num_le a b then a else b.

(** ToBoolean on a number: zero and [NaN] are falsy. *)
Definition truthy (a : number) : bool :=
  match a with
  | Fin x => negb (Qeq_bool x 0)
  | PosInf | NegInf => true
  | NaN => false
  end.

(** [a || b] on numbers. *)
Definition num_or (a b : number) : number := if truthy a then a else b.

(** ** Strings

    Strings are sequences of 8-bit characters; the built-ins below are the
    ECMAScript ones on ASCII text (characters above 127 are neither
    letters nor white space here). *)

Definition lowerChar (c : ascii) : ascii :=
  let n := nat_of_ascii c in
  if (65 <=? n)%nat && (n <=? 90)%nat then ascii_of_nat (n + 32) else c.

Fixpoint toLowerCase (s : string) : string :=
  match s with
  | EmptyString => EmptyString
  | String c r => String (lowerChar c) (toLowerCase r)
  end.

Definition isWhiteSpace (c : ascii) : bool :=
  let n := nat_of_ascii c in
  ((9 <=? n)%nat && (n <=? 13)%nat) || (n =? 32)%nat.

Fixpoint trimStart (s : string) : string :=
  match s with
  | EmptyString => EmptyString
  | String c r => if isWhiteSpace c then trimStart r else s
  end.

Fixpoint trimEnd (s : string) : string :=
  match s with
  | EmptyString => EmptyString
  | String c r =>
      match trimEnd r with
      | EmptyString => if isWhiteSpace c then EmptyString else String c EmptyString
      | r' => String c r'
      end
  end.

Definition trim (s : string) : string := trimEnd (trimStart s).

Fixpoint startsWith (s sub : string) : bool :=
  match sub, s with
  | EmptyString, _ => true
  | String _ _, EmptyString => false
  | String a sub', String b s' => Ascii.eqb a b && startsWith s' sub'
  end.

(** [s.includes(sub)]. *)
Fixpoint includes (s sub : string) : bool :=
  startsWith s sub ||
  match s with
  | EmptyString => false
  | String _ r => includes r sub
  end.

(** [s.split(sep)[0]] for a one-character separator. *)
Fixpoint splitHead (sep : ascii) (s : string) : string :=
  match s with
  | EmptyString => EmptyString
  | String c r => if Ascii.eqb c sep then EmptyString else String c (splitHead sep r)
  end.

(** A non-empty string is truthy. *)
Definition nonEmpty (s : string) : bool :=
  match s with EmptyString => false | _ => true end.

(** ToString of a possibly undefined string. *)
Definition ToString (o : option string) : string :=
  match o with
  | Some s => s
  | None => "undefined"
  end.

(** *** parseInt without a radix argument *)

Definition digitValue (radix : Z) (c : ascii) : option Z :=
  let n := Z.of_nat (nat_of_ascii c) in
  let v :=
    if (48 <=? n)%Z && (n <=? 57)%Z then Some (n - 48)%Z
    else if (97 <=? n)%Z && (n <=? 122)%Z then Some (n - 87)%Z
    else if (65 <=? n)%Z && (n <=? 90)%Z then Some (n - 55)%Z
    else None in
  match v with
  | Some d => if (d <? radix)%Z then Some d else None
  | None => None
  end.

(** The value of the longest prefix of digits, [None] when it is empty. *)
Fixpoint parseDigits (radix : Z) (acc : option Z) (s : string) : option Z :=
  match s with
  | EmptyString => acc
  | String c r =>
      match digitValue radix c with
      | Some d =>
          parseDigits radix
            (Some (match acc with Some a => a * radix + d | None => d end)%Z) r
      | None => acc
      end
  end.

Definition parseInt (input : option string) : number :=
  let s := trimStart (ToString input) in
  let '(sign, s) :=
    match s with
    | String "-"%char r => ((-1)%Z, r)
    | String "+"%char r => (1%Z, r)
    | _ => (1%Z, s)
    end in
  let '(radix, s) :=
    match s with
    | String "0"%char (String "x"%char r) => (16%Z, r)
    | String "0"%char (String "X"%char r) => (16%Z, r)
    | _ => (10%Z, s)
    end in
  match parseDigits radix None s with
  | Some n => Fin (inject_Z (sign * n))
  | None => NaN
  end.

End JS.
Import JS.

Open Scope string_scope.

(** ** Thrown exceptions

    A function that can throw returns a [result]; [x <- c ;; k] runs [k]
    on the value of [c] and propagates what [c] throws. *)

Inductive exn : Type :=
| TypeError (msg : string)
| NetworkError (msg : string).

Inductive result (A : Type) : Type :=
| Ok (a : A)
| Throw (e : exn).
Arguments Ok {A} a.
Arguments Throw {A} e.

Definition bind {A B : Type} (c : result A) (k : A -> result B) : result B :=
  match c with
  | Ok a => k a
  | Throw e => Throw e
  end.

Notation "x <- c ;; k" := (bind c (fun x => k))
  (at level 61, c at next level, right associativity).

Fixpoint mapM {A B : Type} (f : A -> result B) (l : list A) : result (list B) :=
  match l with
  | [] => Ok []
  | a :: r => b <- f a ;; bs <- mapM f r ;; Ok (b :: bs)
  end.

(** ** Data model

    Trials come from the search response and are only partly populated:
    a field that can be absent there and that the matching code reads is
    an [option]; a present field has its declared type. *)

Module AgeRange.
Record t : Type := mk { min : option string; max : option string }.
End AgeRange.

Module Location.
Record t : Type := mk {
  city : string;
  state : string;
  country : string;
  zip : string;
  facility : string;
  latitude : option number;
  longitude : option number;
  distance : option number
}.
End Location.

Module Compensation.
Record t : Type := mk {
  has_compensation : bool;
  amount : option number;
  currency : option string;
  details : option string
}.
End Compensation.

Module Substance.
Record t : Type := mk { type : string; name : option string }.
End Substance.

Module Trial.
Record t : Type := mk {
  id : string;
  title : string;
  conditions : option (list string);
  gender : option string;
  age_range : option AgeRange.t;
  locations : list Location.t;
  summary : string;
  compensation : option Compensation.t;
  eligibilityCriteria : option string;
  substancesUsed : option (list Substance.t);
  distance : option number;
  matchScore : option number
}.

(** [{ ...trial, matchScore }] *)
Definition withMatchScore (trial : t) (s : number) : t :=
  mk (id trial) (title trial) (conditions trial) (gender trial)
     (age_range trial) (locations trial) (summary trial)
     (compensation trial) (eligibilityCriteria trial)
     (substancesUsed trial) (distance trial) (Some s).
End Trial.

(** Modelled from the spec: the declaration of [UserProfile]
    ([types/UserProfile]) is not among the sources.  The fields are the
    ones the matching code and the component read: the conditions, the
    gender, the age, the home location, the maximal travel distance, the
    allergy list (tested for presence by the filter) and the optional
    minimum preferred compensation. *)
Module UserProfile.
Record t : Type := mk {
  medicalConditions : list string;
  gender : string;
  age : number;
  location : string;
  maxTravelDistance : number;
  allergies : option (list string);
  preferredCompensation : option number
}.
End UserProfile.

(** ** matchingAlgorithm: the allergy filter *)

(** The loop over [trial.substancesUsed]: some substance with a non-empty
    name contains one of the normalized allergens. *)
Definition substanceHit (normalizedAllergies : list string) (trial : Trial.t) : bool :=
  match Trial.substancesUsed trial with
  | Some substances =>
      existsb (fun substance =>
        match Substance.name substance with
        | Some n =>
            nonEmpty n &&
            let substanceName := toLowerCase n in
            existsb (fun allergy => includes substanceName allergy) normalizedAllergies
        | None => false
        end) substances
  | None => false
  end.

(** The loop over the allergens on [trial.eligibilityCriteria]. *)
Definition criteriaHit (normalizedAllergies : list string) (trial : Trial.t) : bool :=
  match Trial.eligibilityCriteria trial with
  | Some criteria =>
      nonEmpty criteria &&
      let lowerCriteria := toLowerCase criteria in
      existsb (fun allergy =>
        includes lowerCriteria ("allergy to " ++ allergy) ||
        includes lowerCriteria ("allergic to " ++ allergy)) normalizedAllergies
  | None => false
  end.

(** The callback of [trials.filter]: [true] keeps the trial. *)
Definition keepTrial (normalizedAllergies : list string) (trial : Trial.t) : bool :=
  if substanceHit normalizedAllergies trial then false
  else if criteriaHit normalizedAllergies trial then false
  else true.

Definition filterTrialsByAllergies (trials : list Trial.t)
    (allergies : option (list string)) : list Trial.t :=
  match allergies with
  | None => trials
  | Some [] => trials
  | Some a =>
      let normalizedAllergies := map (fun a => trim (toLowerCase a)) a in
      filter (keepTrial normalizedAllergies) trials
  end.

(** ** matchingAlgorithm: the match score *)

(** The two accumulators of [calculateMatchScore]. *)
Record tally : Type := mkTally { score : number; maxScore : number }.

Definition conditionMatch (profile : UserProfile.t) (trial : Trial.t) : bool :=
  match Trial.conditions trial with
  | Some conditions =>
      existsb (fun condition =>
        existsb (fun userCondition =>
          includes (toLowerCase userCondition) (toLowerCase condition) ||
          includes (toLowerCase condition) (toLowerCase userCondition))
          (UserProfile.medicalConditions profile)) conditions
  | None => false
  end.

Definition checkConditions (profile : UserProfile.t) (trial : Trial.t) (a : tally) : tally :=
  let s := if conditionMatch profile trial then num_add (score a) (Fin 50) else score a in
  mkTally s (num_add (maxScore a) (Fin 50)).

Definition genderMatch (profile : UserProfile.t) (trial : Trial.t) : bool :=
  match Trial.gender trial with
  | Some g =>
      if nonEmpty g then
        let normalizedGender := toLowerCase g in
        String.eqb normalizedGender "all" ||
        includes normalizedGender "both" ||
        includes normalizedGender (toLowerCase (UserProfile.gender profile))
      else false
  | None => false
  end.

Definition checkGender (profile : UserProfile.t) (trial : Trial.t) (a : tally) : tally :=
  let s := if genderMatch profile trial then num_add (score a) (Fin 15) else score a in
  mkTally s (num_add (maxScore a) (Fin 15)).

(** [parseInt(trial.age_range.min) || 0] and [parseInt(trial.age_range.max) || 999] *)
Definition minAge (range : AgeRange.t) : number :=
  num_or (parseInt (AgeRange.min range)) (Fin 0).
Definition maxAge (range : AgeRange.t) : number :=
  num_or (parseInt (AgeRange.max range)) (Fin 999).

Definition ageMatch (profile : UserProfile.t) (range : AgeRange.t) : bool :=
  num_ge (UserProfile.age profile) (minAge range) &&
  num_le (UserProfile.age profile) (maxAge range).

(** [trial.age_range.min] reads a property of [trial.age_range], which
    throws when the range itself is undefined. *)
Definition checkAge (profile : UserProfile.t) (trial : Trial.t) (a : tally) : result tally :=
  match Trial.age_range trial with
  | None => Throw (TypeError "Cannot read properties of undefined (reading 'min')")
  | Some range =>
      let s := if ageMatch profile range then num_add (score a) (Fin 15) else score a in
      Ok (mkTally s (num_add (maxScore a) (Fin 15)))
  end.

Definition checkLocation (profile : UserProfile.t) (trial : Trial.t) (a : tally) : tally :=
  let s :=
    match Trial.distance trial with
    | Some distance =>
        if num_le distance (UserProfile.maxTravelDistance profile) then
          let distanceScore :=
            num_mul (Fin 20)
              (num_sub (Fin 1) (num_div distance (UserProfile.maxTravelDistance profile))) in
          num_add (score a) (Math_max (Fin 5) distanceScore)
        else score a
    | None => score a
    end in
  mkTally s (num_add (maxScore a) (Fin 20)).

(** [profile.preferredCompensation && profile.preferredCompensation > 0] *)
Definition wantsCompensation (profile : UserProfile.t) : option number :=
  match UserProfile.preferredCompensation profile with
  | Some preferred =>
      if truthy preferred && num_gt preferred (Fin 0) then Some preferred else None
  | None => None
  end.

(** [trial.compensation?.has_compensation && trial.compensation.amount] *)
Definition offeredAmount (trial : Trial.t) : option number :=
  match Trial.compensation trial with
  | Some c =>
      if Compensation.has_compensation c then
        match Compensation.amount c with
        | Some amount => if truthy amount then Some amount else None
        | None => None
        end
      else None
  | None => None
  end.

Definition checkCompensation (profile : UserProfile.t) (trial : Trial.t) (a : tally) : tally :=
  match wantsCompensation profile with
  | Some preferred =>
      let s :=
        match offeredAmount trial with
        | Some amount =>
            if num_ge amount preferred then num_add (score a) (Fin 10)
            else
              let compensationScore := num_mul (Fin 10) (num_div amount preferred) in
              num_add (score a) (Math_min (Fin 9) compensationScore)
        | None => score a
        end in
      mkTally s (num_add (maxScore a) (Fin 10))
  | None => a
  end.

Definition finalScore (a : tally) : number :=
  if num_gt (maxScore a) (Fin 0) then num_div (score a) (maxScore a) else Fin 0.

Definition calculateMatchScore (profile : UserProfile.t) (trial : Trial.t) : result number :=
  let a := mkTally (Fin 0) (Fin 0) in
  let a := checkConditions profile trial a in
  let a := checkGender profile trial a in
  a <- checkAge profile trial a ;;
  let a := checkLocation profile trial a in
  let a := checkCompensation profile trial a in
  Ok (finalScore a).

(** ** matchingAlgorithm: ranking *)

(** [Array.prototype.sort(compareFn)].  The sort of an engine is stable
    (ECMAScript 2019) and, for a consistent comparison function, its
    result is the one of this insertion sort: [a] stays in front of a
    later [b] unless [compareFn(a, b) > 0]; a [NaN] result counts as 0. *)
Section ArraySort.
Variable A : Type.
Variable compareFn : A -> A -> number.

Fixpoint insert (x : A) (l : list A) : list A :=
  match l with
  | [] => [x]
  | y :: r => if num_gt (compareFn x y) (Fin 0) then y :: insert x r else x :: l
  end.

Fixpoint Array_sort (l : list A) : list A :=
  match l with
  | [] => []
  | x :: r => insert x (Array_sort r)
  end.
End ArraySort.

(** [trial.matchScore || 0] *)
Definition scoreOrZero (trial : Trial.t) : number :=
  match Trial.matchScore trial with
  | Some s => num_or s (Fin 0)
  | None => Fin 0
  end.

(** [(a, b) => (b.matchScore || 0) - (a.matchScore || 0)] *)
Definition byMatchScore (a b : Trial.t) : number :=
  num_sub (scoreOrZero b) (scoreOrZero a).

Definition scoreTrial (profile : UserProfile.t) (trial : Trial.t) : result Trial.t :=
  matchScore <- calculateMatchScore profile trial ;;
  Ok (Trial.withMatchScore trial matchScore).

Definition rankTrialsByMatchScore (trials : list Trial.t) (profile : UserProfile.t)
    : result (list Trial.t) :=
  let filteredTrials := filterTrialsByAllergies trials (UserProfile.allergies profile) in
  scoredTrials <- mapM (scoreTrial profile) filteredTrials ;;
  Ok (Array_sort byMatchScore scoredTrials).

(** ** TrialMatching: the [loadTrials] effect

    The component state and its three refs are one record; [loadTrials]
    is split at its [await]: [loadTrials_start] runs up to the call of
    [searchTrials], [loadTrials_settle] runs the rest once the promise
    has settled. *)

Module TrialMatching.

Record State : Type := mkState {
  trials : list Trial.t;
  currentIndex : nat;
  loading : bool;
  error : option string;
  matchedTrials : list Trial.t;
  rejectedTrials : list Trial.t;
  isMountedRef : bool;
  isFetchingRef : bool;
  searchedProfileRef : option string
}.

Definition initial : State := mkState [] 0 true None [] [] true false None.

Definition setTrials (v : list Trial.t) (s : State) : State :=
  mkState v (currentIndex s) (loading s) (error s) (matchedTrials s)
    (rejectedTrials s) (isMountedRef s) (isFetchingRef s) (searchedProfileRef s).
Definition setCurrentIndex (v : nat) (s : State) : State :=
  mkState (trials s) v (loading s) (error s) (matchedTrials s)
    (rejectedTrials s) (isMountedRef s) (isFetchingRef s) (searchedProfileRef s).
Definition setLoading (v : bool) (s : State) : State :=
  mkState (trials s) (currentIndex s) v (error s) (matchedTrials s)
    (rejectedTrials s) (isMountedRef s) (isFetchingRef s) (searchedProfileRef s).
Definition setError (v : option string) (s : State) : State :=
  mkState (trials s) (currentIndex s) (loading s) v (matchedTrials s)
    (rejectedTrials s) (isMountedRef s) (isFetchingRef s) (searchedProfileRef s).
Definition setMatchedTrials (v : list Trial.t) (s : State) : State :=
  mkState (trials s) (currentIndex s) (loading s) (error s) v
    (rejectedTrials s) (isMountedRef s) (isFetchingRef s) (searchedProfileRef s).
Definition setRejectedTrials (v : list Trial.t) (s : State) : State :=
  mkState (trials s) (currentIndex s) (loading s) (error s) (matchedTrials s)
    v (isMountedRef s) (isFetchingRef s) (searchedProfileRef s).
Definition setIsMounted (v : bool) (s : State) : State :=
  mkState (trials s) (currentIndex s) (loading s) (error s) (matchedTrials s)
    (rejectedTrials s) v (isFetchingRef s) (searchedProfileRef s).
Definition setIsFetching (v : bool) (s : State) : State :=
  mkState (trials s) (currentIndex s) (loading s) (error s) (matchedTrials s)
    (rejectedTrials s) (isMountedRef s) v (searchedProfileRef s).
Definition setSearchedProfile (v : option string) (s : State) : State :=
  mkState (trials s) (currentIndex s) (loading s) (error s) (matchedTrials s)
    (rejectedTrials s) (isMountedRef s) (isFetchingRef s) v.

(** The object given to [JSON.stringify] to build the profile key. *)
Record KeyFields : Type := mkKey {
  key_conditions : list string;
  key_location : string;
  key_allergies : option (list string);
  key_maxDistance : number
}.

(** The arguments of one call of [searchTrials]. *)
Record Request : Type := mkRequest {
  req_condition : string;
  req_location : string;
  req_distance : number;
  req_max_results : Z
}.

(** How the promise of [searchTrials] settles: with the response data,
    an array of trials or something else, or with the error rethrown by
    [searchTrials]. *)
Inductive response : Type :=
| Resolved (trialsData : option (list Trial.t))
| Rejected (err : exn).

(** A suspended [loadTrials]: what its closure holds at the [await]. *)
Record Pending : Type := mkPending {
  pend_profile : UserProfile.t;
  pend_key : string
}.

Definition msgMissingConditions : string :=
  "Your profile is missing medical conditions. Please update your profile.".
Definition msgMissingLocation : string :=
  "Your profile is missing location information. Please update your profile.".
Definition msgNoTrials : string :=
  "No clinical trials found matching your criteria.".
Definition msgFailed : string :=
  "Failed to load clinical trials. Please try again later.".

Section LoadTrials.
(** The serialisation of the key object; the effect only compares its
    results. *)
Variable JSON_stringify : KeyFields -> string.

Definition profileKey (userProfile : UserProfile.t) : string :=
  JSON_stringify
    (mkKey (UserProfile.medicalConditions userProfile)
           (UserProfile.location userProfile)
           (UserProfile.allergies userProfile)
           (UserProfile.maxTravelDistance userProfile)).

Definition sameKey (k : string) (r : option string) : bool :=
  match r with
  | Some k' => String.eqb k k'
  | None => false
  end.

(** [loadTrials] up to the [await]: the new state and, when
    [searchTrials] is called, the request and the suspended rest. *)
Definition loadTrials_start (userProfile : UserProfile.t) (s : State)
    : State * option (Request * Pending) :=
  if isFetchingRef s || negb (isMountedRef s) then (s, None)
  else
    let key := profileKey userProfile in
    if sameKey key (searchedProfileRef s) then (s, None)
    else
      match UserProfile.medicalConditions userProfile with
      | [] => (setLoading false (setError (Some msgMissingConditions) s), None)
      | condition :: _ =>
          if negb (nonEmpty (UserProfile.location userProfile)) then
            (setLoading false (setError (Some msgMissingLocation) s), None)
          else
            let s := setError None (setLoading true (setIsFetching true s)) in
            let city := trim (splitHead ","%char (UserProfile.location userProfile)) in
            (s, Some (mkRequest condition city
                        (UserProfile.maxTravelDistance userProfile) 30,
                      mkPending userProfile key))
      end.

(** The [catch] block. *)
Definition onError (s : State) : State :=
  if isMountedRef s then setTrials [] (setError (Some msgFailed) s) else s.

(** The [try] block after the [await]; [Throw] is what reaches [catch]. *)
Definition afterAwait (k : Pending) (r : response) (s : State) : result State :=
  match r with
  | Rejected err => Throw err
  | Resolved trialsData =>
      if negb (isMountedRef s) then Ok s
      else
        match trialsData with
        | Some ((_ :: _) as data) =>
            rankedTrials <- rankTrialsByMatchScore data (pend_profile k) ;;
            Ok (setSearchedProfile (Some (pend_key k))
                 (setRejectedTrials []
                   (setMatchedTrials []
                     (setCurrentIndex 0 (setTrials rankedTrials s)))))
        | _ => Ok (setTrials [] (setError (Some msgNoTrials) s))
        end
  end.

(** The [finally] block. *)
Definition onFinally (s : State) : State :=
  setLoading false (setIsFetching false s).

Definition loadTrials_settle (k : Pending) (r : response) (s : State) : State :=
  onFinally
    match afterAwait k r s with
    | Ok s' => s'
    | Throw _ => onError s
    end.

(** *** The component as a transition system *)

Inductive event : Type :=
| ProfileChanged (userProfile : UserProfile.t)
| Settled (r : response)
| Unmounted.

(** The component state, the suspended calls of [loadTrials] (oldest
    first) and every request sent so far. *)
Record System : Type := mkSystem {
  state : State;
  pending : list Pending;
  calls : list Request
}.

Definition step (sys : System) (e : event) : System :=
  match e with
  | ProfileChanged userProfile =>
      match loadTrials_start userProfile (state sys) with
      | (s, Some (req, k)) => mkSystem s (pending sys ++ [k]) (calls sys ++ [req])
      | (s, None) => mkSystem s (pending sys) (calls sys)
      end
  | Settled r =>
      match pending sys with
      | k :: rest => mkSystem (loadTrials_settle k r (state sys)) rest (calls sys)
      | [] => sys
      end
  | Unmounted => mkSystem (setIsMounted false (state sys)) (pending sys) (calls sys)
  end.

Definition run (sys : System) (es : list event) : System := fold_left step es sys.
End LoadTrials.

End TrialMatching.

(** ** Vocabulary of the statements *)

(** A finite number of the closed interval from [lo] to [hi]. *)
Definition inInterval (lo hi : Q) (a : number) : Prop :=
  exists q, a = Fin q /\ lo <= q /\ q <= hi.

(** Both accumulators are finite, [0 <= score <= maxScore] and
    [lo <= maxScore]. *)
Definition tallyBounded (lo : Q) (a : tally) : Prop :=
  exists s m, a = mkTally (Fin s) (Fin m) /\ 0 <= s /\ s <= m /\ lo <= m.

(** A finite distance that is not negative. *)
Definition finiteNonNegative (a : number) : Prop :=
  exists q, a = Fin q /\ 0 <= q.

(** Numeric equality; [NaN] is equal to nothing. *)
Definition num_eqb (a b : number) : bool := num_le a b && num_le b a.

(** Sorting in descending order of a key. *)
Section ByKey.
Variable A : Type.
Variable key : A -> number.

(** [(a, b) => key(b) - key(a)] *)
Definition descendingBy (a b : A) : number := num_sub (key b) (key a).

(** [a] may stand in front of [b]. *)
Definition keyGe (a b : A) : Prop := num_ge (key a) (key b) = true.

(** The key of [a] is [k]. *)
Definition hasKey (k : number) (a : A) : bool := num_eqb (key a) k.
End ByKey.

(** The sort key of [trial] is [k]. *)
Definition hasScore (k : number) (trial : Trial.t) : bool :=
  hasKey scoreOrZero k trial.

(** [a] may stand in front of [b] in a list sorted by descending score. *)
Definition scoreGe (a b : Trial.t) : Prop := keyGe scoreOrZero a b.

(** The points of a check of weight [w]: all of them or none. *)
Definition pointsIf (b : bool) (w : Q) : Q := if b then w else 0.

(** The two accumulators are finite, of values [s] and [m]. *)
Definition tallyIs (a : tally) (s m : Q) : Prop :=
  exists s' m', a = mkTally (Fin s') (Fin m') /\ s' == s /\ m' == m.

(** What the location of [trial] is worth to [profile]: nothing without
    a distance or beyond the maximal travel distance, the finite value
    [l] of [Math.max(5, distanceScore)] within it. *)
Inductive proximityEarns (profile : UserProfile.t) (trial : Trial.t) : Q -> Prop :=
| NoDistance :
    Trial.distance trial = None ->
    proximityEarns profile trial 0
| TooFar : forall d,
    Trial.distance trial = Some d ->
    num_le d (UserProfile.maxTravelDistance profile) = false ->
    proximityEarns profile trial 0
| WithinReach : forall d l,
    Trial.distance trial = Some d ->
    num_le d (UserProfile.maxTravelDistance profile) = true ->
    Math_max (Fin 5)
      (num_mul (Fin 20)
         (num_sub (Fin 1) (num_div d (UserProfile.maxTravelDistance profile)))) = Fin l ->
    proximityEarns profile trial l.

(** What the compensation of [trial] is worth to [profile], and out of
    how many points: [c] out of [w].  Nothing out of nothing when the
    profile does not ask for a compensation; else out of 10: nothing when
    the trial offers no amount, 10 when the amount reaches the preference,
    the finite value [c] of [Math.min(9, compensationScore)] below it. *)
Inductive compensationEarns (profile : UserProfile.t) (trial : Trial.t) : Q -> Q -> Prop :=
| NotWanted :
    wantsCompensation profile = None ->
    compensationEarns profile trial 0 0
| NotOffered : forall preferred,
    wantsCompensation profile = Some preferred ->
    offeredAmount trial = None ->
    compensationEarns profile trial 0 10
| Met : forall preferred amount,
    wantsCompensation profile = Some preferred ->
    offeredAmount trial = Some amount ->
    num_ge amount preferred = true ->
    compensationEarns profile trial 10 10
| Partly : forall preferred amount c,
    wantsCompensation profile = Some preferred ->
    offeredAmount trial = Some amount ->
    num_ge amount preferred = false ->
    Math_min (Fin 9) (num_mul (Fin 10) (num_div amount preferred)) = Fin c ->
    compensationEarns profile trial c 10.

(** [s] is the trial [t] with its match score for [profile] in the field
    [matchScore], and every other field as in [t]. *)
Definition scoredFrom (profile : UserProfile.t) (t s : Trial.t) : Prop :=
  exists v,
    calculateMatchScore profile t = Ok v /\
    Trial.matchScore s = Some v /\
    Trial.id s = Trial.id t /\
    Trial.title s = Trial.title t /\
    Trial.conditions s = Trial.conditions t /\
    Trial.gender s = Trial.gender t /\
    Trial.age_range s = Trial.age_range t /\
    Trial.locations s = Trial.locations t /\
    Trial.summary s = Trial.summary t /\
    Trial.compensation s = Trial.compensation t /\
    Trial.eligibilityCriteria s = Trial.eligibilityCriteria t /\
    Trial.substancesUsed s = Trial.substancesUsed t /\
    Trial.distance s = Trial.distance t.

(** The number a trial is ranked by: the content of its field
    [matchScore], and 0 when the field is absent or holds [NaN]. *)
Definition rankingKey (trial : Trial.t) : number :=
  match Trial.matchScore trial with
  | Some NaN | None => Fin 0
  | Some v => v
  end.

(** [a >= b] on the rationals with the two infinities. *)
Definition atLeast (a b : number) : Prop :=
  match a, b with
  | NaN, _ | _, NaN => False
  | Fin x, Fin y => y <= x
  | PosInf, _ | _, NegInf => True
  | _, _ => False
  end.

(** The same rational or the same infinity. *)
Definition sameNumber (a b : number) : bool :=
  match a, b with
  | Fin x, Fin y => Qeq_bool x y
  | PosInf, PosInf | NegInf, NegInf => true
  | _, _ => false
  end.

(** [trial] is ranked by the number [k]. *)
Definition keyIs (k : number) (trial : Trial.t) : bool :=
  sameNumber (rankingKey trial) k.

(** No trial of the list stands behind one of a smaller [matchScore]. *)
Definition descendingScores (l : list Trial.t) : Prop :=
  StronglySorted (fun a b => atLeast (rankingKey a) (rankingKey b)) l.

(** The in-flight flag is set exactly when one [loadTrials] is suspended,
    and no more than one ever is. *)
Definition oneInFlight (sys : TrialMatching.System) : Prop :=
  (TrialMatching.isFetchingRef (TrialMatching.state sys) = true /\
   exists k, TrialMatching.pending sys = [k]) \/
  (TrialMatching.isFetchingRef (TrialMatching.state sys) = false /\
   TrialMatching.pending sys = []).

(** ** Sample data *)

Module Samples.
Definition noTrialOf (id : string) : Trial.t :=
  Trial.mk id "Study" None None None [] "" None None None None None.

Definition asthmaProfile : UserProfile.t :=
  UserProfile.mk ["Asthma"] "male" (Fin 30) "Durham, NC" (Fin 50)
    (Some ["peanut"]) None.

Definition adults : AgeRange.t := AgeRange.mk (Some "18 Years") (Some "N/A").

(** Matches [asthmaProfile] on condition, gender and age; no distance,
    no compensation. *)
Definition asthmaTrial : Trial.t :=
  Trial.mk "NCT0001" "Asthma study" (Some ["asthma"]) (Some "Female")
    (Some adults) [] "" None None None None None.

Definition asthmaTrialAt (d : number) : Trial.t :=
  Trial.mk "NCT0002" "Asthma study" (Some ["asthma"]) (Some "All")
    (Some adults) [] "" None None None (Some d) None.

Definition peanutExtract : Substance.t :=
  Substance.mk "Dietary Supplement" (Some "Peanut Extract").

Definition peanutTrial : Trial.t :=
  Trial.mk "NCT0003" "Oral immunotherapy" (Some ["peanut allergy"]) (Some "All")
    (Some adults) [] "" None None (Some [peanutExtract]) None None.

(** The same substance, and an exclusion criterion that names the allergy. *)
Definition peanutTrialWithCriteria : Trial.t :=
  Trial.mk "NCT0004" "Oral immunotherapy" (Some ["peanut allergy"]) (Some "All")
    (Some adults) [] "" None (Some "Exclusion: subjects allergic to peanuts")
    (Some [peanutExtract]) None None.

(** A record without [age_range]. *)
Definition noAgeRangeTrial : Trial.t :=
  Trial.mk "NCT0005" "Asthma study" (Some ["asthma"]) (Some "All")
    None [] "" None None None None None.

Definition unparsableAges : AgeRange.t := AgeRange.mk (Some "N/A") None.

Definition blankGenderTrial : Trial.t :=
  Trial.mk "NCT0006" "Asthma study" (Some ["asthma"]) (Some "")
    (Some adults) [] "" None None None None None.

Definition blankGenderProfile : UserProfile.t :=
  UserProfile.mk ["Asthma"] "" (Fin 30) "Durham, NC" (Fin 50) None None.

Definition stayAtHomeProfile : UserProfile.t :=
  UserProfile.mk ["Asthma"] "male" (Fin 30) "Durham, NC" (Fin 0) None None.

Definition paidProfile : UserProfile.t :=
  UserProfile.mk ["Asthma"] "male" (Fin 30) "Durham, NC" (Fin 50) None (Some (Fin 100)).

(** Matches nothing of [paidProfile] and carries a negative amount. *)
Definition negativeAmountTrial : Trial.t :=
  Trial.mk "NCT0007" "Sleep study" (Some ["insomnia"]) (Some "Women")
    (Some (AgeRange.mk (Some "65 Years") None)) [] ""
    (Some (Compensation.mk true (Some (Fin (-1000))) (Some "USD") None))
    None None None None.

Definition rankedAsthmaTrial : Trial.t :=
  Trial.withMatchScore asthmaTrial (Fin (4 # 5)).

(** The component shows one ranked trial and a new search is in flight. *)
Definition searchingState : TrialMatching.State :=
  TrialMatching.mkState [rankedAsthmaTrial] 0 true None [] [] true true
    (Some "Asthma|Raleigh, NC").

(** A serialisation that tells apart the keys of the samples. *)
Definition keyString (k : TrialMatching.KeyFields) : string :=
  String.concat "|" (TrialMatching.key_conditions k ++ [TrialMatching.key_location k]).

Definition pendingSearch : TrialMatching.Pending :=
  TrialMatching.mkPending asthmaProfile "Asthma|Durham, NC".

Definition freshSystem : TrialMatching.System :=
  TrialMatching.mkSystem TrialMatching.initial [] [].
End Samples.

(** ** services/api: the request of [searchTrials] *)

Module Api.

(** [SearchOptions]; both fields are optional. *)
Record SearchOptions : Type := mkOptions {
  max_results : option number;
  distance : option number
}.

(** The query parameters of the GET request. *)
Record Params : Type := mkParams {
  p_condition : string;
  p_location : option string;
  p_max_results : number;
  p_distance : number
}.

(** [x || d] for an optional number. *)
Definition orDefault (x : option number) (d : number) : number :=
  match x with
  | Some v => num_or v d
  | None => d
  end.

(** The [params] object built by [searchTrials]. *)
Definition searchParams (condition : string) (location : option string)
    (options : SearchOptions) : Params :=
  mkParams condition location
    (orDefault (max_results options) (Fin 20))
    (orDefault (distance options) (Fin 50)).

(** The parameters sent for a request of the component, which always
    gives a location and both options. *)
Definition paramsOf (r : TrialMatching.Request) : Params :=
  searchParams (TrialMatching.req_condition r) (Some (TrialMatching.req_location r))
    (mkOptions (Some (Fin (inject_Z (TrialMatching.req_max_results r))))
               (Some (TrialMatching.req_distance r))).

End Api.

(** ** TrialMatching: the swipe handlers, [loadMoreTrials] and the view

    A handler runs on the state of the latest render.  [loadMoreTrials]
    is split at its [await] like [loadTrials]; the part after the [await]
    still reads the [trials] of the render in which the button was
    clicked. *)

Module Review.
Import TrialMatching.

(** [localStorage]: the array kept under ['matchedTrials'], as the list
    of the trials written; [None] when the key is absent. *)
Record Storage : Type := mkStorage { matchedTrialsItem : option (list Trial.t) }.

(** [JSON.parse(localStorage.getItem('matchedTrials') || '[]')] *)
Definition savedMatches (st : Storage) : list Trial.t :=
  match matchedTrialsItem st with
  | Some l => l
  | None => []
  end.

(** [currentIndex < trials.length], and then [trials[currentIndex]]. *)
Definition currentTrial (s : State) : option Trial.t :=
  nth_error (trials s) (currentIndex s).

Definition handleSwipeLeft (s : State) : State :=
  match currentTrial s with
  | Some trial =>
      setCurrentIndex (currentIndex s + 1)
        (setRejectedTrials (rejectedTrials s ++ [trial]) s)
  | None => s
  end.

Definition handleSwipeRight (s : State) (st : Storage) : State * Storage :=
  match currentTrial s with
  | Some trial =>
      (setCurrentIndex (currentIndex s + 1)
         (setMatchedTrials (matchedTrials s ++ [trial]) s),
       mkStorage (Some (savedMatches st ++ [trial])%list))
  | None => (s, st)
  end.

Definition msgNoMore : string := "No more trials found matching your criteria.".

(** A suspended [loadMoreTrials]: the profile and the [trials] of its
    closure. *)
Record PendingMore : Type := mkPendingMore {
  more_profile : UserProfile.t;
  more_trials : list Trial.t
}.

(** [userProfile.medicalConditions[conditionIndex] || userProfile.medicalConditions[0]] *)
Definition moreCondition (conditions : list string) (first : string)
    (conditionIndex : nat) : string :=
  match nth_error conditions conditionIndex with
  | Some c => if nonEmpty c then c else first
  | None => first
  end.

(** [loadMoreTrials] up to the [await]. *)
Definition loadMoreTrials_start (userProfile : UserProfile.t) (s : State)
    : State * option (Request * PendingMore) :=
  match UserProfile.medicalConditions userProfile with
  | [] => (s, None)
  | first :: _ =>
      let conditionIndex := if (0 <? List.length (matchedTrials s))%nat then 1%nat else 0%nat in
      let condition :=
        moreCondition (UserProfile.medicalConditions userProfile) first conditionIndex in
      (setLoading true s,
       Some (mkRequest condition (UserProfile.location userProfile)
               (UserProfile.maxTravelDistance userProfile) 20,
             mkPendingMore userProfile (trials s)))
  end.

(** [!existingIds.has(t.id)] for [existingIds = new Set(trials.map(t => t.id))] *)
Definition unseen (existing : list Trial.t) (t : Trial.t) : bool :=
  negb (existsb (String.eqb (Trial.id t)) (map Trial.id existing)).

(** The [try] block after the [await]. *)
Definition afterAwaitMore (k : PendingMore) (r : response) (s : State) : result State :=
  match r with
  | Rejected err => Throw err
  | Resolved (Some ((_ :: _) as moreTrials)) =>
      match filter (unseen (more_trials k)) moreTrials with
      | (_ :: _) as newTrials =>
          rankedNewTrials <- rankTrialsByMatchScore newTrials (more_profile k) ;;
          Ok (setTrials (more_trials k ++ rankedNewTrials) s)
      | [] => Ok (setError (Some msgNoMore) s)
      end
  | Resolved _ => Ok s
  end.

(** The [catch] block only logs; the [finally] block clears [loading]. *)
Definition loadMoreTrials_settle (k : PendingMore) (r : response) (s : State) : State :=
  setLoading false
    match afterAwaitMore k r s with
    | Ok s' => s'
    | Throw _ => s
    end.

(** *** What is rendered *)

(** [error] is rendered when it is a non-empty string. *)
Definition hasError (s : State) : bool :=
  match error s with
  | Some m => nonEmpty m
  | None => false
  end.

Definition idle (s : State) : bool := negb (loading s) && negb (hasError s).

(** The card of the current trial. *)
Definition showsCard (s : State) : bool :=
  idle s && (0 <? List.length (trials s))%nat && (currentIndex s <? List.length (trials s))%nat.

(** "You've viewed all available trials!" with the load-more button. *)
Definition showsDone (s : State) : bool :=
  idle s && (0 <? List.length (trials s))%nat && (List.length (trials s) <=? currentIndex s)%nat.

(** The "No Matching Trials Found" warning. *)
Definition showsEmpty (s : State) : bool :=
  idle s && (List.length (trials s) =? 0)%nat.

(** The line "Viewed | Matched | Passed". *)
Definition showsStats (s : State) : bool :=
  idle s && (0 <? List.length (trials s))%nat.

(** *** The whole component as a transition system *)

Inductive action : Type :=
| Search (userProfile : UserProfile.t)
| SearchSettled (r : response)
| SwipeLeft
| SwipeRight
| LoadMore (userProfile : UserProfile.t)
| MoreSettled (r : response)
| Unmount.

(** The component state, the suspended calls of [loadTrials] and of
    [loadMoreTrials] (oldest first), the local storage and every request
    sent so far. *)
Record Session : Type := mkSession {
  ui : State;
  searches : list Pending;
  mores : list PendingMore;
  storage : Storage;
  sent : list Request
}.

Section Perform.
Variable JSON_stringify : KeyFields -> string.

Definition perform (w : Session) (a : action) : Session :=
  match a with
  | Search userProfile =>
      match loadTrials_start JSON_stringify userProfile (ui w) with
      | (s, Some (req, k)) =>
          mkSession s (searches w ++ [k]) (mores w) (storage w) (sent w ++ [req])
      | (s, None) => mkSession s (searches w) (mores w) (storage w) (sent w)
      end
  | SearchSettled r =>
      match searches w with
      | k :: rest =>
          mkSession (loadTrials_settle k r (ui w)) rest (mores w) (storage w) (sent w)
      | [] => w
      end
  | SwipeLeft =>
      mkSession (handleSwipeLeft (ui w)) (searches w) (mores w) (storage w) (sent w)
  | SwipeRight =>
      let '(s, st) := handleSwipeRight (ui w) (storage w) in
      mkSession s (searches w) (mores w) st (sent w)
  | LoadMore userProfile =>
      match loadMoreTrials_start userProfile (ui w) with
      | (s, Some (req, k)) =>
          mkSession s (searches w) (mores w ++ [k]) (storage w) (sent w ++ [req])
      | (s, None) => mkSession s (searches w) (mores w) (storage w) (sent w)
      end
  | MoreSettled r =>
      match mores w with
      | k :: rest =>
          mkSession (loadMoreTrials_settle k r (ui w)) (searches w) rest (storage w) (sent w)
      | [] => w
      end
  | Unmount =>
      mkSession (setIsMounted false (ui w)) (searches w) (mores w) (storage w) (sent w)
  end.

Definition performAll (w : Session) (acts : list action) : Session :=
  fold_left perform acts w.
End Perform.

(** The component right after it is mounted, with the given storage. *)
Definition mounted (st : Storage) : Session := mkSession initial [] [] st [].

End Review.

(** ** TrialMatching: the first version of the [loadTrials] effect

    The first version of the component has no refs: every change of the
    profile runs the effect, which calls [searchTrials] without options.
    It uses the same state; the three refs are left alone. *)

Module FirstVersion.
Import TrialMatching.

Definition loadTrials_start (userProfile : UserProfile.t) (s : State)
    : State * option Api.Params :=
  match UserProfile.medicalConditions userProfile with
  | condition :: _ =>
      let s := setError None (setLoading true s) in
      let city := trim (splitHead ","%char (UserProfile.location userProfile)) in
      (s, Some (Api.searchParams condition (Some city) (Api.mkOptions None None)))
  | [] => (setLoading false (setError (Some msgMissingConditions) s), None)
  end.

(** The [try] block after the [await]. *)
Definition afterAwait (userProfile : UserProfile.t) (r : response) (s : State)
    : result State :=
  match r with
  | Rejected err => Throw err
  | Resolved (Some ((_ :: _) as data)) =>
      rankedTrials <- rankTrialsByMatchScore data userProfile ;;
      Ok (setRejectedTrials []
           (setMatchedTrials []
             (setCurrentIndex 0 (setTrials rankedTrials s))))
  | Resolved _ => Ok (setTrials [] (setError (Some msgNoTrials) s))
  end.

Definition loadTrials_settle (userProfile : UserProfile.t) (r : response) (s : State)
    : State :=
  setLoading false
    match afterAwait userProfile r s with
    | Ok s' => s'
    | Throw _ => setTrials [] (setError (Some msgFailed) s)
    end.

End FirstVersion.

(** What the user sees of a state: everything but the three refs. *)
Definition visible (s : TrialMatching.State)
    : list Trial.t * nat * bool * option string * list Trial.t * list Trial.t :=
  (TrialMatching.trials s, TrialMatching.currentIndex s, TrialMatching.loading s,
   TrialMatching.error s, TrialMatching.matchedTrials s, TrialMatching.rejectedTrials s).

(** ** App: the completeness test of the profile *)

Module App.

(** Modelled from the spec: the declaration of [UserProfile] is not among
    the sources.  [App] reads three more of its fields, the two names and
    the contact address; the other fields are the ones of
    [UserProfile.t]. *)
Record Profile : Type := mkProfile {
  firstName : string;
  lastName : string;
  contactEmail : string;
  matching : UserProfile.t
}.

(** [Boolean(profile.firstName && profile.lastName && profile.age > 0 &&
    profile.location && profile.medicalConditions.length > 0 &&
    profile.contactEmail)] *)
Definition isComplete (profile : Profile) : bool :=
  nonEmpty (firstName profile) &&
  nonEmpty (lastName profile) &&
  num_gt (UserProfile.age (matching profile)) (Fin 0) &&
  nonEmpty (UserProfile.location (matching profile)) &&
  (0 <? List.length (UserProfile.medicalConditions (matching profile)))%nat &&
  nonEmpty (contactEmail profile).

End App.

(** ** Vocabulary of the statements on the component *)

(** [c] occurs in [s]. *)
Fixpoint hasChar (c : ascii) (s : string) : bool :=
  match s with
  | EmptyString => false
  | String x r => Ascii.eqb x c || hasChar c r
  end.

(** The [id]s of a list of trials, in order. *)
Definition ids (l : list Trial.t) : list string := map Trial.id l.

(** A request of [loadTrials], which asks for 30 results. *)
Definition isSearchRequest (r : TrialMatching.Request) : bool :=
  (TrialMatching.req_max_results r =? 30)%Z.

Definition isSearchSettled (a : Review.action) : bool :=
  match a with
  | Review.SearchSettled _ => true
  | _ => false
  end.

(** The swipe of a choice: [true] is a swipe to the right. *)
Definition swipeOf (right : bool) : Review.action :=
  if right then Review.SwipeRight else Review.SwipeLeft.

(** The trials of [l] paired with a choice equal to [right], in order;
    trials beyond the last choice are left out. *)
Definition chosen (right : bool) (l : list Trial.t) (choices : list bool) : list Trial.t :=
  map fst (filter (fun tc => Bool.eqb (snd tc) right) (combine l choices)).

(** No response of the trace holds the same [id] twice. *)
Definition uniqueIdsIn (a : Review.action) : Prop :=
  match a with
  | Review.SearchSettled (TrialMatching.Resolved (Some data)) => NoDup (ids data)
  | Review.MoreSettled (TrialMatching.Resolved (Some data)) => NoDup (ids data)
  | _ => True
  end.

(** The list on screen and the lists held by the suspended calls of
    [loadMoreTrials] hold no [id] twice. *)
Definition uniqueIds (w : Review.Session) : Prop :=
  NoDup (ids (TrialMatching.trials (Review.ui w))) /\
  Forall (fun k => NoDup (ids (Review.more_trials k))) (Review.mores w).

(** The in-flight flag is set exactly when one [loadTrials] is suspended. *)
Definition searchInSync (w : Review.Session) : Prop :=
  (TrialMatching.isFetchingRef (Review.ui w) = true /\
   exists k, Review.searches w = [k]) \/
  (TrialMatching.isFetchingRef (Review.ui w) = false /\ Review.searches w = []).

(** The response does not lead to a ranked list: the call is rejected,
    the data is not a non-empty array, or the ranking throws. *)
Definition unsuccessful (userProfile : UserProfile.t) (r : TrialMatching.response) : Prop :=
  match r with
  | TrialMatching.Rejected _ => True
  | TrialMatching.Resolved (Some (d :: ds)) =>
      exists e, rankTrialsByMatchScore (d :: ds) userProfile = Throw e
  | TrialMatching.Resolved _ => True
  end.

(** ** More sample data *)

Module MoreSamples.
(** No age range, and a substance the sample profile is allergic to. *)
Definition peanutTrialNoAgeRange : Trial.t :=
  Trial.mk "NCT0008" "Oral immunotherapy" (Some ["peanut allergy"]) (Some "All")
    None [] "" None None (Some [Samples.peanutExtract]) None None.

Definition trialWithId (id : string) : Trial.t :=
  Trial.mk id "Asthma study" (Some ["asthma"]) (Some "All")
    (Some Samples.adults) [] "" None None None None None.
End MoreSamples.

(** ** The built-ins on sample inputs *)

Example parseInt_samples :
  parseInt (Some "18 Years") = Fin 18 /\
  parseInt (Some "N/A") = NaN /\
  parseInt None = NaN /\
  parseInt (Some "") = NaN /\
  parseInt (Some "  -7.5") = Fin (-7) /\
  parseInt (Some "0x1F") = Fin 31 /\
  parseInt (Some "0") = Fin 0.
Proof. repeat split. Qed.

Example string_samples :
  toLowerCase "Peanut Extract" = "peanut extract" /\
  trim "  Peanut " = "Peanut" /\
  includes "female" "male" = true /\
  includes "peanut extract" "peanuts" = false /\
  includes "" "" = true /\
  splitHead ","%char "Durham, NC" = "Durham".
Proof. repeat split. Qed.

Example number_samples :
  num_div (Fin 0) (Fin 0) = NaN /\
  num_div (Fin 1) (Fin 0) = PosInf /\
  num_div (Fin 10) (Fin 4) = Fin (5 # 2) /\
  num_sub PosInf PosInf = NaN /\
  Math_max (Fin 5) NaN = NaN /\
  num_le NaN NaN = false /\
  num_or NaN (Fin 999) = Fin 999 /\
  num_or (Fin 0) (Fin 999) = Fin 999.
Proof. repeat split. Qed.

(** ** The allergy filter *)

(** C6: with an empty allergy list the filter returns its input list. *)
Theorem filter_no_allergies :
  forall trials : list Trial.t, filterTrialsByAllergies trials (Some []) = trials.
Proof. intro trials. reflexivity. Qed.

Lemma filter_undefined_allergies :
  forall trials : list Trial.t, filterTrialsByAllergies trials None = trials.
Proof. reflexivity. Qed.

(** For a non-empty allergy list the filter is [filter keepTrial] on the
    normalized allergens. *)
Lemma filter_some_allergies :
  forall trials a r,
    filterTrialsByAllergies trials (Some (a :: r)) =
    filter (keepTrial (map (fun a => trim (toLowerCase a)) (a :: r))) trials.
Proof. reflexivity. Qed.

Lemma filter_In_allergies :
  forall trials allergies trial,
    allergies <> [] ->
    (In trial (filterTrialsByAllergies trials (Some allergies)) <->
     In trial trials /\
     keepTrial (map (fun a => trim (toLowerCase a)) allergies) trial = true).
Proof.
  intros trials [|a r] trial Hne; [congruence|].
  rewrite filter_some_allergies. apply filter_In.
Qed.

Lemma substanceHit_peanut :
  forall trial ty allergies,
    Trial.substancesUsed trial = Some [Substance.mk ty (Some "Peanut Extract")] ->
    In "peanut" allergies ->
    substanceHit (map (fun a => trim (toLowerCase a)) allergies) trial = true.
Proof.
  intros trial ty allergies Hs Hin. unfold substanceHit. rewrite Hs.
  cbn [existsb Substance.name nonEmpty andb orb].
  rewrite orb_false_r. apply existsb_exists.
  exists "peanut". split; [|reflexivity].
  change "peanut" with ((fun a => trim (toLowerCase a)) "peanut").
  apply in_map, Hin.
Qed.

(** C7, counterexample: the only substance of the trial is "Peanut
    Extract" and the allergy list is ["peanuts"], yet the filter removes
    the trial, because its criteria text contains "allergic to peanuts". *)
Lemma peanuts_plural_excluded_by_criteria :
  Trial.substancesUsed Samples.peanutTrialWithCriteria = Some [Samples.peanutExtract] /\
  filterTrialsByAllergies [Samples.peanutTrialWithCriteria] (Some ["peanuts"]) = [].
Proof. split; reflexivity. Qed.

(** C7, amended: a trial whose only substance is "Peanut Extract" is
    removed by the filter whenever the allergy list contains "peanut";
    with the allergy list ["peanuts"] it is kept, provided its criteria
    text does not contain "allergy to peanuts" or "allergic to peanuts". *)
Theorem peanut_extract_substring_rule :
  forall (trial : Trial.t) (ty : string),
    Trial.substancesUsed trial = Some [Substance.mk ty (Some "Peanut Extract")] ->
    (forall trials allergies,
        In "peanut" allergies ->
        ~ In trial (filterTrialsByAllergies trials (Some allergies))) /\
    ((forall c, Trial.eligibilityCriteria trial = Some c ->
                includes (toLowerCase c) "allergy to peanuts" = false /\
                includes (toLowerCase c) "allergic to peanuts" = false) ->
     forall trials,
        In trial trials ->
        In trial (filterTrialsByAllergies trials (Some ["peanuts"]))).
Proof.
  intros trial ty Hs. split.
  - intros trials allergies Hin Hkept.
    apply filter_In_allergies in Hkept.
    + destruct Hkept as [_ Hkeep]. unfold keepTrial in Hkeep.
      rewrite (substanceHit_peanut trial allergies Hs Hin) in Hkeep. discriminate.
    + intro He. rewrite He in Hin. exact Hin.
  - intros Hc trials Hin.
    apply filter_In_allergies; [discriminate|]. split; [exact Hin|].
    unfold keepTrial.
    assert (Hsub : substanceHit (map (fun a => trim (toLowerCase a)) ["peanuts"]) trial = false).
    { unfold substanceHit. rewrite Hs. reflexivity. }
    rewrite Hsub.
    assert (Hcrit : criteriaHit (map (fun a => trim (toLowerCase a)) ["peanuts"]) trial = false).
    { unfold criteriaHit. destruct (Trial.eligibilityCriteria trial) as [c|] eqn:Ec; [|reflexivity].
      destruct (Hc c eq_refl) as [H1 H2].
      change (map (fun a => trim (toLowerCase a)) ["peanuts"]) with ["peanuts"].
      cbn [existsb]. change ("allergy to " ++ "peanuts") with "allergy to peanuts".
      change ("allergic to " ++ "peanuts") with "allergic to peanuts".
      rewrite H1, H2. apply andb_false_r. }
    rewrite Hcrit. reflexivity.
Qed.

Lemma peanut_extract_substring_rule_witness :
  (forall trials allergies,
      In "peanut" allergies ->
      ~ In Samples.peanutTrial (filterTrialsByAllergies trials (Some allergies))) /\
  In Samples.peanutTrial
     (filterTrialsByAllergies [Samples.asthmaTrial; Samples.peanutTrial] (Some ["peanuts"])).
Proof.
  destruct (@peanut_extract_substring_rule Samples.peanutTrial "Dietary Supplement" eq_refl)
    as [Hout Hkept].
  split; [exact Hout|].
  apply Hkept.
  - intros c Hc. discriminate Hc.
  - right. left. reflexivity.
Defined.

(** ** The match score: the five checks *)

(** C10, counterexample: the profile gender (the empty string) is a
    substring of the trial gender (the empty string), and no gender point
    is awarded, since an empty [trial.gender] does not pass the test
    [if (trial.gender)]: the trial matches on condition and age, and its
    score is 65/100. *)
Lemma blank_gender_earns_nothing :
  Trial.gender Samples.blankGenderTrial = Some "" /\
  includes (toLowerCase "") (toLowerCase (UserProfile.gender Samples.blankGenderProfile)) = true /\
  checkGender Samples.blankGenderProfile Samples.blankGenderTrial (mkTally (Fin 0) (Fin 0)) =
  mkTally (Fin 0) (Fin 15) /\
  conditionMatch Samples.blankGenderProfile Samples.blankGenderTrial = true /\
  ageMatch Samples.blankGenderProfile Samples.adults = true /\
  calculateMatchScore Samples.blankGenderProfile Samples.blankGenderTrial = Ok (Fin (13 # 20)) /\
  13 # 20 == (50 + 0 + 15 + 0 + 0) / (50 + 15 + 15 + 20 + 0).
Proof. repeat split. Qed.

Lemma checkGender_match :
  forall profile trial a,
    genderMatch profile trial = true ->
    checkGender profile trial a =
    mkTally (num_add (score a) (Fin 15)) (num_add (maxScore a) (Fin 15)).
Proof. intros profile trial a H. unfold checkGender. rewrite H. reflexivity. Qed.

Lemma checkLocation_within :
  forall profile trial a d,
    Trial.distance trial = Some d ->
    num_le d (UserProfile.maxTravelDistance profile) = true ->
    checkLocation profile trial a =
    mkTally
      (num_add (score a)
         (Math_max (Fin 5)
            (num_mul (Fin 20)
               (num_sub (Fin 1) (num_div d (UserProfile.maxTravelDistance profile))))))
      (num_add (maxScore a) (Fin 20)).
Proof.
  intros profile trial a d Hd Hle. unfold checkLocation. rewrite Hd, Hle. reflexivity.
Qed.

Lemma checkLocation_beyond :
  forall profile trial a d,
    Trial.distance trial = Some d ->
    num_le d (UserProfile.maxTravelDistance profile) = false ->
    checkLocation profile trial a = mkTally (score a) (num_add (maxScore a) (Fin 20)).
Proof.
  intros profile trial a d Hd Hle. unfold checkLocation. rewrite Hd, Hle. reflexivity.
Qed.

Lemma checkLocation_no_distance :
  forall profile trial a,
    Trial.distance trial = None ->
    checkLocation profile trial a = mkTally (score a) (num_add (maxScore a) (Fin 20)).
Proof. intros profile trial a Hd. unfold checkLocation. rewrite Hd. reflexivity. Qed.

Lemma Qle_bool_false_intro : forall x y, y < x -> Qle_bool x y = false.
Proof.
  intros x y H. destruct (Qle_bool x y) eqn:E; [|reflexivity].
  apply Qle_bool_iff in E. lra.
Qed.

Lemma Qeq_bool_false_intro : forall x y, ~ x == y -> Qeq_bool x y = false.
Proof.
  intros x y H. destruct (Qeq_bool x y) eqn:E; [|reflexivity].
  apply Qeq_bool_iff in E. contradiction.
Qed.

(** A number numerically equal to a finite one is finite. *)
Lemma num_eqb_fin :
  forall a q, num_eqb a (Fin q) = true -> exists x, a = Fin x /\ x == q.
Proof.
  unfold num_eqb. intros [x| | |] q H; cbn in H; try discriminate.
  apply andb_prop in H. destruct H as [H1 H2].
  apply Qle_bool_iff in H1, H2. exists x. split; [reflexivity | lra].
Qed.

(** The distance score depends on the values of the two numbers only. *)
Lemma distanceScore_value :
  forall x m x0 m0 : Q,
    x == x0 -> m == m0 -> ~ m0 == 0 ->
    num_mul (Fin 20) (num_sub (Fin 1) (num_div (Fin x) (Fin m))) =
    fin (20 * (1 - x0 / m0)).
Proof.
  intros x m x0 m0 Hx Hm Hm0. unfold num_div.
  assert (Hne : ~ m == 0) by (rewrite Hm; exact Hm0).
  rewrite (Qeq_bool_false_intro Hne).
  unfold num_sub, num_mul, fin. f_equal. apply Qred_complete.
  rewrite !Qred_correct, Hx, Hm. reflexivity.
Qed.

(** *** The score as a quotient of points

    The value of each accumulator after each check, as a rational. *)

Lemma tallyIs_start : tallyIs (mkTally (Fin 0) (Fin 0)) 0 0.
Proof. exists 0, 0. split; [reflexivity|]. split; reflexivity. Qed.

Lemma tallyIs_eq :
  forall a s m s2 m2, tallyIs a s m -> s == s2 -> m == m2 -> tallyIs a s2 m2.
Proof.
  intros a s m s2 m2 [s' [m' [E [Hs Hm]]]] Hs2 Hm2.
  exists s', m'. split; [exact E|]. split.
  - rewrite Hs. exact Hs2.
  - rewrite Hm. exact Hm2.
Qed.

Lemma tallyIs_earn :
  forall a s m x y,
    tallyIs a s m ->
    tallyIs (mkTally (num_add (score a) (Fin x)) (num_add (maxScore a) (Fin y)))
            (s + x) (m + y).
Proof.
  intros a s m x y [s' [m' [-> [Hs Hm]]]]. cbn [score maxScore num_add]. unfold fin.
  exists (Qred (s' + x)), (Qred (m' + y)). split; [reflexivity|]. split.
  - rewrite Qred_correct, Hs. reflexivity.
  - rewrite Qred_correct, Hm. reflexivity.
Qed.

Lemma tallyIs_keep :
  forall a s m y,
    tallyIs a s m ->
    tallyIs (mkTally (score a) (num_add (maxScore a) (Fin y))) (s + 0) (m + y).
Proof.
  intros a s m y [s' [m' [-> [Hs Hm]]]]. cbn [score maxScore num_add]. unfold fin.
  exists s', (Qred (m' + y)). split; [reflexivity|]. split.
  - rewrite Hs. ring.
  - rewrite Qred_correct, Hm. reflexivity.
Qed.

Lemma checkConditions_is :
  forall profile trial a s m,
    tallyIs a s m ->
    tallyIs (checkConditions profile trial a)
            (s + pointsIf (conditionMatch profile trial) 50) (m + 50).
Proof.
  intros profile trial a s m H. unfold checkConditions, pointsIf.
  destruct (conditionMatch profile trial); [apply tallyIs_earn | apply tallyIs_keep]; exact H.
Qed.

Lemma checkGender_is :
  forall profile trial a s m,
    tallyIs a s m ->
    tallyIs (checkGender profile trial a)
            (s + pointsIf (genderMatch profile trial) 15) (m + 15).
Proof.
  intros profile trial a s m H. unfold checkGender, pointsIf.
  destruct (genderMatch profile trial); [apply tallyIs_earn | apply tallyIs_keep]; exact H.
Qed.

Lemma checkAge_is :
  forall profile trial range a s m,
    Trial.age_range trial = Some range ->
    tallyIs a s m ->
    exists a',
      checkAge profile trial a = Ok a' /\
      tallyIs a' (s + pointsIf (ageMatch profile range) 15) (m + 15).
Proof.
  intros profile trial range a s m Hr H. unfold checkAge, pointsIf. rewrite Hr.
  eexists. split; [reflexivity|].
  destruct (ageMatch profile range); [apply tallyIs_earn | apply tallyIs_keep]; exact H.
Qed.

Lemma checkLocation_is :
  forall profile trial l a s m,
    proximityEarns profile trial l ->
    tallyIs a s m ->
    tallyIs (checkLocation profile trial a) (s + l) (m + 20).
Proof.
  intros profile trial l a s m Hl H. destruct Hl as [Hd | d Hd Hle | d l Hd Hle Hmax].
  - rewrite (@checkLocation_no_distance profile trial a Hd). apply tallyIs_keep, H.
  - rewrite (@checkLocation_beyond profile trial a d Hd Hle). apply tallyIs_keep, H.
  - rewrite (@checkLocation_within profile trial a d Hd Hle), Hmax. apply tallyIs_earn, H.
Qed.

Lemma checkCompensation_is :
  forall profile trial c w a s m,
    compensationEarns profile trial c w ->
    tallyIs a s m ->
    tallyIs (checkCompensation profile trial a) (s + c) (m + w).
Proof.
  intros profile trial c w a s m Hc H. unfold checkCompensation.
  destruct Hc as [Hw | p Hw Ho | p x Hw Ho Hge | p x c Hw Ho Hge Hmin]; rewrite Hw.
  - apply (tallyIs_eq H); ring.
  - rewrite Ho. apply tallyIs_keep, H.
  - rewrite Ho, Hge. apply tallyIs_earn, H.
  - rewrite Ho, Hge, Hmin. apply tallyIs_earn, H.
Qed.

Lemma compensationEarns_capacity :
  forall profile trial c w, compensationEarns profile trial c w -> 0 <= w.
Proof. intros profile trial c w H. destruct H; discriminate. Qed.

Lemma finalScore_is :
  forall a s m,
    tallyIs a s m -> 0 < m ->
    exists q, finalScore a = Fin q /\ q == s / m.
Proof.
  intros a s m [s' [m' [-> [Hs Hm]]]] Hpos. unfold finalScore. cbn [score maxScore].
  assert (Hgt : num_gt (Fin m') (Fin 0) = true).
  { unfold num_gt. cbn [num_lt]. apply negb_true_iff, Qle_bool_false_intro. lra. }
  assert (Hne : Qeq_bool m' 0 = false).
  { apply Qeq_bool_false_intro. lra. }
  rewrite Hgt. unfold num_div. rewrite Hne. unfold fin.
  exists (Qred (s' / m')). split; [reflexivity|].
  rewrite Qred_correct, Hs, Hm. reflexivity.
Qed.

(** The score of a trial with an age range is the quotient of the points
    earned by the five checks and of their capacities. *)
Lemma score_formula :
  forall profile trial range l c w,
    Trial.age_range trial = Some range ->
    proximityEarns profile trial l ->
    compensationEarns profile trial c w ->
    exists q,
      calculateMatchScore profile trial = Ok (Fin q) /\
      q == (pointsIf (conditionMatch profile trial) 50 +
            pointsIf (genderMatch profile trial) 15 +
            pointsIf (ageMatch profile range) 15 + l + c) /
           (50 + 15 + 15 + 20 + w).
Proof.
  intros profile trial range l c w Hr Hl Hc.
  pose proof (compensationEarns_capacity Hc) as Hw.
  unfold calculateMatchScore. cbn zeta.
  destruct (@checkAge_is profile trial range _ _ _ Hr
              (checkGender_is profile trial
                 (checkConditions_is profile trial tallyIs_start)))
    as [a [Ea Ha]].
  rewrite Ea. cbn [bind].
  destruct (@finalScore_is _ _ _
              (checkCompensation_is Hc (checkLocation_is Hl Ha)))
    as [q [Eq Hq]]; [lra|].
  exists q. split; [rewrite Eq; reflexivity|].
  rewrite Hq. apply Qdiv_comp; ring.
Qed.

Lemma genderMatch_substring :
  forall profile trial g,
    Trial.gender trial = Some g ->
    g <> "" ->
    includes (toLowerCase g) (toLowerCase (UserProfile.gender profile)) = true ->
    genderMatch profile trial = true.
Proof.
  intros profile trial g Hg Hne Hsub. unfold genderMatch. rewrite Hg.
  destruct g as [|c g']; [congruence|].
  cbn [nonEmpty]. rewrite Hsub. apply orb_true_r.
Qed.

(** C10, amended: [calculateMatchScore] awards the 15 gender points
    whenever the trial has a non-empty gender field whose lower-cased form
    contains the lower-cased gender of the profile: the gender check then
    adds 15 to both accumulators, and the score of the trial is the
    quotient of the points of the condition and age checks, of the
    location and of the compensation plus 15, by the capacities
    50 + 15 + 15 + 20 and that of the compensation.  So a profile of
    gender "male" earns them on every trial of gender "Female". *)
Theorem gender_points_by_substring :
  (forall profile trial range g l c w,
      Trial.gender trial = Some g ->
      g <> "" ->
      includes (toLowerCase g) (toLowerCase (UserProfile.gender profile)) = true ->
      Trial.age_range trial = Some range ->
      proximityEarns profile trial l ->
      compensationEarns profile trial c w ->
      (forall a s t,
          tallyIs a s t -> tallyIs (checkGender profile trial a) (s + 15) (t + 15)) /\
      exists q,
        calculateMatchScore profile trial = Ok (Fin q) /\
        q == (pointsIf (conditionMatch profile trial) 50 + 15 +
              pointsIf (ageMatch profile range) 15 + l + c) /
             (50 + 15 + 15 + 20 + w)) /\
  (forall profile trial range l c w,
      Trial.gender trial = Some "Female" ->
      UserProfile.gender profile = "male" ->
      Trial.age_range trial = Some range ->
      proximityEarns profile trial l ->
      compensationEarns profile trial c w ->
      (forall a s t,
          tallyIs a s t -> tallyIs (checkGender profile trial a) (s + 15) (t + 15)) /\
      exists q,
        calculateMatchScore profile trial = Ok (Fin q) /\
        q == (pointsIf (conditionMatch profile trial) 50 + 15 +
              pointsIf (ageMatch profile range) 15 + l + c) /
             (50 + 15 + 15 + 20 + w)).
Proof.
  assert (Hany : forall profile trial range l c w,
             genderMatch profile trial = true ->
             Trial.age_range trial = Some range ->
             proximityEarns profile trial l ->
             compensationEarns profile trial c w ->
             (forall a s t,
                 tallyIs a s t -> tallyIs (checkGender profile trial a) (s + 15) (t + 15)) /\
             exists q,
               calculateMatchScore profile trial = Ok (Fin q) /\
               q == (pointsIf (conditionMatch profile trial) 50 + 15 +
                     pointsIf (ageMatch profile range) 15 + l + c) /
                    (50 + 15 + 15 + 20 + w)).
  { intros profile trial range l c w Hg Hr Hl Hc. split.
    - intros a s t Ha. pose proof (checkGender_is profile trial Ha) as H.
      rewrite Hg in H. exact H.
    - destruct (score_formula Hr Hl Hc) as [q [Eq Hq]].
      exists q. split; [exact Eq|].
      rewrite Hg in Hq. exact Hq. }
  split.
  - intros profile trial range g l c w Hg Hne Hsub. apply Hany.
    exact (genderMatch_substring profile trial Hg Hne Hsub).
  - intros profile trial range l c w Hg Hp. apply Hany.
    unfold genderMatch. rewrite Hg, Hp. reflexivity.
Qed.

Lemma gender_points_by_substring_witness :
  (tallyIs (checkGender Samples.asthmaProfile Samples.asthmaTrial (mkTally (Fin 50) (Fin 50)))
           (50 + 15) (50 + 15) /\
   exists q,
     calculateMatchScore Samples.asthmaProfile Samples.asthmaTrial = Ok (Fin q) /\
     q == (50 + 15 + 15 + 0 + 0) / (50 + 15 + 15 + 20 + 0)) /\
  (exists q,
     calculateMatchScore Samples.paidProfile Samples.asthmaTrial = Ok (Fin q) /\
     q == (50 + 15 + 15 + 0 + 0) / (50 + 15 + 15 + 20 + 10)).
Proof.
  destruct gender_points_by_substring as [Hany Hfemale].
  split.
  - destruct (Hfemale Samples.asthmaProfile Samples.asthmaTrial Samples.adults 0 0 0)
      as [Hstep Hscore].
    + reflexivity.
    + reflexivity.
    + reflexivity.
    + apply NoDistance. reflexivity.
    + apply NotWanted. reflexivity.
    + split; [|exact Hscore].
      apply Hstep. exists 50, 50. split; [reflexivity|]. split; reflexivity.
  - apply (Hany Samples.paidProfile Samples.asthmaTrial Samples.adults "Female" 0 0 10).
    + reflexivity.
    + discriminate.
    + reflexivity.
    + reflexivity.
    + apply NoDistance. reflexivity.
    + apply (@NotOffered _ _ (Fin 100)); reflexivity.
Defined.

(** C5: with [maxTravelDistance = 50], [calculateMatchScore] counts 20
    proximity points for a trial at distance 0, 5 for a trial at distance
    50 and none for a trial at distance 60, and in the three cases 20 in
    the denominator: the location check adds 20, 5 and 0 to the score and
    20 to the maximal score, and the result is the quotient of the points
    of the other checks plus 20, 5 and 0 by the capacities
    50 + 15 + 15 + 20 and that of the compensation. *)
Theorem proximity_points_max_50 :
  forall profile trial range m x c w,
    UserProfile.maxTravelDistance profile = Fin m ->
    m == 50 ->
    Trial.distance trial = Some (Fin x) ->
    Trial.age_range trial = Some range ->
    compensationEarns profile trial c w ->
    let others :=
      pointsIf (conditionMatch profile trial) 50 +
      pointsIf (genderMatch profile trial) 15 +
      pointsIf (ageMatch profile range) 15 + c in
    (x == 0 ->
     (forall a s t,
         tallyIs a s t -> tallyIs (checkLocation profile trial a) (s + 20) (t + 20)) /\
     exists q,
       calculateMatchScore profile trial = Ok (Fin q) /\
       q == (others + 20) / (50 + 15 + 15 + 20 + w)) /\
    (x == 50 ->
     (forall a s t,
         tallyIs a s t -> tallyIs (checkLocation profile trial a) (s + 5) (t + 20)) /\
     exists q,
       calculateMatchScore profile trial = Ok (Fin q) /\
       q == (others + 5) / (50 + 15 + 15 + 20 + w)) /\
    (x == 60 ->
     (forall a s t,
         tallyIs a s t -> tallyIs (checkLocation profile trial a) (s + 0) (t + 20)) /\
     exists q,
       calculateMatchScore profile trial = Ok (Fin q) /\
       q == (others + 0) / (50 + 15 + 15 + 20 + w)).
Proof.
  intros profile trial range m x c w Em Hm Hd Hr Hc. cbn zeta.
  assert (Hm0 : ~ 50 == 0) by (intro H; discriminate H).
  assert (Hfrom : forall l,
             proximityEarns profile trial l ->
             (forall a s t,
                 tallyIs a s t -> tallyIs (checkLocation profile trial a) (s + l) (t + 20)) /\
             exists q,
               calculateMatchScore profile trial = Ok (Fin q) /\
               q == (pointsIf (conditionMatch profile trial) 50 +
                     pointsIf (genderMatch profile trial) 15 +
                     pointsIf (ageMatch profile range) 15 + c + l) /
                    (50 + 15 + 15 + 20 + w)).
  { intros l Hl. split.
    - intros a s t Ha. exact (checkLocation_is Hl Ha).
    - destruct (score_formula Hr Hl Hc) as [q [Eq Hq]].
      exists q. split; [exact Eq|]. rewrite Hq. apply Qdiv_comp; ring. }
  split; [|split]; intro Hx; apply Hfrom.
  - apply (@WithinReach profile trial (Fin x) 20 Hd).
    + rewrite Em. cbn [num_le]. apply Qle_bool_iff. lra.
    + rewrite Em, (distanceScore_value Hx Hm Hm0). reflexivity.
  - apply (@WithinReach profile trial (Fin x) 5 Hd).
    + rewrite Em. cbn [num_le]. apply Qle_bool_iff. lra.
    + rewrite Em, (distanceScore_value Hx Hm Hm0). reflexivity.
  - apply (@TooFar profile trial (Fin x) Hd).
    rewrite Em. cbn [num_le]. apply Qle_bool_false_intro. lra.
Qed.

Lemma proximity_points_max_50_witness :
  (tallyIs (checkLocation Samples.paidProfile (Samples.asthmaTrialAt (Fin 0))
              (mkTally (Fin 80) (Fin 80))) (80 + 20) (80 + 20) /\
   exists q,
     calculateMatchScore Samples.paidProfile (Samples.asthmaTrialAt (Fin 0)) = Ok (Fin q) /\
     q == (50 + 15 + 15 + 0 + 20) / (50 + 15 + 15 + 20 + 10)) /\
  (tallyIs (checkLocation Samples.asthmaProfile (Samples.asthmaTrialAt (Fin 50))
              (mkTally (Fin 80) (Fin 80))) (80 + 5) (80 + 20) /\
   exists q,
     calculateMatchScore Samples.asthmaProfile (Samples.asthmaTrialAt (Fin 50)) = Ok (Fin q) /\
     q == (50 + 15 + 15 + 0 + 5) / (50 + 15 + 15 + 20 + 0)) /\
  (tallyIs (checkLocation Samples.paidProfile (Samples.asthmaTrialAt (Fin 60))
              (mkTally (Fin 80) (Fin 80))) (80 + 0) (80 + 20) /\
   exists q,
     calculateMatchScore Samples.paidProfile (Samples.asthmaTrialAt (Fin 60)) = Ok (Fin q) /\
     q == (50 + 15 + 15 + 0 + 0) / (50 + 15 + 15 + 20 + 10)).
Proof.
  assert (H80 : tallyIs (mkTally (Fin 80) (Fin 80)) 80 80).
  { exists 80, 80. split; [reflexivity|]. split; reflexivity. }
  split; [|split].
  - destruct (@proximity_points_max_50 Samples.paidProfile (Samples.asthmaTrialAt (Fin 0))
                Samples.adults 50 0 0 10 eq_refl (Qeq_refl 50) eq_refl eq_refl
                (@NotOffered Samples.paidProfile (Samples.asthmaTrialAt (Fin 0)) (Fin 100)
                   eq_refl eq_refl)) as [H _].
    destruct (H (Qeq_refl 0)) as [Hstep Hscore].
    split; [apply Hstep, H80 | exact Hscore].
  - destruct (@proximity_points_max_50 Samples.asthmaProfile (Samples.asthmaTrialAt (Fin 50))
                Samples.adults 50 50 0 0 eq_refl (Qeq_refl 50) eq_refl eq_refl
                (@NotWanted Samples.asthmaProfile (Samples.asthmaTrialAt (Fin 50)) eq_refl))
      as [_ [H _]].
    destruct (H (Qeq_refl 50)) as [Hstep Hscore].
    split; [apply Hstep, H80 | exact Hscore].
  - destruct (@proximity_points_max_50 Samples.paidProfile (Samples.asthmaTrialAt (Fin 60))
                Samples.adults 50 60 0 10 eq_refl (Qeq_refl 50) eq_refl eq_refl
                (@NotOffered Samples.paidProfile (Samples.asthmaTrialAt (Fin 60)) (Fin 100)
                   eq_refl eq_refl)) as [_ [_ H]].
    destruct (H (Qeq_refl 60)) as [Hstep Hscore].
    split; [apply Hstep, H80 | exact Hscore].
Defined.

(** Distances 0, 50 and 60 in the final score of an otherwise fully
    matching trial: 100/100, 85/100 and 80/100. *)
Example proximity_in_final_score :
  calculateMatchScore Samples.asthmaProfile (Samples.asthmaTrialAt (Fin 0)) = Ok (Fin 1) /\
  calculateMatchScore Samples.asthmaProfile (Samples.asthmaTrialAt (Fin 50)) = Ok (Fin (17 # 20)) /\
  calculateMatchScore Samples.asthmaProfile (Samples.asthmaTrialAt (Fin 60)) = Ok (Fin (4 # 5)).
Proof. repeat split. Qed.

(** ** The match score: whole scores *)

(** C4, counterexample: the sample trial matches the sample profile on
    condition, gender and age, has no distance and no compensation, the
    profile has no preferred compensation, and the score is 80/100, which
    is not 50/80. *)
Lemma matching_trial_scores_four_fifths :
  conditionMatch Samples.asthmaProfile Samples.asthmaTrial = true /\
  genderMatch Samples.asthmaProfile Samples.asthmaTrial = true /\
  ageMatch Samples.asthmaProfile Samples.adults = true /\
  Trial.distance Samples.asthmaTrial = None /\
  Trial.compensation Samples.asthmaTrial = None /\
  UserProfile.preferredCompensation Samples.asthmaProfile = None /\
  calculateMatchScore Samples.asthmaProfile Samples.asthmaTrial = Ok (Fin (4 # 5)) /\
  (4 # 5 == 80 / 100)%Q /\
  ~ (4 # 5 == 50 / 80)%Q.
Proof. repeat split. intro H. discriminate H. Qed.

(** C4, amended: a trial that matches the profile on condition, gender
    and age and has no distance, scored for a profile without a positive
    preferred compensation, gets exactly 80/100 = 0.8: 50 + 15 + 15 points
    of 50 + 15 + 15 + 20. *)
Theorem matching_trial_without_distance :
  forall profile trial range,
    conditionMatch profile trial = true ->
    genderMatch profile trial = true ->
    Trial.age_range trial = Some range ->
    ageMatch profile range = true ->
    Trial.distance trial = None ->
    wantsCompensation profile = None ->
    calculateMatchScore profile trial = Ok (Fin (4 # 5)).
Proof.
  intros profile trial range Hc Hg Hr Ha Hd Hp.
  unfold calculateMatchScore, checkConditions, checkGender, checkAge,
    checkLocation, checkCompensation.
  rewrite Hc, Hg, Hr. cbn [bind]. rewrite Ha, Hd, Hp. reflexivity.
Qed.

Lemma matching_trial_without_distance_witness :
  calculateMatchScore Samples.asthmaProfile Samples.asthmaTrial = Ok (Fin (4 # 5)).
Proof.
  apply (@matching_trial_without_distance Samples.asthmaProfile Samples.asthmaTrial
           Samples.adults); reflexivity.
Defined.

(** C1, failing inputs: with [maxTravelDistance = 0] and [distance = 0]
    the quotient [0 / 0] makes the score [NaN]; a negative distance makes
    it exceed 1 (104/100); a negative compensation amount makes it
    negative (-100/110). *)
Theorem score_outside_unit_interval :
  calculateMatchScore Samples.stayAtHomeProfile (Samples.asthmaTrialAt (Fin 0)) = Ok NaN /\
  (calculateMatchScore Samples.asthmaProfile (Samples.asthmaTrialAt (Fin (-10))) =
     Ok (Fin (26 # 25)) /\ num_gt (Fin (26 # 25)) (Fin 1) = true) /\
  (calculateMatchScore Samples.paidProfile Samples.negativeAmountTrial =
     Ok (Fin (-10 # 11)) /\ num_lt (Fin (-10 # 11)) (Fin 0) = true).
Proof. repeat split. Qed.

(** C3, failing input: a trial record without [age_range] makes
    [calculateMatchScore] throw, and the exception leaves
    [rankTrialsByMatchScore] for the whole list. *)
Theorem missing_age_range_throws :
  calculateMatchScore Samples.asthmaProfile Samples.noAgeRangeTrial =
    Throw (TypeError "Cannot read properties of undefined (reading 'min')") /\
  rankTrialsByMatchScore [Samples.asthmaTrial; Samples.noAgeRangeTrial] Samples.asthmaProfile =
    Throw (TypeError "Cannot read properties of undefined (reading 'min')").
Proof. split; reflexivity. Qed.

(** An unparsable or missing bound of the age range gets its default. *)
Lemma age_defaults :
  forall range,
    (parseInt (AgeRange.min range) = NaN -> minAge range = Fin 0) /\
    (parseInt (AgeRange.max range) = NaN -> maxAge range = Fin 999).
Proof.
  intro range. unfold minAge, maxAge. split; intro H; rewrite H; reflexivity.
Qed.

Example age_defaults_unparsable :
  minAge Samples.unparsableAges = Fin 0 /\ maxAge Samples.unparsableAges = Fin 999 /\
  minAge Samples.adults = Fin 18 /\ maxAge Samples.adults = Fin 999.
Proof. repeat split. Qed.

(** With an [age_range] the score is computed, whatever the other fields. *)
Lemma score_total_with_age_range :
  forall profile trial range,
    Trial.age_range trial = Some range ->
    exists v, calculateMatchScore profile trial = Ok v.
Proof.
  intros profile trial range Hr. unfold calculateMatchScore, checkAge.
  rewrite Hr. cbn [bind]. eexists. reflexivity.
Qed.

(** The filter is a total function: it never throws. *)
Lemma filter_keeps_sublist :
  forall trials allergies trial,
    In trial (filterTrialsByAllergies trials allergies) -> In trial trials.
Proof.
  intros trials [[|a r]|] trial H; try exact H.
  rewrite filter_some_allergies in H. apply filter_In in H. tauto.
Qed.

(** ** The match score: bounds *)

Lemma fin_in : forall lo hi q, lo <= q -> q <= hi -> inInterval lo hi (fin q).
Proof.
  intros lo hi q Hlo Hhi. exists (Qred q). split; [reflexivity|].
  rewrite Qred_correct. auto.
Qed.

Lemma Qle_bool_false : forall x y, Qle_bool x y = false -> y < x.
Proof.
  intros x y H. apply Qnot_le_lt. intro Hle.
  apply Qle_bool_iff in Hle. congruence.
Qed.

Lemma Qeq_bool_false : forall x y, Qeq_bool x y = false -> ~ x == y.
Proof. intros x y H Heq. apply Qeq_bool_iff in Heq. congruence. Qed.

Lemma Qdiv_unit : forall q m, 0 <= q -> q <= m -> 0 < m -> 0 <= q / m /\ q / m <= 1.
Proof.
  intros q m Hq Hqm Hm. split.
  - apply Qle_shift_div_l; [exact Hm|]. lra.
  - apply Qle_shift_div_r; [exact Hm|]. lra.
Qed.

Lemma Math_max_fin :
  forall x y, Math_max (Fin x) (Fin y) = Fin (if Qle_bool x y then y else x).
Proof. intros x y. unfold Math_max. cbn. destruct (Qle_bool x y); reflexivity. Qed.

Lemma Math_min_fin :
  forall x y, Math_min (Fin x) (Fin y) = Fin (if Qle_bool x y then x else y).
Proof. intros x y. unfold Math_min. cbn. destruct (Qle_bool x y); reflexivity. Qed.

(** The proximity points of a trial within range are between 5 and 20. *)
Lemma proximity_points_bounded :
  forall d maxd,
    finiteNonNegative d ->
    (forall m, maxd = Fin m -> ~ m == 0) ->
    num_le d maxd = true ->
    inInterval 5 20
      (Math_max (Fin 5) (num_mul (Fin 20) (num_sub (Fin 1) (num_div d maxd)))).
Proof.
  intros d maxd [q [-> Hq]] Hnz Hle.
  destruct maxd as [m| | |]; cbn in Hle; try discriminate.
  - apply Qle_bool_iff in Hle.
    assert (Hm0 : ~ m == 0) by (apply Hnz; reflexivity).
    assert (Hm : 0 < m).
    { destruct (Qlt_le_dec 0 m) as [H|H]; [exact H|]. exfalso. apply Hm0. lra. }
    destruct (Qdiv_unit Hq Hle Hm) as [Hlo Hhi].
    unfold num_div. rewrite (Qeq_bool_false_intro Hm0).
    unfold num_sub, num_mul, fin. rewrite Math_max_fin.
    eexists. split; [reflexivity|].
    destruct (Qle_bool 5 (Qred (20 * Qred (1 - Qred (q / m))))) eqn:E.
    + apply Qle_bool_iff in E. split; [exact E|].
      rewrite !Qred_correct. lra.
    + split; lra.
  - exists 20. split; [reflexivity|]. split; lra.
Qed.

(** The partial compensation points are between 0 and 9. *)
Lemma compensation_points_bounded :
  forall amount preferred,
    truthy preferred && num_gt preferred (Fin 0) = true ->
    truthy amount = true ->
    num_lt amount (Fin 0) = false ->
    num_ge amount preferred = false ->
    inInterval 0 9 (Math_min (Fin 9) (num_mul (Fin 10) (num_div amount preferred))).
Proof.
  intros amount preferred Hp Ht Hneg Hge.
  apply andb_prop in Hp. destruct Hp as [Hpt Hpos].
  destruct preferred as [p| | |]; cbn in Hpos; try discriminate.
  - destruct amount as [a| | |]; cbn in Ht, Hneg, Hge; try discriminate.
    apply negb_true_iff, Qle_bool_false in Hpos.
    apply negb_false_iff, Qle_bool_iff in Hneg.
    unfold num_ge in Hge. cbn in Hge. apply Qle_bool_false in Hge.
    assert (Hp0 : ~ p == 0) by lra.
    assert (Hq : 0 <= a / p /\ a / p <= 1) by (apply Qdiv_unit; lra).
    unfold num_div. rewrite (Qeq_bool_false_intro Hp0).
    unfold num_mul, fin. rewrite Math_min_fin.
    eexists. split; [reflexivity|].
    destruct (Qle_bool 9 (Qred (10 * Qred (a / p)))) eqn:E.
    + split; lra.
    + apply Qle_bool_false in E. split; [|lra].
      rewrite !Qred_correct. lra.
  - destruct amount as [a| | |]; cbn in Ht, Hneg, Hge; try discriminate.
    exists 0. split; [reflexivity|]. split; lra.
Qed.

Lemma tally_keep :
  forall lo w a,
    0 <= w -> tallyBounded lo a ->
    tallyBounded (lo + w) (mkTally (score a) (num_add (maxScore a) (Fin w))).
Proof.
  intros lo w a Hw [s [m [-> [H0 [Hsm Hlo]]]]].
  exists s, (Qred (m + w)). split; [reflexivity|].
  rewrite Qred_correct. repeat split; lra.
Qed.

Lemma tally_earn :
  forall lo w a pts,
    inInterval 0 w pts -> tallyBounded lo a ->
    tallyBounded (lo + w) (mkTally (num_add (score a) pts) (num_add (maxScore a) (Fin w))).
Proof.
  intros lo w a pts [p [-> [Hp0 Hpw]]] [s [m [-> [H0 [Hsm Hlo]]]]].
  exists (Qred (s + p)), (Qred (m + w)). split; [reflexivity|].
  rewrite !Qred_correct. repeat split; lra.
Qed.

Lemma tally_weaken :
  forall lo lo' a, lo' <= lo -> tallyBounded lo a -> tallyBounded lo' a.
Proof.
  intros lo lo' a Hle [s [m [-> [H0 [Hsm Hlo]]]]].
  exists s, m. repeat split; try assumption. lra.
Qed.

Lemma fin_const_in : forall w : Q, 0 <= w -> inInterval 0 w (Fin w).
Proof. intros w Hw. exists w. repeat split; lra. Qed.

Lemma inInterval_widen :
  forall lo hi lo' hi' a, lo' <= lo -> hi <= hi' -> inInterval lo hi a -> inInterval lo' hi' a.
Proof.
  intros lo hi lo' hi' a Hlo Hhi [q [-> [H1 H2]]]. exists q. repeat split; lra.
Qed.

Lemma checkConditions_bounded :
  forall profile trial lo a,
    tallyBounded lo a -> tallyBounded (lo + 50) (checkConditions profile trial a).
Proof.
  intros profile trial lo a Ha. unfold checkConditions.
  destruct (conditionMatch profile trial).
  - apply tally_earn; [apply fin_const_in; lra | exact Ha].
  - apply tally_keep; [lra | exact Ha].
Qed.

Lemma checkGender_bounded :
  forall profile trial lo a,
    tallyBounded lo a -> tallyBounded (lo + 15) (checkGender profile trial a).
Proof.
  intros profile trial lo a Ha. unfold checkGender.
  destruct (genderMatch profile trial).
  - apply tally_earn; [apply fin_const_in; lra | exact Ha].
  - apply tally_keep; [lra | exact Ha].
Qed.

Lemma checkAge_bounded :
  forall profile trial range lo a,
    Trial.age_range trial = Some range ->
    tallyBounded lo a ->
    exists a', checkAge profile trial a = Ok a' /\ tallyBounded (lo + 15) a'.
Proof.
  intros profile trial range lo a Hr Ha. unfold checkAge. rewrite Hr.
  eexists. split; [reflexivity|].
  destruct (ageMatch profile range).
  - apply tally_earn; [apply fin_const_in; lra | exact Ha].
  - apply tally_keep; [lra | exact Ha].
Qed.

Lemma checkLocation_bounded :
  forall profile trial lo a,
    (forall d, Trial.distance trial = Some d -> finiteNonNegative d) ->
    (forall m, UserProfile.maxTravelDistance profile = Fin m -> ~ m == 0) ->
    tallyBounded lo a -> tallyBounded (lo + 20) (checkLocation profile trial a).
Proof.
  intros profile trial lo a Hd Hm Ha.
  destruct (Trial.distance trial) as [d|] eqn:Ed.
  - destruct (num_le d (UserProfile.maxTravelDistance profile)) eqn:Ele.
    + rewrite (checkLocation_within profile trial a Ed Ele).
      apply tally_earn; [|exact Ha].
      apply inInterval_widen with (lo := 5) (hi := 20); try lra.
      apply proximity_points_bounded; auto.
    + rewrite (checkLocation_beyond profile trial a Ed Ele).
      apply tally_keep; [lra | exact Ha].
  - rewrite (checkLocation_no_distance profile trial a Ed).
    apply tally_keep; [lra | exact Ha].
Qed.

Lemma offeredAmount_inv :
  forall trial amount,
    offeredAmount trial = Some amount ->
    truthy amount = true /\
    exists c, Trial.compensation trial = Some c /\ Compensation.amount c = Some amount.
Proof.
  intros trial amount. unfold offeredAmount.
  destruct (Trial.compensation trial) as [c|]; [|discriminate].
  destruct (Compensation.has_compensation c); [|discriminate].
  destruct (Compensation.amount c) as [x|] eqn:Ex; [|discriminate].
  destruct (truthy x) eqn:Et; [|discriminate].
  intro H. injection H as <-. split; [exact Et|]. exists c. split; [reflexivity | exact Ex].
Qed.

Lemma wantsCompensation_inv :
  forall profile preferred,
    wantsCompensation profile = Some preferred ->
    truthy preferred && num_gt preferred (Fin 0) = true.
Proof.
  intros profile preferred. unfold wantsCompensation.
  destruct (UserProfile.preferredCompensation profile) as [x|]; [|discriminate].
  destruct (truthy x && num_gt x (Fin 0)) eqn:E; [|discriminate].
  intro H. injection H as <-. exact E.
Qed.

Lemma checkCompensation_bounded :
  forall profile trial lo a,
    (forall c x, Trial.compensation trial = Some c ->
                 Compensation.amount c = Some x -> num_lt x (Fin 0) = false) ->
    tallyBounded lo a -> tallyBounded lo (checkCompensation profile trial a).
Proof.
  intros profile trial lo a Hamt Ha. unfold checkCompensation.
  destruct (wantsCompensation profile) as [preferred|] eqn:Ew; [|exact Ha].
  apply wantsCompensation_inv in Ew.
  apply tally_weaken with (lo := lo + 10); [lra|].
  destruct (offeredAmount trial) as [amount|] eqn:Eo.
  - destruct (offeredAmount_inv trial Eo) as [Ht [c [Hc Hx]]].
    destruct (num_ge amount preferred) eqn:Ege.
    + apply tally_earn; [apply fin_const_in; lra | exact Ha].
    + apply tally_earn; [|exact Ha].
      apply inInterval_widen with (lo := 0) (hi := 9); try lra.
      apply compensation_points_bounded; eauto.
  - apply tally_keep; [lra | exact Ha].
Qed.

Lemma finalScore_bounded :
  forall a, tallyBounded 100 a -> inInterval 0 1 (finalScore a).
Proof.
  intros a [s [m [-> [H0 [Hsm Hlo]]]]]. unfold finalScore. cbn [maxScore score].
  assert (Hm : 0 < m) by lra.
  assert (Hgt : num_gt (Fin m) (Fin 0) = true).
  { unfold num_gt. cbn. apply negb_true_iff.
    destruct (Qle_bool m 0) eqn:E; [|reflexivity].
    apply Qle_bool_iff in E. lra. }
  rewrite Hgt. unfold num_div.
  assert (Hm0 : ~ m == 0) by lra.
  rewrite (Qeq_bool_false_intro Hm0).
  destruct (Qdiv_unit H0 Hsm Hm) as [Hlo' Hhi'].
  apply fin_in; assumption.
Qed.

(** X1: The score is in [0, 1] on the intended inputs: the trial has an age
    range, its distance, when present, is finite and not negative, the
    maximal travel distance is not zero, and the compensation amount,
    when present, is not negative. *)
Theorem score_in_unit_interval :
  forall profile trial range,
    Trial.age_range trial = Some range ->
    (forall d, Trial.distance trial = Some d -> finiteNonNegative d) ->
    (forall m, UserProfile.maxTravelDistance profile = Fin m -> ~ m == 0) ->
    (forall c x, Trial.compensation trial = Some c ->
                 Compensation.amount c = Some x -> num_lt x (Fin 0) = false) ->
    exists v, calculateMatchScore profile trial = Ok v /\ inInterval 0 1 v.
Proof.
  intros profile trial range Hr Hd Hm Hamt. unfold calculateMatchScore.
  assert (H0 : tallyBounded 0 (mkTally (Fin 0) (Fin 0))).
  { exists 0, 0. repeat split; lra. }
  apply (checkConditions_bounded profile trial) in H0.
  apply (checkGender_bounded profile trial) in H0.
  destruct (checkAge_bounded profile trial Hr H0) as [a [Ea Ha]].
  rewrite Ea. cbn [bind].
  apply (checkLocation_bounded profile trial Hd Hm) in Ha.
  apply (checkCompensation_bounded profile trial Hamt) in Ha.
  eexists. split; [reflexivity|].
  apply finalScore_bounded.
  apply tally_weaken with (lo := 0 + 50 + 15 + 15 + 20); [lra | exact Ha].
Qed.

Lemma score_in_unit_interval_witness :
  exists v,
    calculateMatchScore Samples.asthmaProfile (Samples.asthmaTrialAt (Fin 50)) = Ok v /\
    inInterval 0 1 v.
Proof.
  apply (@score_in_unit_interval Samples.asthmaProfile (Samples.asthmaTrialAt (Fin 50))
           Samples.adults).
  - reflexivity.
  - intros d Hd. injection Hd as <-. exists 50. split; [reflexivity | lra].
  - intros m Hm. injection Hm as <-. lra.
  - intros c x Hc. discriminate Hc.
Defined.

(** ** Ranking: the sort *)

Lemma num_le_refl : forall a, isNaN a = false -> num_le a a = true.
Proof.
  intros [q| | |] H; try reflexivity; try discriminate.
  cbn. apply Qle_bool_iff. lra.
Qed.

Lemma num_le_trans :
  forall a b c, num_le a b = true -> num_le b c = true -> num_le a c = true.
Proof.
  intros [x| | |] [y| | |] [z| | |]; cbn; try congruence.
  intros H1 H2. apply Qle_bool_iff in H1, H2. apply Qle_bool_iff. lra.
Qed.

Lemma num_lt_le : forall a b, num_lt a b = true -> num_le a b = true.
Proof.
  intros [x| | |] [y| | |]; cbn; try congruence.
  intro H. apply negb_true_iff, Qle_bool_false in H. apply Qle_bool_iff. lra.
Qed.

(** On numbers other than [NaN] the order is total. *)
Lemma num_not_lt_ge :
  forall a b, isNaN a = false -> isNaN b = false ->
    num_lt a b = false -> num_le b a = true.
Proof.
  intros [x| | |] [y| | |]; cbn; try congruence.
  intros _ _ H. apply negb_false_iff in H. exact H.
Qed.

Lemma num_eqb_not_lt :
  forall a b k, num_eqb a k = true -> num_eqb b k = true -> num_lt a b = false.
Proof.
  unfold num_eqb. intros [x| | |] [y| | |] [z| | |]; cbn; try congruence;
    try (rewrite ?andb_false_r; congruence).
  intros H1 H2. apply andb_prop in H1, H2.
  destruct H1 as [H1 H1'], H2 as [H2 H2'].
  apply Qle_bool_iff in H1, H1', H2, H2'.
  apply negb_false_iff, Qle_bool_iff. lra.
Qed.

(** A positive difference [b - a] is [a < b]. *)
Lemma num_sub_positive :
  forall a b, isNaN a = false -> isNaN b = false ->
    num_gt (num_sub b a) (Fin 0) = num_lt a b.
Proof.
  intros [x| | |] [y| | |] Ha Hb; try discriminate; try reflexivity.
  unfold num_gt, num_sub, num_lt, fin. f_equal.
  destruct (Qle_bool y x) eqn:E.
  - apply Qle_bool_iff in E. apply Qle_bool_iff. rewrite Qred_correct. lra.
  - apply Qle_bool_false in E.
    destruct (Qle_bool (Qred (y - x)) 0) eqn:E'; [|reflexivity].
    apply Qle_bool_iff in E'. rewrite Qred_correct in E'. lra.
Qed.

(** Sorting by a key in descending order: the comparison function is
    [(a, b) => key(b) - key(a)] for a key that is never [NaN]. *)
Section DescendingSort.
Variable A : Type.
Variable key : A -> number.
Hypothesis key_not_NaN : forall a, isNaN (key a) = false.

Lemma insert_by_key :
  forall x y r,
    insert (descendingBy key) x (y :: r) =
    if num_lt (key x) (key y) then y :: insert (descendingBy key) x r else x :: y :: r.
Proof.
  intros x y r. cbn [insert]. unfold descendingBy.
  rewrite num_sub_positive by apply key_not_NaN. reflexivity.
Qed.

Lemma insert_perm : forall x l, Permutation (x :: l) (insert (descendingBy key) x l).
Proof.
  intros x l. induction l as [|y r IH].
  - apply Permutation_refl.
  - rewrite insert_by_key. destruct (num_lt (key x) (key y)).
    + eapply perm_trans; [apply perm_swap|]. apply perm_skip, IH.
    + apply Permutation_refl.
Qed.

Lemma sort_perm : forall l, Permutation l (Array_sort (descendingBy key) l).
Proof.
  induction l as [|x r IH]; cbn [Array_sort].
  - apply perm_nil.
  - eapply perm_trans; [apply perm_skip, IH | apply insert_perm].
Qed.

Lemma insert_sorted :
  forall x l,
    StronglySorted (keyGe key) l ->
    StronglySorted (keyGe key) (insert (descendingBy key) x l).
Proof.
  intros x l. induction l as [|y r IH]; intro Hs.
  - cbn. constructor; constructor.
  - rewrite insert_by_key. inversion Hs as [|? ? Hr Hall]; subst.
    destruct (num_lt (key x) (key y)) eqn:E.
    + constructor; [apply IH, Hr|].
      apply (Permutation_Forall (insert_perm x r)).
      constructor; [|exact Hall].
      unfold keyGe, num_ge. apply num_lt_le, E.
    + assert (Hxy : keyGe key x y).
      { unfold keyGe, num_ge. apply num_not_lt_ge; auto. }
      constructor; [exact Hs|].
      constructor; [exact Hxy|].
      eapply Forall_impl; [|exact Hall].
      intros z Hyz. unfold keyGe, num_ge in *.
      eapply num_le_trans; eassumption.
Qed.

Lemma sort_sorted : forall l, StronglySorted (keyGe key) (Array_sort (descendingBy key) l).
Proof.
  induction l as [|x r IH]; cbn [Array_sort].
  - constructor.
  - apply insert_sorted, IH.
Qed.

(** Inserting [x] moves it only behind elements of a strictly greater
    key, so the elements of any one key keep their order. *)
Lemma insert_stable :
  forall k x l,
    filter (hasKey key k) (insert (descendingBy key) x l) =
    filter (hasKey key k) (x :: l).
Proof.
  intros k x l. induction l as [|y r IH].
  - reflexivity.
  - rewrite insert_by_key. destruct (num_lt (key x) (key y)) eqn:E; [|reflexivity].
    cbn [filter] in *. rewrite IH.
    destruct (hasKey key k x) eqn:Ex, (hasKey key k y) eqn:Ey; try reflexivity.
    unfold hasKey in Ex, Ey.
    rewrite (num_eqb_not_lt _ _ _ Ex Ey) in E. discriminate.
Qed.

Lemma sort_stable :
  forall k l, filter (hasKey key k) (Array_sort (descendingBy key) l) = filter (hasKey key k) l.
Proof.
  intros k l. induction l as [|x r IH]; cbn [Array_sort].
  - reflexivity.
  - rewrite insert_stable. cbn [filter]. rewrite IH. reflexivity.
Qed.
End DescendingSort.

Lemma scoreOrZero_not_NaN : forall trial, isNaN (scoreOrZero trial) = false.
Proof.
  intro trial. unfold scoreOrZero, num_or.
  destruct (Trial.matchScore trial) as [[q| | |]|]; try reflexivity.
  cbn. destruct (Qeq_bool q 0); reflexivity.
Qed.

(** The sort key of a scored trial is its score, unless the score is [NaN]. *)
Lemma scoreOrZero_withMatchScore :
  forall trial v,
    isNaN v = false ->
    num_eqb (scoreOrZero (Trial.withMatchScore trial v)) v = true.
Proof.
  intros trial [q| | |] H; try reflexivity; try discriminate.
  unfold scoreOrZero, num_or. cbn.
  destruct (Qeq_bool q 0) eqn:E; cbn.
  - apply Qeq_bool_iff in E. unfold num_eqb. cbn.
    apply andb_true_intro. split; apply Qle_bool_iff; lra.
  - unfold num_eqb. cbn. apply andb_true_intro. split; apply Qle_bool_iff; lra.
Qed.

Lemma mapM_scoreTrial :
  forall profile trials,
    (forall t, In t trials -> Trial.age_range t <> None) ->
    exists scored,
      mapM (scoreTrial profile) trials = Ok scored /\
      Forall2 (fun t s => exists v, calculateMatchScore profile t = Ok v /\
                                    s = Trial.withMatchScore t v) trials scored.
Proof.
  intros profile trials. induction trials as [|t r IH]; intro Hall.
  - exists []. split; [reflexivity | constructor].
  - destruct IH as [scored [Em Hf]].
    { intros t' Hin. apply Hall. right. exact Hin. }
    destruct (Trial.age_range t) as [range|] eqn:Er.
    + destruct (score_total_with_age_range profile t Er) as [v Ev].
      exists (Trial.withMatchScore t v :: scored). split.
      * cbn [mapM]. unfold scoreTrial at 1. rewrite Ev. cbn [bind]. rewrite Em. reflexivity.
      * constructor; [|exact Hf]. exists v. auto.
    + exfalso. apply (Hall t); [left; reflexivity | exact Er].
Qed.

(** The sort key [matchScore || 0] and the content of the field
    [matchScore] are the same number. *)
Lemma scoreOrZero_rankingKey :
  forall trial, sameNumber (scoreOrZero trial) (rankingKey trial) = true.
Proof.
  intro trial. unfold scoreOrZero, rankingKey, num_or.
  destruct (Trial.matchScore trial) as [[q| | |]|]; try reflexivity.
  cbn [truthy]. destruct (Qeq_bool q 0) eqn:E; cbn [negb sameNumber].
  - apply Qeq_bool_iff. apply Qeq_bool_iff in E. symmetry. exact E.
  - apply Qeq_bool_iff. reflexivity.
Qed.

Lemma num_le_same_l :
  forall a a' b, sameNumber a a' = true -> num_le a b = num_le a' b.
Proof.
  intros [x| | |] [x'| | |] [y| | |]; cbn; try congruence.
  intro H. apply Qeq_bool_iff in H. apply eq_true_iff_eq.
  rewrite !Qle_bool_iff, H. reflexivity.
Qed.

Lemma num_le_same_r :
  forall a a' b, sameNumber a a' = true -> num_le b a = num_le b a'.
Proof.
  intros [x| | |] [x'| | |] [y| | |]; cbn; try congruence.
  intro H. apply Qeq_bool_iff in H. apply eq_true_iff_eq.
  rewrite !Qle_bool_iff, H. reflexivity.
Qed.

Lemma atLeast_num_le : forall a b, num_le b a = true -> atLeast a b.
Proof.
  intros [x| | |] [y| | |]; cbn; try congruence; try (intros _; exact I).
  intro H. apply Qle_bool_iff, H.
Qed.

Lemma scoreGe_atLeast :
  forall a b, scoreGe a b -> atLeast (rankingKey a) (rankingKey b).
Proof.
  intros a b H. unfold scoreGe, keyGe, num_ge in H. apply atLeast_num_le.
  rewrite <- (@num_le_same_l _ _ (rankingKey a) (scoreOrZero_rankingKey b)).
  rewrite <- (@num_le_same_r _ _ (scoreOrZero b) (scoreOrZero_rankingKey a)).
  exact H.
Qed.

Lemma StronglySorted_impl :
  forall (A : Type) (R R' : A -> A -> Prop) (l : list A),
    (forall a b, R a b -> R' a b) -> StronglySorted R l -> StronglySorted R' l.
Proof.
  intros A R R' l HR H. induction H as [|a l _ IH Hall]; constructor.
  - exact IH.
  - eapply Forall_impl; [|exact Hall]. intro b. apply HR.
Qed.

Lemma sort_descendingScores :
  forall l, descendingScores (Array_sort byMatchScore l).
Proof.
  intro l. unfold descendingScores.
  apply (@StronglySorted_impl _ scoreGe _ _ scoreGe_atLeast).
  apply (sort_sorted scoreOrZero scoreOrZero_not_NaN).
Qed.

Lemma sameNumber_num_eqb : forall a b, sameNumber a b = num_eqb a b.
Proof.
  unfold num_eqb. intros [x| | |] [y| | |]; cbn; try reflexivity.
  apply eq_true_iff_eq.
  rewrite andb_true_iff, Qeq_bool_iff, !Qle_bool_iff. split.
  - intro H. rewrite H. split; apply Qle_refl.
  - intros [H1 H2]. apply Qle_antisym; assumption.
Qed.

Lemma hasScore_keyIs : forall k trial, hasScore k trial = keyIs k trial.
Proof.
  intros k trial. unfold hasScore, hasKey, keyIs.
  rewrite sameNumber_num_eqb. unfold num_eqb.
  rewrite (@num_le_same_l _ _ k (scoreOrZero_rankingKey trial)).
  rewrite (@num_le_same_r _ _ k (scoreOrZero_rankingKey trial)).
  reflexivity.
Qed.

Lemma sort_keeps_order :
  forall k l, filter (keyIs k) (Array_sort byMatchScore l) = filter (keyIs k) l.
Proof.
  intros k l.
  rewrite <- !(filter_ext (hasScore k) (keyIs k) (hasScore_keyIs k)).
  apply (sort_stable scoreOrZero scoreOrZero_not_NaN).
Qed.

Lemma withMatchScore_scoredFrom :
  forall profile t v,
    calculateMatchScore profile t = Ok v ->
    scoredFrom profile t (Trial.withMatchScore t v).
Proof.
  intros profile t v H. exists v. split; [exact H|]. cbn. repeat split.
Qed.

(** C8: when every trial the allergy filter keeps has an age range,
    [rankTrialsByMatchScore] returns these trials, each with the result of
    [calculateMatchScore] in its field [matchScore] and otherwise
    unchanged, reordered so that no trial stands behind one of a smaller
    [matchScore]; for every number [k], the trials of [matchScore] [k]
    are in the same order in the result as before the sort. *)
Theorem rank_sorted_stable :
  forall trials profile,
    (forall t,
        In t (filterTrialsByAllergies trials (UserProfile.allergies profile)) ->
        Trial.age_range t <> None) ->
    exists scored ranked,
      rankTrialsByMatchScore trials profile = Ok ranked /\
      Forall2 (scoredFrom profile)
              (filterTrialsByAllergies trials (UserProfile.allergies profile)) scored /\
      Permutation scored ranked /\
      descendingScores ranked /\
      forall k, filter (keyIs k) ranked = filter (keyIs k) scored.
Proof.
  intros trials profile Hall.
  destruct (@mapM_scoreTrial profile
              (filterTrialsByAllergies trials (UserProfile.allergies profile)) Hall)
    as [scored [Em Hf]].
  exists scored, (Array_sort byMatchScore scored).
  split; [|split; [|split; [|split]]].
  - unfold rankTrialsByMatchScore. rewrite Em. reflexivity.
  - eapply Forall2_impl; [|exact Hf].
    intros t s [v [Hv ->]]. apply withMatchScore_scoredFrom, Hv.
  - apply (sort_perm scoreOrZero scoreOrZero_not_NaN).
  - apply sort_descendingScores.
  - intro k. apply sort_keeps_order.
Qed.

Lemma rank_sorted_stable_witness :
  exists scored ranked,
    rankTrialsByMatchScore
      [Samples.asthmaTrial; Samples.asthmaTrialAt (Fin 50); MoreSamples.peanutTrialNoAgeRange;
       Samples.asthmaTrialAt (Fin 60)] Samples.asthmaProfile = Ok ranked /\
    Forall2 (scoredFrom Samples.asthmaProfile)
            (filterTrialsByAllergies
               [Samples.asthmaTrial; Samples.asthmaTrialAt (Fin 50);
                MoreSamples.peanutTrialNoAgeRange; Samples.asthmaTrialAt (Fin 60)]
               (UserProfile.allergies Samples.asthmaProfile)) scored /\
    Permutation scored ranked /\
    descendingScores ranked /\
    forall k, filter (keyIs k) ranked = filter (keyIs k) scored.
Proof.
  apply rank_sorted_stable.
  intros t Hin. vm_compute in Hin.
  destruct Hin as [<-|[<-|[<-|[]]]]; discriminate.
Defined.

(** The trial at distance 50 moves to the front with its score 17/20 in
    [matchScore]; the two trials of score 4/5 keep their input order
    behind it; the peanut trial, which has no age range, is filtered out
    before it is scored. *)
Example rank_sample :
  rankTrialsByMatchScore
    [Samples.asthmaTrial; Samples.asthmaTrialAt (Fin 50); MoreSamples.peanutTrialNoAgeRange;
     Samples.asthmaTrialAt (Fin 60)] Samples.asthmaProfile =
  Ok [Trial.withMatchScore (Samples.asthmaTrialAt (Fin 50)) (Fin (17 # 20));
      Trial.withMatchScore Samples.asthmaTrial (Fin (4 # 5));
      Trial.withMatchScore (Samples.asthmaTrialAt (Fin 60)) (Fin (4 # 5))] /\
  map Trial.matchScore
    [Trial.withMatchScore (Samples.asthmaTrialAt (Fin 50)) (Fin (17 # 20));
     Trial.withMatchScore Samples.asthmaTrial (Fin (4 # 5));
     Trial.withMatchScore (Samples.asthmaTrialAt (Fin 60)) (Fin (4 # 5))] =
  [Some (Fin (17 # 20)); Some (Fin (4 # 5)); Some (Fin (4 # 5))].
Proof. split; reflexivity. Qed.

(** ** The search orchestrator *)

Import TrialMatching.

(** C2, counterexample: the component holds one ranked trial, the
    search in flight fails, and the trial list is empty afterwards. *)
Lemma failed_fetch_drops_results :
  trials Samples.searchingState = [Samples.rankedAsthmaTrial] /\
  trials (loadTrials_settle Samples.pendingSearch
            (Rejected (NetworkError "Network Error")) Samples.searchingState) = [] /\
  trials (loadTrials_settle Samples.pendingSearch
            (Rejected (NetworkError "Network Error")) Samples.searchingState)
  <> trials Samples.searchingState.
Proof. repeat split. discriminate. Qed.

(** C2, amended: when the search call fails and the component is still
    mounted, the error becomes the "Failed to load" message, the trial
    list becomes empty, and the loading and in-flight flags are cleared;
    the stored profile key is not changed. *)
Theorem failed_fetch_reports_and_clears :
  forall (k : Pending) (err : exn) (s : State),
    isMountedRef s = true ->
    let s' := loadTrials_settle k (Rejected err) s in
    error s' = Some msgFailed /\
    trials s' = [] /\
    loading s' = false /\
    isFetchingRef s' = false /\
    searchedProfileRef s' = searchedProfileRef s.
Proof.
  intros k err s Hm. unfold loadTrials_settle, afterAwait, onError.
  rewrite Hm. cbn. repeat split.
Qed.

Lemma failed_fetch_reports_and_clears_witness :
  let s' := loadTrials_settle Samples.pendingSearch
              (Rejected (NetworkError "Network Error")) Samples.searchingState in
  error s' = Some msgFailed /\
  trials s' = [] /\
  loading s' = false /\
  isFetchingRef s' = false /\
  searchedProfileRef s' = searchedProfileRef Samples.searchingState.
Proof.
  apply (@failed_fetch_reports_and_clears Samples.pendingSearch
           (NetworkError "Network Error") Samples.searchingState).
  reflexivity.
Defined.

(** After an unmount a failure changes neither the error nor the list. *)
Lemma failed_fetch_unmounted :
  forall (k : Pending) (err : exn) (s : State),
    isMountedRef s = false ->
    let s' := loadTrials_settle k (Rejected err) s in
    error s' = error s /\ trials s' = trials s /\ isFetchingRef s' = false.
Proof.
  intros k err s Hm. unfold loadTrials_settle, afterAwait, onError.
  rewrite Hm. cbn. repeat split.
Qed.

(** An exception of the ranking is handled by the same [catch]: one
    record without age range discards the whole response. *)
Example bad_record_fails_the_search :
  let s' := loadTrials_settle Samples.pendingSearch
              (Resolved (Some [Samples.asthmaTrial; Samples.noAgeRangeTrial]))
              Samples.searchingState in
  error s' = Some msgFailed /\ trials s' = [].
Proof. split; reflexivity. Qed.

Section SearchGuard.
Variable JSON_stringify : KeyFields -> string.

Lemma start_in_flight :
  forall userProfile s,
    isFetchingRef s = true -> loadTrials_start JSON_stringify userProfile s = (s, None).
Proof. intros userProfile s H. unfold loadTrials_start. rewrite H. reflexivity. Qed.

Lemma start_same_key :
  forall userProfile s,
    searchedProfileRef s = Some (profileKey JSON_stringify userProfile) ->
    loadTrials_start JSON_stringify userProfile s = (s, None).
Proof.
  intros userProfile s H. unfold loadTrials_start.
  destruct (isFetchingRef s || negb (isMountedRef s)); [reflexivity|].
  rewrite H. cbn [sameKey]. rewrite String.eqb_refl. reflexivity.
Qed.

Lemma start_issued :
  forall userProfile s s1 req k,
    loadTrials_start JSON_stringify userProfile s = (s1, Some (req, k)) ->
    isFetchingRef s1 = true /\ isFetchingRef s = false /\ isMountedRef s = true /\
    searchedProfileRef s <> Some (profileKey JSON_stringify userProfile).
Proof.
  intros userProfile s s1 req k. unfold loadTrials_start.
  destruct (isFetchingRef s) eqn:Ef; [discriminate|].
  destruct (isMountedRef s) eqn:Em; [|discriminate]. cbn [orb negb].
  destruct (sameKey _ _) eqn:Ek; [discriminate|].
  destruct (UserProfile.medicalConditions userProfile); [discriminate|].
  destruct (negb (nonEmpty (UserProfile.location userProfile))); [discriminate|].
  intro H. injection H as <- _ _. repeat split.
  intro Hk. rewrite Hk in Ek. cbn [sameKey] in Ek.
  rewrite String.eqb_refl in Ek. discriminate.
Qed.

(** A valid profile with a new key starts a search when none is in flight. *)
Lemma start_issues :
  forall userProfile s condition rest,
    isFetchingRef s = false ->
    isMountedRef s = true ->
    searchedProfileRef s <> Some (profileKey JSON_stringify userProfile) ->
    UserProfile.medicalConditions userProfile = condition :: rest ->
    UserProfile.location userProfile <> "" ->
    exists s1 k,
      loadTrials_start JSON_stringify userProfile s =
      (s1, Some (mkRequest condition
                   (trim (splitHead ","%char (UserProfile.location userProfile)))
                   (UserProfile.maxTravelDistance userProfile) 30, k)).
Proof.
  intros userProfile s condition rest Hf Hm Hk Hc Hl. unfold loadTrials_start.
  rewrite Hf, Hm, Hc. cbn [orb negb].
  destruct (sameKey _ _) eqn:Ek.
  - exfalso. apply Hk. unfold sameKey in Ek.
    destruct (searchedProfileRef s) as [k'|]; [|discriminate].
    apply String.eqb_eq in Ek. congruence.
  - destruct (UserProfile.location userProfile) as [|c l]; [congruence|].
    cbn [nonEmpty negb]. eexists. eexists. reflexivity.
Qed.

(** C9: a search asked for while a fetch is in flight, or with the key
    of the last successful search, is skipped: the state is unchanged
    and [searchTrials] is not called; so once a trigger has started a
    search, a second trigger before it settles sends nothing, and the
    two triggers make exactly one call. *)
Theorem duplicate_search_skipped :
  (forall userProfile s,
      isFetchingRef s = true ->
      loadTrials_start JSON_stringify userProfile s = (s, None)) /\
  (forall userProfile s,
      searchedProfileRef s = Some (profileKey JSON_stringify userProfile) ->
      loadTrials_start JSON_stringify userProfile s = (s, None)) /\
  (forall sys userProfile userProfile' s1 req k,
      loadTrials_start JSON_stringify userProfile (state sys) = (s1, Some (req, k)) ->
      calls (run JSON_stringify sys
               [ProfileChanged userProfile; ProfileChanged userProfile']) =
      (calls sys ++ [req])%list).
Proof.
  split; [exact start_in_flight|]. split; [exact start_same_key|].
  intros sys userProfile userProfile' s1 req k Hstart.
  destruct (start_issued _ _ Hstart) as [Hf _].
  unfold run. cbn [fold_left]. unfold step at 2. rewrite Hstart.
  unfold step. cbn [state]. rewrite (start_in_flight userProfile' _ Hf).
  reflexivity.
Qed.

(** While a fetch is in flight, any number of triggers changes nothing. *)
Lemma triggers_while_in_flight :
  forall profiles sys,
    isFetchingRef (state sys) = true ->
    run JSON_stringify sys (map ProfileChanged profiles) = sys.
Proof.
  unfold run. induction profiles as [|p r IH]; intros sys Hf; [reflexivity|].
  cbn [map fold_left]. unfold step at 2. rewrite (start_in_flight p _ Hf).
  destruct sys as [s pnd cs]. cbn [state pending calls] in *. apply IH. exact Hf.
Qed.

Lemma start_keeps_flag :
  forall userProfile s s1,
    loadTrials_start JSON_stringify userProfile s = (s1, None) ->
    isFetchingRef s1 = isFetchingRef s.
Proof.
  intros userProfile s s1. unfold loadTrials_start.
  destruct (isFetchingRef s || negb (isMountedRef s)).
  { intro H. injection H as <-. reflexivity. }
  destruct (sameKey _ _).
  { intro H. injection H as <-. reflexivity. }
  destruct (UserProfile.medicalConditions userProfile).
  { intro H. injection H as <-. reflexivity. }
  destruct (negb (nonEmpty (UserProfile.location userProfile))).
  { intro H. injection H as <-. reflexivity. }
  discriminate.
Qed.

Lemma settle_clears_flag :
  forall k r s, isFetchingRef (loadTrials_settle k r s) = false.
Proof. reflexivity. Qed.

(** Every step keeps the in-flight flag and the suspended calls in line. *)
Lemma step_oneInFlight :
  forall sys e, oneInFlight sys -> oneInFlight (step JSON_stringify sys e).
Proof.
  intros [s pnd cs] e Hinv. unfold oneInFlight in *. cbn [state pending] in *.
  destruct e as [p|r|]; cbn [step state pending calls].
  - destruct (loadTrials_start JSON_stringify p s) as [s1 [[req k]|]] eqn:E;
      cbn [state pending].
    + destruct (start_issued _ _ E) as [H1 [H0 _]].
      destruct Hinv as [[Hf _]|[_ Hp]]; [congruence|].
      left. split; [exact H1|]. exists k. rewrite Hp. reflexivity.
    + rewrite (start_keeps_flag _ _ E). exact Hinv.
  - destruct pnd as [|k rest]; cbn [state pending]; [exact Hinv|].
    right. split; [apply settle_clears_flag|].
    destruct Hinv as [[_ [k' Hk]]|[_ Hp]]; [|discriminate].
    injection Hk as _ ->. reflexivity.
  - exact Hinv.
Qed.

(** From the initial state there is never more than one search in flight. *)
Lemma run_oneInFlight :
  forall es sys, oneInFlight sys -> oneInFlight (run JSON_stringify sys es).
Proof.
  unfold run. induction es as [|e r IH]; intros sys H; [exact H|].
  cbn [fold_left]. apply IH, step_oneInFlight, H.
Qed.
End SearchGuard.

Lemma duplicate_search_skipped_witness :
  loadTrials_start Samples.keyString Samples.asthmaProfile Samples.searchingState =
    (Samples.searchingState, None) /\
  loadTrials_start Samples.keyString Samples.asthmaProfile
    (setSearchedProfile (Some "Asthma|Durham, NC") initial) =
    (setSearchedProfile (Some "Asthma|Durham, NC") initial, None) /\
  calls (run Samples.keyString Samples.freshSystem
           [ProfileChanged Samples.asthmaProfile; ProfileChanged Samples.asthmaProfile]) =
    (calls Samples.freshSystem ++ [mkRequest "Asthma" "Durham" (Fin 50) 30])%list.
Proof.
  destruct (duplicate_search_skipped Samples.keyString) as [Hflight [Hkey Htwice]].
  split; [|split].
  - apply Hflight. reflexivity.
  - apply Hkey. reflexivity.
  - apply (Htwice Samples.freshSystem Samples.asthmaProfile Samples.asthmaProfile
             (setError None (setLoading true (setIsFetching true initial)))
             (mkRequest "Asthma" "Durham" (Fin 50) 30)
             (mkPending Samples.asthmaProfile "Asthma|Durham, NC")).
    reflexivity.
Defined.

(** ** More on the allergy filter *)

Lemma keepTrial_nil : forall trial, keepTrial [] trial = true.
Proof.
  intro trial. unfold keepTrial.
  assert (Hs : substanceHit [] trial = false).
  { unfold substanceHit. destruct (Trial.substancesUsed trial) as [subs|]; [|reflexivity].
    destruct (existsb _ subs) eqn:E; [|reflexivity].
    apply existsb_exists in E. destruct E as [sub [_ H]].
    destruct (Substance.name sub); [|discriminate].
    apply andb_prop in H. destruct H as [_ H]. discriminate H. }
  assert (Hc : criteriaHit [] trial = false).
  { unfold criteriaHit. destruct (Trial.eligibilityCriteria trial); [|reflexivity].
    apply andb_false_r. }
  rewrite Hs, Hc. reflexivity.
Qed.

Lemma filter_is_filter :
  forall trials allergies,
    filterTrialsByAllergies trials (Some allergies) =
    filter (keepTrial (map (fun a => trim (toLowerCase a)) allergies)) trials.
Proof.
  intros trials [|a r]; [|reflexivity].
  cbn [filterTrialsByAllergies map].
  induction trials as [|t l IH]; [reflexivity|].
  cbn [filter]. rewrite keepTrial_nil, <- IH. reflexivity.
Qed.

Lemma filter_filter_same :
  forall (A : Type) (f : A -> bool) (l : list A), filter f (filter f l) = filter f l.
Proof.
  intros A f l. induction l as [|x r IH]; [reflexivity|].
  cbn [filter]. destruct (f x) eqn:E; [|exact IH].
  cbn [filter]. rewrite E, IH. reflexivity.
Qed.

(** X5: Every trial is judged on its own: the filter of a concatenation is
    the concatenation of the filters, and filtering twice changes
    nothing. *)
Theorem filter_app_idempotent :
  forall trials1 trials2 allergies,
    filterTrialsByAllergies (trials1 ++ trials2) allergies =
      (filterTrialsByAllergies trials1 allergies ++
       filterTrialsByAllergies trials2 allergies)%list /\
    filterTrialsByAllergies (filterTrialsByAllergies trials1 allergies) allergies =
      filterTrialsByAllergies trials1 allergies.
Proof.
  intros trials1 trials2 [allergies|]; [|split; reflexivity].
  rewrite !filter_is_filter. split.
  - apply filter_app.
  - apply filter_filter_same.
Qed.

Lemma substanceHit_false_undisclosed :
  forall allergies trial,
    (forall subs sub n,
        Trial.substancesUsed trial = Some subs -> In sub subs ->
        Substance.name sub = Some n -> n = "") ->
    substanceHit allergies trial = false.
Proof.
  intros allergies trial H. unfold substanceHit.
  destruct (Trial.substancesUsed trial) as [subs|]; [|reflexivity].
  assert (Hall : forall sub n, In sub subs -> Substance.name sub = Some n -> n = "").
  { intros sub n. apply (H subs sub n eq_refl). }
  clear H. induction subs as [|x r IH]; [reflexivity|].
  cbn [existsb]. rewrite IH.
  - destruct (Substance.name x) as [n|] eqn:En; [|reflexivity].
    rewrite (Hall x n (or_introl eq_refl) En). reflexivity.
  - intros sub n Hin. apply Hall. right. exact Hin.
Qed.

(** X6: A trial that names no substance and has no criteria text passes the
    filter, whatever the allergies. *)
Theorem undisclosed_trial_passes :
  forall trials allergies trial,
    In trial trials ->
    (forall subs sub n,
        Trial.substancesUsed trial = Some subs -> In sub subs ->
        Substance.name sub = Some n -> n = "") ->
    (forall c, Trial.eligibilityCriteria trial = Some c -> c = "") ->
    In trial (filterTrialsByAllergies trials allergies).
Proof.
  intros trials [allergies|] trial Hin Hsub Hcrit; [|exact Hin].
  rewrite filter_is_filter. apply filter_In. split; [exact Hin|].
  unfold keepTrial. rewrite (substanceHit_false_undisclosed _ trial Hsub).
  unfold criteriaHit. destruct (Trial.eligibilityCriteria trial) as [c|]; [|reflexivity].
  rewrite (Hcrit c eq_refl). reflexivity.
Qed.

Lemma undisclosed_trial_passes_witness :
  In Samples.asthmaTrial
     (filterTrialsByAllergies [Samples.peanutTrial; Samples.asthmaTrial]
        (Some ["peanut"; "latex"])).
Proof.
  apply undisclosed_trial_passes.
  - right. left. reflexivity.
  - intros subs sub n H. discriminate H.
  - intros c H. discriminate H.
Defined.

Lemma includes_empty : forall s, includes s "" = true.
Proof. intros [|c r]; reflexivity. Qed.

(** X7: An allergy entry that is blank after normalization matches every
    name: it removes every trial that names a substance. *)
Theorem blank_allergen_removes_named_substances :
  forall trials allergies blank trial subs sub n,
    In blank allergies ->
    trim (toLowerCase blank) = "" ->
    Trial.substancesUsed trial = Some subs ->
    In sub subs ->
    Substance.name sub = Some n ->
    n <> "" ->
    ~ In trial (filterTrialsByAllergies trials (Some allergies)).
Proof.
  intros trials allergies blank trial subs sub n Hb Hblank Hs Hsub Hn Hne Hin.
  rewrite filter_is_filter in Hin. apply filter_In in Hin. destruct Hin as [_ Hkeep].
  unfold keepTrial in Hkeep.
  assert (Hhit : substanceHit (map (fun a => trim (toLowerCase a)) allergies) trial = true).
  { unfold substanceHit. rewrite Hs. apply existsb_exists. exists sub.
    split; [exact Hsub|]. rewrite Hn.
    destruct n as [|c r]; [congruence|]. cbn [nonEmpty andb].
    apply existsb_exists. exists "". split; [|apply includes_empty].
    rewrite <- Hblank. apply in_map with (f := fun a => trim (toLowerCase a)). exact Hb. }
  rewrite Hhit in Hkeep. discriminate.
Qed.

Lemma blank_allergen_removes_named_substances_witness :
  ~ In Samples.peanutTrial
       (filterTrialsByAllergies [Samples.asthmaTrial; Samples.peanutTrial]
          (Some ["latex"; "  "])).
Proof.
  apply (@blank_allergen_removes_named_substances
           [Samples.asthmaTrial; Samples.peanutTrial] ["latex"; "  "] "  "
           Samples.peanutTrial [Samples.peanutExtract] Samples.peanutExtract
           "Peanut Extract").
  - right. left. reflexivity.
  - reflexivity.
  - reflexivity.
  - left. reflexivity.
  - reflexivity.
  - discriminate.
Defined.

Lemma existsb_incl :
  forall (A : Type) (f : A -> bool) (l l' : list A),
    (forall x, In x l -> In x l') -> existsb f l = true -> existsb f l' = true.
Proof.
  intros A f l l' Hincl H. apply existsb_exists in H. destruct H as [x [Hin Hf]].
  apply existsb_exists. exists x. split; [apply Hincl, Hin | exact Hf].
Qed.

Lemma keepTrial_antitone :
  forall n n' trial,
    (forall a, In a n -> In a n') ->
    keepTrial n' trial = true -> keepTrial n trial = true.
Proof.
  intros n n' trial Hincl. unfold keepTrial.
  destruct (substanceHit n trial) eqn:Es.
  - assert (Hs' : substanceHit n' trial = true).
    { unfold substanceHit in *. destruct (Trial.substancesUsed trial) as [subs|]; [|discriminate].
      apply existsb_exists in Es. destruct Es as [sub [Hin Hsub]].
      apply existsb_exists. exists sub. split; [exact Hin|].
      destruct (Substance.name sub) as [nm|]; [|discriminate].
      apply andb_prop in Hsub. destruct Hsub as [H1 H2]. rewrite H1. cbn [andb].
      eapply existsb_incl; eassumption. }
    rewrite Hs'. discriminate.
  - destruct (substanceHit n' trial); [discriminate|].
    destruct (criteriaHit n trial) eqn:Ec; [|reflexivity].
    assert (Hc' : criteriaHit n' trial = true).
    { unfold criteriaHit in *. destruct (Trial.eligibilityCriteria trial) as [c|]; [|discriminate].
      apply andb_prop in Ec. destruct Ec as [H1 H2]. rewrite H1. cbn [andb].
      eapply existsb_incl; eassumption. }
    rewrite Hc'. discriminate.
Qed.

(** X8: Declaring more allergies never brings a trial back. *)
Theorem more_allergies_fewer_trials :
  forall trials allergies more trial,
    In trial (filterTrialsByAllergies trials (Some (allergies ++ more)%list)) ->
    In trial (filterTrialsByAllergies trials (Some allergies)).
Proof.
  intros trials allergies more trial Hin.
  rewrite filter_is_filter in *. apply filter_In in Hin. destruct Hin as [Hin Hkeep].
  apply filter_In. split; [exact Hin|].
  eapply keepTrial_antitone; [|exact Hkeep].
  intros a Ha. rewrite map_app. apply in_or_app. left. exact Ha.
Qed.

Lemma more_allergies_fewer_trials_witness :
  In Samples.asthmaTrial
     (filterTrialsByAllergies [Samples.peanutTrial; Samples.asthmaTrial] (Some ["latex"])).
Proof.
  apply (@more_allergies_fewer_trials [Samples.peanutTrial; Samples.asthmaTrial]
           ["latex"] ["peanut"] Samples.asthmaTrial).
  vm_compute. left. reflexivity.
Defined.

(** ** More on the ranking *)

Lemma mapM_Ok_Forall2 :
  forall (A B : Type) (f : A -> result B) (l : list A) (l' : list B),
    mapM f l = Ok l' -> Forall2 (fun a b => f a = Ok b) l l'.
Proof.
  intros A B f l. induction l as [|a r IH]; intros l' H.
  - injection H as <-. constructor.
  - cbn [mapM] in H. destruct (f a) as [b|e] eqn:Ea; [|discriminate].
    cbn [bind] in H. destruct (mapM f r) as [bs|e] eqn:Er; [|discriminate].
    cbn [bind] in H. injection H as <-. constructor; [exact Ea | apply IH; reflexivity].
Qed.

Lemma mapM_fixed :
  forall (A : Type) (f : A -> result A) (l : list A),
    (forall x, In x l -> f x = Ok x) -> mapM f l = Ok l.
Proof.
  intros A f l. induction l as [|a r IH]; intro H; [reflexivity|].
  cbn [mapM]. rewrite (H a (or_introl eq_refl)). cbn [bind].
  rewrite IH; [reflexivity|]. intros x Hx. apply H. right. exact Hx.
Qed.

Lemma mapM_throws :
  forall (A B : Type) (f : A -> result B) (E : exn) (l : list A),
    (forall a e, f a = Throw e -> e = E) ->
    (exists a e, In a l /\ f a = Throw e) ->
    mapM f l = Throw E.
Proof.
  intros A B f E l Hsame. induction l as [|a r IH]; intros [x [e [Hin Hx]]].
  - destruct Hin.
  - cbn [mapM]. destruct (f a) as [b|e'] eqn:Ea.
    + cbn [bind]. rewrite IH; [reflexivity|].
      destruct Hin as [->|Hin]; [congruence|]. exists x, e. auto.
    + cbn [bind]. rewrite (Hsame a e' Ea). reflexivity.
Qed.

Lemma mapM_length :
  forall (A B : Type) (f : A -> result B) (l : list A) (l' : list B),
    mapM f l = Ok l' -> List.length l' = List.length l.
Proof.
  intros A B f l l' H. apply mapM_Ok_Forall2 in H.
  induction H; [reflexivity|]. cbn [List.length]. rewrite IHForall2. reflexivity.
Qed.

Lemma scoreTrial_throw :
  forall profile trial e,
    scoreTrial profile trial = Throw e ->
    e = TypeError "Cannot read properties of undefined (reading 'min')" /\
    Trial.age_range trial = None.
Proof.
  intros profile trial e. unfold scoreTrial, calculateMatchScore, checkAge.
  destruct (Trial.age_range trial); cbn [bind]; [discriminate|].
  intro H. injection H as <-. split; reflexivity.
Qed.

Lemma scoreTrial_no_age_range :
  forall profile trial,
    Trial.age_range trial = None ->
    scoreTrial profile trial =
    Throw (TypeError "Cannot read properties of undefined (reading 'min')").
Proof.
  intros profile trial H. unfold scoreTrial, calculateMatchScore, checkAge.
  rewrite H. reflexivity.
Qed.

(** X3: The ranking fails exactly on a trial without age range that the
    allergy filter keeps: without one it returns as many trials as the
    filter keeps, with one it throws the [TypeError], and a trial the
    filter removes is never scored. *)
Theorem rank_fails_on_kept_trial_without_age_range :
  forall trials profile,
    ((forall t, In t (filterTrialsByAllergies trials (UserProfile.allergies profile)) ->
                Trial.age_range t <> None) ->
     exists ranked,
       rankTrialsByMatchScore trials profile = Ok ranked /\
       List.length ranked =
       List.length (filterTrialsByAllergies trials (UserProfile.allergies profile))) /\
    ((exists t, In t (filterTrialsByAllergies trials (UserProfile.allergies profile)) /\
                Trial.age_range t = None) ->
     rankTrialsByMatchScore trials profile =
     Throw (TypeError "Cannot read properties of undefined (reading 'min')")).
Proof.
  intros trials profile. unfold rankTrialsByMatchScore. split.
  - intro Hall. destruct (mapM_scoreTrial profile _ Hall) as [scored [Em _]].
    rewrite Em. cbn [bind]. eexists. split; [reflexivity|].
    transitivity (List.length scored); [|eapply mapM_length, Em].
    symmetry. exact (Permutation_length (sort_perm scoreOrZero scoreOrZero_not_NaN scored)).
  - intros [t [Hin Hnone]].
    rewrite (@mapM_throws _ _ (scoreTrial profile)
               (TypeError "Cannot read properties of undefined (reading 'min')")).
    + reflexivity.
    + intros a e H. apply (scoreTrial_throw _ _ H).
    + exists t. eexists. split; [exact Hin|]. apply scoreTrial_no_age_range, Hnone.
Qed.

Lemma rank_fails_on_kept_trial_without_age_range_witness :
  (exists ranked,
     rankTrialsByMatchScore [MoreSamples.peanutTrialNoAgeRange; Samples.asthmaTrial]
       Samples.asthmaProfile = Ok ranked /\
     List.length ranked =
     List.length (filterTrialsByAllergies
                    [MoreSamples.peanutTrialNoAgeRange; Samples.asthmaTrial]
                    (UserProfile.allergies Samples.asthmaProfile))) /\
  rankTrialsByMatchScore [Samples.asthmaTrial; Samples.noAgeRangeTrial]
    Samples.asthmaProfile =
  Throw (TypeError "Cannot read properties of undefined (reading 'min')").
Proof.
  split.
  - apply (rank_fails_on_kept_trial_without_age_range
             [MoreSamples.peanutTrialNoAgeRange; Samples.asthmaTrial] Samples.asthmaProfile).
    intros t Hin. vm_compute in Hin. destruct Hin as [<-|[]]. discriminate.
  - apply (rank_fails_on_kept_trial_without_age_range
             [Samples.asthmaTrial; Samples.noAgeRangeTrial] Samples.asthmaProfile).
    exists Samples.noAgeRangeTrial. split; [|reflexivity].
    vm_compute. right. left. reflexivity.
Defined.

Lemma num_le_not_lt : forall a b, num_le b a = true -> num_lt a b = false.
Proof.
  intros [x| | |] [y| | |]; cbn; try congruence.
  intro H. rewrite H. reflexivity.
Qed.

(** Sorting a list that is already in descending order returns it. *)
Lemma sort_sorted_fixed :
  forall (A : Type) (key : A -> number),
    (forall a, isNaN (key a) = false) ->
    forall l, StronglySorted (keyGe key) l -> Array_sort (descendingBy key) l = l.
Proof.
  intros A key Hkey l. induction l as [|x r IH]; intro Hs; [reflexivity|].
  inversion Hs as [|? ? Hr Hall]; subst.
  cbn [Array_sort]. rewrite (IH Hr).
  destruct r as [|y r']; [reflexivity|].
  rewrite (insert_by_key key Hkey).
  inversion Hall as [|? ? Hxy _]; subst.
  unfold keyGe, num_ge in Hxy. rewrite (num_le_not_lt _ _ Hxy). reflexivity.
Qed.

Lemma scoreTrial_again :
  forall profile trial scored,
    scoreTrial profile trial = Ok scored -> scoreTrial profile scored = Ok scored.
Proof.
  intros profile trial scored. unfold scoreTrial.
  destruct (calculateMatchScore profile trial) as [v|e] eqn:Ev; [|discriminate].
  cbn [bind]. intro H. injection H as <-.
  change (calculateMatchScore profile (Trial.withMatchScore trial v))
    with (calculateMatchScore profile trial).
  rewrite Ev. reflexivity.
Qed.

Lemma scoreTrial_keeps_keep :
  forall profile trial scored n,
    scoreTrial profile trial = Ok scored -> keepTrial n scored = keepTrial n trial.
Proof.
  intros profile trial scored n. unfold scoreTrial.
  destruct (calculateMatchScore profile trial) as [v|e]; [|discriminate].
  cbn [bind]. intro H. injection H as <-. reflexivity.
Qed.

Lemma filter_all_kept :
  forall (A : Type) (f : A -> bool) (l : list A),
    (forall x, In x l -> f x = true) -> filter f l = l.
Proof.
  intros A f l. induction l as [|x r IH]; intro H; [reflexivity|].
  cbn [filter]. rewrite (H x (or_introl eq_refl)), IH; [reflexivity|].
  intros y Hy. apply H. right. exact Hy.
Qed.

Lemma Forall2_In_r :
  forall (A B : Type) (R : A -> B -> Prop) (l : list A) (l' : list B) (b : B),
    Forall2 R l l' -> In b l' -> exists a, In a l /\ R a b.
Proof.
  intros A B R l l' b H. induction H as [|x y r r' Hxy _ IH]; intro Hin.
  - destruct Hin.
  - destruct Hin as [<-|Hin].
    + exists x. split; [left; reflexivity | exact Hxy].
    + destruct (IH Hin) as [a [Ha HR]]. exists a. split; [right; exact Ha | exact HR].
Qed.

(** X4: Ranking a ranked list again, for the same profile, returns it
    unchanged: the filter keeps every trial, every score is recomputed to
    the same value and the order stays. *)
Theorem rank_idempotent :
  forall trials profile ranked,
    rankTrialsByMatchScore trials profile = Ok ranked ->
    rankTrialsByMatchScore ranked profile = Ok ranked.
Proof.
  intros trials profile ranked. unfold rankTrialsByMatchScore.
  destruct (mapM (scoreTrial profile)
              (filterTrialsByAllergies trials (UserProfile.allergies profile)))
    as [scored|e] eqn:Em; [|discriminate].
  cbn [bind]. intro H. injection H as <-.
  pose proof (mapM_Ok_Forall2 _ _ Em) as Hf.
  pose proof (sort_perm scoreOrZero scoreOrZero_not_NaN scored) as Hperm.
  pose proof (sort_sorted scoreOrZero scoreOrZero_not_NaN scored) as Hsorted.
  set (ranked := Array_sort byMatchScore scored) in *.
  assert (Horigin : forall x, In x ranked ->
            exists t, In t (filterTrialsByAllergies trials (UserProfile.allergies profile)) /\
                      scoreTrial profile t = Ok x).
  { intros x Hx. apply (Forall2_In_r _ Hf).
    eapply Permutation_in; [apply Permutation_sym, Hperm | exact Hx]. }
  assert (Hkept : filterTrialsByAllergies ranked (UserProfile.allergies profile) = ranked).
  { destruct (UserProfile.allergies profile) as [allergies|]; [|reflexivity].
    rewrite filter_is_filter. apply filter_all_kept.
    intros x Hx. destruct (Horigin x Hx) as [t [Ht Hs]].
    rewrite (scoreTrial_keeps_keep _ _ _ Hs).
    rewrite filter_is_filter in Ht. apply filter_In in Ht. tauto. }
  rewrite Hkept.
  rewrite (@mapM_fixed _ (scoreTrial profile) ranked).
  - cbn [bind]. f_equal.
    apply (@sort_sorted_fixed _ scoreOrZero scoreOrZero_not_NaN). exact Hsorted.
  - intros x Hx. destruct (Horigin x Hx) as [t [_ Hs]].
    eapply scoreTrial_again, Hs.
Qed.

Lemma rank_idempotent_witness :
  rankTrialsByMatchScore
    [Trial.withMatchScore (Samples.asthmaTrialAt (Fin 50)) (Fin (17 # 20));
     Trial.withMatchScore Samples.asthmaTrial (Fin (4 # 5));
     Trial.withMatchScore (Samples.asthmaTrialAt (Fin 60)) (Fin (4 # 5))]
    Samples.asthmaProfile =
  Ok [Trial.withMatchScore (Samples.asthmaTrialAt (Fin 50)) (Fin (17 # 20));
      Trial.withMatchScore Samples.asthmaTrial (Fin (4 # 5));
      Trial.withMatchScore (Samples.asthmaTrialAt (Fin 60)) (Fin (4 # 5))].
Proof.
  apply (@rank_idempotent
           [Samples.asthmaTrial; Samples.asthmaTrialAt (Fin 50); Samples.peanutTrial;
            Samples.asthmaTrialAt (Fin 60)] Samples.asthmaProfile).
  reflexivity.
Defined.

(** ** The match score: nearer is never worse *)

Lemma distance_points_monotone :
  forall d1 d2 maxd,
    0 <= d1 -> d1 <= d2 ->
    (forall m, maxd = Fin m -> ~ m == 0) ->
    num_le (Fin d2) maxd = true ->
    exists p1 p2,
      Math_max (Fin 5) (num_mul (Fin 20) (num_sub (Fin 1) (num_div (Fin d1) maxd))) = Fin p1 /\
      Math_max (Fin 5) (num_mul (Fin 20) (num_sub (Fin 1) (num_div (Fin d2) maxd))) = Fin p2 /\
      5 <= p2 /\ p2 <= p1 /\ p1 <= 20.
Proof.
  intros d1 d2 maxd H1 H12 Hnz Hle.
  destruct maxd as [m| | |]; cbn in Hle; try discriminate.
  - apply Qle_bool_iff in Hle.
    assert (Hm0 : ~ m == 0) by (apply Hnz; reflexivity).
    assert (Hm : 0 < m).
    { destruct (Qlt_le_dec 0 m) as [H|H]; [exact H|]. exfalso. apply Hm0. lra. }
    assert (Hq1 : 0 <= d1 / m /\ d1 / m <= 1) by (apply Qdiv_unit; lra).
    assert (Hq2 : 0 <= d2 / m /\ d2 / m <= 1) by (apply Qdiv_unit; lra).
    assert (Hq12 : d1 / m <= d2 / m).
    { unfold Qdiv. apply Qmult_le_compat_r; [exact H12|].
      apply Qinv_le_0_compat. lra. }
    unfold num_div. rewrite (Qeq_bool_false_intro Hm0).
    unfold num_sub, num_mul, fin. rewrite !Math_max_fin.
    eexists. eexists. split; [reflexivity|]. split; [reflexivity|].
    destruct (Qle_bool 5 (Qred (20 * Qred (1 - Qred (d1 / m))))) eqn:E1;
      destruct (Qle_bool 5 (Qred (20 * Qred (1 - Qred (d2 / m))))) eqn:E2;
      try apply Qle_bool_iff in E1; try apply Qle_bool_iff in E2;
      try apply Qle_bool_false in E1; try apply Qle_bool_false in E2;
      rewrite ?Qred_correct in *; repeat split; try lra.
  - exists 20, 20. repeat split; lra.
Qed.

Lemma location_monotone :
  forall profile near far s m d1 d2,
    Trial.distance near = Some (Fin d1) ->
    Trial.distance far = Some (Fin d2) ->
    0 <= d1 -> d1 <= d2 ->
    (forall x, UserProfile.maxTravelDistance profile = Fin x -> ~ x == 0) ->
    exists s1 s2,
      checkLocation profile near (mkTally (Fin s) (Fin m)) =
        mkTally (Fin s1) (num_add (Fin m) (Fin 20)) /\
      checkLocation profile far (mkTally (Fin s) (Fin m)) =
        mkTally (Fin s2) (num_add (Fin m) (Fin 20)) /\
      s <= s2 /\ s2 <= s1 /\ s1 <= s + 20.
Proof.
  intros profile near far s m d1 d2 Hn Hf H1 H12 Hnz.
  destruct (num_le (Fin d2) (UserProfile.maxTravelDistance profile)) eqn:E2.
  - assert (E1 : num_le (Fin d1) (UserProfile.maxTravelDistance profile) = true).
    { eapply num_le_trans; [|exact E2]. cbn. apply Qle_bool_iff. exact H12. }
    destruct (distance_points_monotone H1 H12 Hnz E2) as [p1 [p2 [Ep1 [Ep2 [Hp [Hpp Hp1]]]]]].
    rewrite (checkLocation_within profile near _ Hn E1), Ep1.
    rewrite (checkLocation_within profile far _ Hf E2), Ep2.
    cbn [score maxScore num_add]. unfold fin.
    eexists. eexists. split; [reflexivity|]. split; [reflexivity|].
    rewrite !Qred_correct. repeat split; lra.
  - rewrite (checkLocation_beyond profile far _ Hf E2). cbn [score maxScore].
    destruct (num_le (Fin d1) (UserProfile.maxTravelDistance profile)) eqn:E1.
    + assert (Hd1 : finiteNonNegative (Fin d1)) by (exists d1; split; [reflexivity | exact H1]).
      destruct (proximity_points_bounded Hd1 Hnz E1) as [p1 [Ep1 [Hlo Hhi]]].
      rewrite (checkLocation_within profile near _ Hn E1), Ep1.
      cbn [score maxScore num_add]. unfold fin.
      eexists. eexists. split; [reflexivity|]. split; [reflexivity|].
      rewrite !Qred_correct. repeat split; lra.
    + rewrite (checkLocation_beyond profile near _ Hn E1). cbn [score maxScore].
      exists s, s. repeat split; lra.
Qed.

Lemma offeredAmount_same :
  forall t1 t2, Trial.compensation t1 = Trial.compensation t2 ->
    offeredAmount t1 = offeredAmount t2.
Proof. intros t1 t2 H. unfold offeredAmount. rewrite H. reflexivity. Qed.

Lemma compensation_monotone :
  forall profile near far s1 s2 m,
    Trial.compensation near = Trial.compensation far ->
    (forall c x, Trial.compensation near = Some c ->
                 Compensation.amount c = Some x -> num_lt x (Fin 0) = false) ->
    0 <= s2 -> s2 <= s1 -> s1 <= m -> 100 <= m ->
    exists s1' s2' m',
      checkCompensation profile near (mkTally (Fin s1) (Fin m)) = mkTally (Fin s1') (Fin m') /\
      checkCompensation profile far (mkTally (Fin s2) (Fin m)) = mkTally (Fin s2') (Fin m') /\
      0 <= s2' /\ s2' <= s1' /\ 0 < m'.
Proof.
  intros profile near far s1 s2 m Hc Hamt H0 H21 H1m Hm.
  unfold checkCompensation. rewrite <- (offeredAmount_same _ _ Hc).
  destruct (wantsCompensation profile) as [preferred|] eqn:Ew.
  - apply wantsCompensation_inv in Ew. cbn [score maxScore].
    destruct (offeredAmount near) as [amount|] eqn:Eo.
    + destruct (offeredAmount_inv near Eo) as [Ht [c [Hcomp Hx]]].
      destruct (num_ge amount preferred) eqn:Ege.
      * cbn [num_add]. unfold fin. do 3 eexists.
        split; [reflexivity|]. split; [reflexivity|].
        rewrite !Qred_correct. repeat split; lra.
      * destruct (@compensation_points_bounded amount preferred Ew Ht
                    (Hamt c amount Hcomp Hx) Ege) as [p [Ep [Hp0 Hp9]]].
        rewrite Ep. cbn [num_add]. unfold fin. do 3 eexists.
        split; [reflexivity|]. split; [reflexivity|].
        rewrite !Qred_correct. repeat split; lra.
    + cbn [num_add]. unfold fin. do 3 eexists.
      split; [reflexivity|]. split; [reflexivity|].
      rewrite !Qred_correct. repeat split; lra.
  - exists s1, s2, m. repeat split; try assumption; lra.
Qed.

Lemma finalScore_monotone :
  forall s1 s2 m,
    s2 <= s1 -> 0 < m ->
    num_le (finalScore (mkTally (Fin s2) (Fin m))) (finalScore (mkTally (Fin s1) (Fin m))) = true.
Proof.
  intros s1 s2 m H21 Hm. unfold finalScore. cbn [score maxScore].
  assert (Hgt : num_gt (Fin m) (Fin 0) = true).
  { unfold num_gt. cbn. apply negb_true_iff, Qle_bool_false_intro. exact Hm. }
  rewrite Hgt. unfold num_div.
  assert (Hm0 : ~ m == 0) by lra.
  rewrite (Qeq_bool_false_intro Hm0). unfold fin. cbn [num_le].
  apply Qle_bool_iff. rewrite !Qred_correct.
  unfold Qdiv. apply Qmult_le_compat_r; [exact H21|].
  apply Qinv_le_0_compat. lra.
Qed.

Lemma checks_before_location_same :
  forall profile t1 t2 a,
    Trial.conditions t1 = Trial.conditions t2 ->
    Trial.gender t1 = Trial.gender t2 ->
    Trial.age_range t1 = Trial.age_range t2 ->
    checkAge profile t1 (checkGender profile t1 (checkConditions profile t1 a)) =
    checkAge profile t2 (checkGender profile t2 (checkConditions profile t2 a)).
Proof.
  intros profile t1 t2 a Hc Hg Hr.
  unfold checkAge, checkGender, checkConditions, conditionMatch, genderMatch.
  rewrite Hc, Hg, Hr. reflexivity.
Qed.

(** X2: Of two trials that differ only in their distance, the nearer one
    never scores lower (on the inputs on which the score is within
    bounds). *)
Theorem nearer_trial_scores_no_lower :
  forall profile near far range d1 d2,
    Trial.conditions near = Trial.conditions far ->
    Trial.gender near = Trial.gender far ->
    Trial.age_range near = Some range ->
    Trial.age_range far = Some range ->
    Trial.compensation near = Trial.compensation far ->
    Trial.distance near = Some (Fin d1) ->
    Trial.distance far = Some (Fin d2) ->
    0 <= d1 -> d1 <= d2 ->
    (forall x, UserProfile.maxTravelDistance profile = Fin x -> ~ x == 0) ->
    (forall c x, Trial.compensation near = Some c ->
                 Compensation.amount c = Some x -> num_lt x (Fin 0) = false) ->
    exists v1 v2,
      calculateMatchScore profile near = Ok v1 /\
      calculateMatchScore profile far = Ok v2 /\
      num_le v2 v1 = true.
Proof.
  intros profile near far range d1 d2 Hc Hg Hrn Hrf Hcomp Hdn Hdf H1 H12 Hnz Hamt.
  unfold calculateMatchScore.
  rewrite <- (@checks_before_location_same profile near far (mkTally (Fin 0) (Fin 0)) Hc Hg)
    by congruence.
  assert (H0 : tallyBounded 0 (mkTally (Fin 0) (Fin 0))).
  { exists 0, 0. repeat split; lra. }
  apply (checkConditions_bounded profile near) in H0.
  apply (checkGender_bounded profile near) in H0.
  destruct (checkAge_bounded profile near Hrn H0) as [a [Ea [s [m [-> [Hs0 [Hsm Hlo]]]]]]].
  rewrite Ea. cbn [bind].
  destruct (@location_monotone profile near far s m d1 d2 Hdn Hdf H1 H12 Hnz)
    as [s1 [s2 [El1 [El2 [Hs2 [Hs21 Hs1]]]]]].
  rewrite El1, El2. cbn [num_add]. unfold fin.
  destruct (@compensation_monotone profile near far s1 s2 (Qred (m + 20)) Hcomp Hamt)
    as [s1' [s2' [m' [Ec1 [Ec2 [Hs2' [Hs21' Hm']]]]]]];
    rewrite ?Qred_correct; try lra.
  rewrite Ec1, Ec2. eexists. eexists. split; [reflexivity|]. split; [reflexivity|].
  apply finalScore_monotone; assumption.
Qed.

Lemma nearer_trial_scores_no_lower_witness :
  exists v1 v2,
    calculateMatchScore Samples.asthmaProfile (Samples.asthmaTrialAt (Fin 10)) = Ok v1 /\
    calculateMatchScore Samples.asthmaProfile (Samples.asthmaTrialAt (Fin 40)) = Ok v2 /\
    num_le v2 v1 = true.
Proof.
  apply (@nearer_trial_scores_no_lower Samples.asthmaProfile
           (Samples.asthmaTrialAt (Fin 10)) (Samples.asthmaTrialAt (Fin 40))
           Samples.adults 10 40); try reflexivity; try lra.
  - intros x Hx. injection Hx as <-. lra.
  - intros c x Hc. discriminate Hc.
Defined.

(** ** The search effect over time *)

Section SearchOverTime.
Variable JSON_stringify : KeyFields -> string.

Lemma start_issued_eq :
  forall userProfile s s1 req k,
    loadTrials_start JSON_stringify userProfile s = (s1, Some (req, k)) ->
    s1 = setError None (setLoading true (setIsFetching true s)) /\
    k = mkPending userProfile (profileKey JSON_stringify userProfile) /\
    exists condition rest,
      UserProfile.medicalConditions userProfile = condition :: rest /\
      UserProfile.location userProfile <> "" /\
      req = mkRequest condition
              (trim (splitHead ","%char (UserProfile.location userProfile)))
              (UserProfile.maxTravelDistance userProfile) 30.
Proof.
  intros userProfile s s1 req k. unfold loadTrials_start.
  destruct (isFetchingRef s || negb (isMountedRef s)); [discriminate|].
  destruct (sameKey _ _); [discriminate|].
  destruct (UserProfile.medicalConditions userProfile) as [|c rest]; [discriminate|].
  destruct (UserProfile.location userProfile) as [|x l] eqn:El; [discriminate|].
  cbn [nonEmpty negb]. intro H. injection H as <- <- <-.
  repeat split. exists c, rest. repeat split. discriminate.
Qed.

(** The outcome of [loadTrials_start] depends on the state through the
    two flags and the stored key only. *)
Lemma start_congr :
  forall userProfile s s' s1 req k,
    loadTrials_start JSON_stringify userProfile s = (s1, Some (req, k)) ->
    isFetchingRef s' = isFetchingRef s ->
    isMountedRef s' = isMountedRef s ->
    searchedProfileRef s' = searchedProfileRef s ->
    loadTrials_start JSON_stringify userProfile s' =
    (setError None (setLoading true (setIsFetching true s')), Some (req, k)).
Proof.
  intros userProfile s s' s1 req k. unfold loadTrials_start. intros H Hf Hm Hk.
  rewrite Hf, Hm, Hk.
  destruct (isFetchingRef s || negb (isMountedRef s)); [discriminate|].
  destruct (sameKey _ _); [discriminate|].
  destruct (UserProfile.medicalConditions userProfile) as [|c rest]; [discriminate|].
  destruct (negb (nonEmpty (UserProfile.location userProfile))); [discriminate|].
  injection H as _ <- <-. reflexivity.
Qed.

(** X9: After a search that returned trials, the component shows the ranked
    list from its start with empty buckets and no error, and a further
    trigger with the same profile sends no request. *)
Theorem search_success_then_skip :
  forall sys userProfile s1 req k d ds ranked,
    pending sys = [] ->
    loadTrials_start JSON_stringify userProfile (state sys) = (s1, Some (req, k)) ->
    rankTrialsByMatchScore (d :: ds) userProfile = Ok ranked ->
    let sys2 := run JSON_stringify sys
                  [ProfileChanged userProfile; Settled (Resolved (Some (d :: ds)))] in
    state sys2 =
      mkState ranked 0 false None [] [] true false
        (Some (profileKey JSON_stringify userProfile)) /\
    calls sys2 = (calls sys ++ [req])%list /\
    run JSON_stringify sys2 [ProfileChanged userProfile] = sys2.
Proof.
  intros [s pnd cs] userProfile s1 req k d ds ranked Hp Hstart Hrank sys2.
  cbn [state pending calls] in *. subst pnd.
  destruct (@start_issued _ _ _ _ _ _ Hstart) as [_ [_ [Hm _]]].
  destruct (@start_issued_eq _ _ _ _ _ Hstart) as [-> [-> _]].
  assert (E : sys2 =
    mkSystem (mkState ranked 0 false None [] [] true false
                (Some (profileKey JSON_stringify userProfile))) [] (cs ++ [req])).
  { subst sys2. unfold run. cbn [fold_left]. unfold step at 2. cbn [state]. rewrite Hstart.
    unfold step. cbn [pending state calls app].
    unfold loadTrials_settle, afterAwait.
    cbn [isMountedRef setError setLoading setIsFetching]. rewrite Hm. cbn [negb pend_profile].
    rewrite Hrank. cbn [bind]. unfold onFinally.
    destruct s as [t ci ld er mt rj mo fe sp]. cbn [isMountedRef] in Hm. subst mo.
    reflexivity. }
  rewrite E. cbn [state calls]. repeat split.
  unfold run. cbn [fold_left]. unfold step. cbn [state].
  rewrite start_same_key by reflexivity. reflexivity.
Qed.

Lemma settle_unsuccessful :
  forall k r s,
    unsuccessful (pend_profile k) r ->
    isMountedRef s = true ->
    exists msg,
      (msg = msgFailed \/ msg = msgNoTrials) /\
      loadTrials_settle k r s =
      mkState [] (currentIndex s) false (Some msg) (matchedTrials s) (rejectedTrials s)
        true false (searchedProfileRef s).
Proof.
  intros k r [t ci ld er mt rj mo fe sp] Hr Hm. cbn [isMountedRef] in Hm. subst mo.
  unfold loadTrials_settle, afterAwait, onError.
  destruct r as [[[|d ds]|]|err]; cbn [isMountedRef negb].
  - exists msgNoTrials. split; [right; reflexivity|]. reflexivity.
  - destruct Hr as [e He]. rewrite He. cbn [bind].
    exists msgFailed. split; [left; reflexivity|]. reflexivity.
  - exists msgNoTrials. split; [right; reflexivity|]. reflexivity.
  - exists msgFailed. split; [left; reflexivity|]. reflexivity.
Qed.

(** X10: After a search that failed, returned nothing or could not be ranked,
    the list is empty, an error message is set and the stored key is the
    old one: the next trigger with the same profile sends the same
    request again. *)
Theorem search_failure_then_retry :
  forall sys userProfile s1 req k r,
    pending sys = [] ->
    loadTrials_start JSON_stringify userProfile (state sys) = (s1, Some (req, k)) ->
    unsuccessful userProfile r ->
    let sys2 := run JSON_stringify sys [ProfileChanged userProfile; Settled r] in
    trials (state sys2) = [] /\
    (error (state sys2) = Some msgFailed \/ error (state sys2) = Some msgNoTrials) /\
    searchedProfileRef (state sys2) = searchedProfileRef (state sys) /\
    calls (run JSON_stringify sys2 [ProfileChanged userProfile]) =
      (calls sys ++ [req; req])%list.
Proof.
  intros sys userProfile s1 req k r Hp Hstart Hr sys2.
  destruct (@start_issued _ _ _ _ _ _ Hstart) as [_ [Hf [Hm _]]].
  destruct (@start_issued_eq _ _ _ _ _ Hstart) as [Es1 [Ek _]].
  assert (Hm1 : isMountedRef s1 = true) by (rewrite Es1; exact Hm).
  assert (Hr' : unsuccessful (pend_profile k) r) by (rewrite Ek; exact Hr).
  destruct (settle_unsuccessful k r s1 Hr' Hm1) as [msg [Hmsg Es2]].
  assert (E : sys2 = mkSystem (loadTrials_settle k r s1) [] (calls sys ++ [req])).
  { subst sys2. unfold run. cbn [fold_left]. unfold step at 2. rewrite Hstart.
    unfold step. cbn [pending state calls]. rewrite Hp. reflexivity. }
  rewrite E, Es2. cbn [state trials error searchedProfileRef calls].
  split; [reflexivity|]. split; [destruct Hmsg as [-> | ->]; auto|].
  split; [rewrite Es1; reflexivity|].
  unfold run. cbn [fold_left]. unfold step. cbn [state calls pending].
  rewrite (@start_congr userProfile (state sys) _ s1 req k Hstart).
  - cbn [calls]. rewrite <- app_assoc. reflexivity.
  - cbn [isFetchingRef]. symmetry. exact Hf.
  - cbn [isMountedRef]. symmetry. exact Hm.
  - cbn [searchedProfileRef]. rewrite Es1. reflexivity.
Qed.

Lemma step_unmounted :
  forall sys e,
    isMountedRef (state sys) = false ->
    let sys' := step JSON_stringify sys e in
    isMountedRef (state sys') = false /\
    trials (state sys') = trials (state sys) /\
    currentIndex (state sys') = currentIndex (state sys) /\
    error (state sys') = error (state sys) /\
    matchedTrials (state sys') = matchedTrials (state sys) /\
    rejectedTrials (state sys') = rejectedTrials (state sys) /\
    searchedProfileRef (state sys') = searchedProfileRef (state sys) /\
    calls sys' = calls sys.
Proof.
  intros [s pnd cs] e Hm. cbn [state] in Hm. destruct e as [p|r|]; cbn [step state pending calls].
  - unfold loadTrials_start. rewrite Hm. cbn [negb]. rewrite orb_true_r.
    cbn [state calls]. repeat split. exact Hm.
  - destruct pnd as [|k rest]; cbn [state calls]; [repeat split; exact Hm|].
    unfold loadTrials_settle, afterAwait, onError. rewrite Hm.
    destruct r; cbn; repeat split; exact Hm.
  - repeat split.
Qed.

(** X11: Once the component is unmounted, no trigger and no settling call
    changes the list, the cursor, the error, the buckets or the stored
    key, and no request is sent. *)
Theorem unmounted_changes_nothing :
  forall es sys,
    isMountedRef (state sys) = false ->
    let sys' := run JSON_stringify sys es in
    trials (state sys') = trials (state sys) /\
    currentIndex (state sys') = currentIndex (state sys) /\
    error (state sys') = error (state sys) /\
    matchedTrials (state sys') = matchedTrials (state sys) /\
    rejectedTrials (state sys') = rejectedTrials (state sys) /\
    searchedProfileRef (state sys') = searchedProfileRef (state sys) /\
    calls sys' = calls sys.
Proof.
  unfold run. induction es as [|e r IH]; intros sys Hm; [cbn; repeat split|].
  cbn [fold_left].
  destruct (step_unmounted sys e Hm) as [Hm' [H1 [H2 [H3 [H4 [H5 [H6 H7]]]]]]].
  specialize (IH _ Hm'). cbn zeta in IH.
  rewrite <- H1, <- H2, <- H3, <- H4, <- H5, <- H6, <- H7. exact IH.
Qed.

(** X12: A profile without conditions or without location never starts a
    search; when the guards let it through, the matching message is set
    and the spinner is cleared. *)
Theorem invalid_profile_sends_nothing :
  forall sys userProfile,
    UserProfile.medicalConditions userProfile = [] \/ UserProfile.location userProfile = "" ->
    let sys' := step JSON_stringify sys (ProfileChanged userProfile) in
    calls sys' = calls sys /\
    pending sys' = pending sys /\
    trials (state sys') = trials (state sys) /\
    isFetchingRef (state sys') = isFetchingRef (state sys) /\
    (isFetchingRef (state sys) = false ->
     isMountedRef (state sys) = true ->
     searchedProfileRef (state sys) <> Some (profileKey JSON_stringify userProfile) ->
     loading (state sys') = false /\
     error (state sys') =
       Some (match UserProfile.medicalConditions userProfile with
             | [] => msgMissingConditions
             | _ :: _ => msgMissingLocation
             end)).
Proof.
  intros [[t ci ld er mt rj mo fe sp] pnd cs] userProfile Hbad.
  cbn [step state]. unfold loadTrials_start. cbn [isFetchingRef isMountedRef searchedProfileRef].
  destruct fe.
  { cbn [orb state calls pending isFetchingRef trials]. repeat split; congruence. }
  destruct mo.
  2:{ cbn [orb negb state calls pending isFetchingRef trials]. repeat split; congruence. }
  cbn [orb negb].
  destruct (sameKey _ sp) eqn:Ek.
  { assert (Hk : sp = Some (profileKey JSON_stringify userProfile)).
    { unfold sameKey in Ek. destruct sp as [k'|]; [|discriminate].
      apply String.eqb_eq in Ek. congruence. }
    cbn [state calls pending isFetchingRef trials]. repeat split; congruence. }
  destruct (UserProfile.medicalConditions userProfile) as [|c rest].
  { cbn [state calls pending]. repeat split. }
  destruct Hbad as [Hbad|Hbad]; [discriminate|]. rewrite Hbad.
  cbn [nonEmpty negb state calls pending]. repeat split.
Qed.

End SearchOverTime.

Lemma search_success_then_skip_witness :
  let sys2 := run Samples.keyString Samples.freshSystem
                [ProfileChanged Samples.asthmaProfile;
                 Settled (Resolved (Some [Samples.asthmaTrial; Samples.peanutTrial]))] in
  state sys2 =
    mkState [Samples.rankedAsthmaTrial] 0 false None [] [] true false
      (Some (profileKey Samples.keyString Samples.asthmaProfile)) /\
  calls sys2 = (calls Samples.freshSystem ++ [mkRequest "Asthma" "Durham" (Fin 50) 30])%list /\
  run Samples.keyString sys2 [ProfileChanged Samples.asthmaProfile] = sys2.
Proof.
  apply (@search_success_then_skip Samples.keyString Samples.freshSystem Samples.asthmaProfile
           (setError None (setLoading true (setIsFetching true initial)))
           (mkRequest "Asthma" "Durham" (Fin 50) 30)
           (mkPending Samples.asthmaProfile "Asthma|Durham, NC")
           Samples.asthmaTrial [Samples.peanutTrial] [Samples.rankedAsthmaTrial]);
    reflexivity.
Defined.


Lemma search_failure_then_retry_witness :
  let sys2 := run Samples.keyString Samples.freshSystem
                [ProfileChanged Samples.asthmaProfile; Settled (Resolved (Some []))] in
  trials (state sys2) = [] /\
  (error (state sys2) = Some msgFailed \/ error (state sys2) = Some msgNoTrials) /\
  searchedProfileRef (state sys2) = searchedProfileRef (state Samples.freshSystem) /\
  calls (run Samples.keyString sys2 [ProfileChanged Samples.asthmaProfile]) =
    (calls Samples.freshSystem ++
     [mkRequest "Asthma" "Durham" (Fin 50) 30; mkRequest "Asthma" "Durham" (Fin 50) 30])%list.
Proof.
  apply (@search_failure_then_retry Samples.keyString Samples.freshSystem Samples.asthmaProfile
           (setError None (setLoading true (setIsFetching true initial)))
           (mkRequest "Asthma" "Durham" (Fin 50) 30)
           (mkPending Samples.asthmaProfile "Asthma|Durham, NC")
           (Resolved (Some []))).
  - reflexivity.
  - reflexivity.
  - exact I.
Defined.


Lemma unmounted_changes_nothing_witness :
  let sys := mkSystem (setIsMounted false Samples.searchingState) [Samples.pendingSearch] [] in
  let sys' := run Samples.keyString sys
                [Settled (Resolved (Some [Samples.asthmaTrial]));
                 ProfileChanged Samples.asthmaProfile] in
  trials (state sys') = trials (state sys) /\
  currentIndex (state sys') = currentIndex (state sys) /\
  error (state sys') = error (state sys) /\
  matchedTrials (state sys') = matchedTrials (state sys) /\
  rejectedTrials (state sys') = rejectedTrials (state sys) /\
  searchedProfileRef (state sys') = searchedProfileRef (state sys) /\
  calls sys' = calls sys.
Proof.
  apply (@unmounted_changes_nothing Samples.keyString
           [Settled (Resolved (Some [Samples.asthmaTrial]));
            ProfileChanged Samples.asthmaProfile]
           (mkSystem (setIsMounted false Samples.searchingState) [Samples.pendingSearch] [])).
  reflexivity.
Defined.


Lemma invalid_profile_sends_nothing_witness :
  calls (step Samples.keyString Samples.freshSystem
           (ProfileChanged (UserProfile.mk [] "male" (Fin 30) "Durham, NC" (Fin 50) None None)))
    = [] /\
  error (state (step Samples.keyString Samples.freshSystem
           (ProfileChanged (UserProfile.mk [] "male" (Fin 30) "Durham, NC" (Fin 50) None None))))
    = Some msgMissingConditions.
Proof.
  destruct (@invalid_profile_sends_nothing Samples.keyString Samples.freshSystem
              (UserProfile.mk [] "male" (Fin 30) "Durham, NC" (Fin 50) None None)
              (or_introl eq_refl)) as [Hc [_ [_ [_ He]]]].
  split; [exact Hc|].
  apply He; [reflexivity | reflexivity | discriminate].
Defined.

(** ** The whole component over time *)

Import Review.

Lemma start_frame :
  forall J userProfile s,
    let s1 := fst (loadTrials_start J userProfile s) in
    trials s1 = trials s /\
    currentIndex s1 = currentIndex s /\
    matchedTrials s1 = matchedTrials s /\
    rejectedTrials s1 = rejectedTrials s /\
    isMountedRef s1 = isMountedRef s /\
    searchedProfileRef s1 = searchedProfileRef s.
Proof.
  intros J userProfile s. unfold loadTrials_start.
  destruct (isFetchingRef s || negb (isMountedRef s)); [cbn; repeat split|].
  destruct (sameKey _ _); [cbn; repeat split|].
  destruct (UserProfile.medicalConditions userProfile); [cbn; repeat split|].
  destruct (negb (nonEmpty (UserProfile.location userProfile))); cbn; repeat split.
Qed.

(** What [loadTrials_settle] can do to the list: leave it, empty it, or
    replace it by the ranking of the response. *)
Lemma settle_trials :
  forall k r s,
    trials (loadTrials_settle k r s) = trials s \/
    trials (loadTrials_settle k r s) = [] \/
    exists data,
      r = Resolved (Some data) /\
      rankTrialsByMatchScore data (pend_profile k) = Ok (trials (loadTrials_settle k r s)).
Proof.
  intros k r [t ci ld er mt rj mo fe sp]. unfold loadTrials_settle, afterAwait, onError.
  cbn [isMountedRef].
  destruct r as [[[|d ds]|]|err]; destruct mo; cbn [negb]; auto.
  destruct (rankTrialsByMatchScore (d :: ds) (pend_profile k)) as [ranked|e] eqn:E;
    cbn [bind]; auto.
  right. right. exists (d :: ds). split; [reflexivity|]. rewrite E. reflexivity.
Qed.

(** What it can do to the cursor and the buckets: reset them or leave them. *)
Lemma settle_buckets :
  forall k r s,
    let s' := loadTrials_settle k r s in
    (currentIndex s' = 0%nat /\ matchedTrials s' = [] /\ rejectedTrials s' = []) \/
    (currentIndex s' = currentIndex s /\ matchedTrials s' = matchedTrials s /\
     rejectedTrials s' = rejectedTrials s).
Proof.
  intros k r [t ci ld er mt rj mo fe sp]. unfold loadTrials_settle, afterAwait, onError.
  cbn [isMountedRef].
  destruct r as [[[|d ds]|]|err]; destruct mo; cbn [negb]; auto.
  destruct (rankTrialsByMatchScore (d :: ds) (pend_profile k)) as [ranked|e];
    cbn [bind]; auto.
Qed.

Lemma more_start_frame :
  forall userProfile s,
    let s1 := fst (loadMoreTrials_start userProfile s) in
    trials s1 = trials s /\
    currentIndex s1 = currentIndex s /\
    matchedTrials s1 = matchedTrials s /\
    rejectedTrials s1 = rejectedTrials s /\
    isFetchingRef s1 = isFetchingRef s /\
    forall req k, snd (loadMoreTrials_start userProfile s) = Some (req, k) ->
      more_trials k = trials s /\ isSearchRequest req = false.
Proof.
  intros userProfile s. unfold loadMoreTrials_start.
  destruct (UserProfile.medicalConditions userProfile); cbn [fst snd].
  - repeat split; discriminate.
  - repeat split; injection H as <- <-; reflexivity.
Qed.

Lemma more_settle_frame :
  forall k r s,
    let s' := loadMoreTrials_settle k r s in
    currentIndex s' = currentIndex s /\
    matchedTrials s' = matchedTrials s /\
    rejectedTrials s' = rejectedTrials s /\
    isFetchingRef s' = isFetchingRef s /\
    isMountedRef s' = isMountedRef s /\
    searchedProfileRef s' = searchedProfileRef s /\
    loading s' = false.
Proof.
  intros k r s. unfold loadMoreTrials_settle, afterAwaitMore.
  destruct r as [[[|d ds]|]|err]; try (cbn; repeat split; fail).
  destruct (filter (unseen (more_trials k)) (d :: ds)); [cbn; repeat split|].
  destruct (rankTrialsByMatchScore _ _); cbn; repeat split.
Qed.

Section SessionOverTime.
Variable JSON_stringify : KeyFields -> string.

Lemma perform_searchInSync :
  forall w a,
    searchInSync w ->
    let w' := perform JSON_stringify w a in
    searchInSync w' /\
    (List.length (filter isSearchRequest (sent w')) + List.length (searches w) <=
     List.length (filter isSearchRequest (sent w)) + List.length (searches w') +
     (if isSearchSettled a then 1 else 0))%nat.
Proof.
  intros [s srch mrs st snt] a Hinv. unfold searchInSync in *.
  cbn [ui searches sent] in *.
  destruct a as [p|r| | |p|r|]; cbn [perform ui searches mores storage sent isSearchSettled].
  - destruct (loadTrials_start JSON_stringify p s) as [s1 [[req k]|]] eqn:E;
      cbn [ui searches sent].
    + destruct (@start_issued _ _ _ _ _ _ E) as [H1 [H0 _]].
      destruct (@start_issued_eq _ _ _ _ _ _ E) as [_ [_ [c [rest [_ [_ Hreq]]]]]].
      destruct Hinv as [[Hf _]|[_ Hp]]; [congruence|]. subst srch. split.
      * left. split; [exact H1|]. exists k. reflexivity.
      * rewrite filter_app, !length_app. cbn [filter]. rewrite Hreq. cbn. lia.
    + rewrite (start_keeps_flag _ _ _ E). split; [exact Hinv | lia].
  - destruct srch as [|k rest]; cbn [ui searches sent]; [split; [exact Hinv | lia]|].
    split.
    + right. split; [reflexivity|].
      destruct Hinv as [[_ [k' Hk]]|[_ Hp]]; [|discriminate].
      injection Hk as _ ->. reflexivity.
    + cbn [List.length]. lia.
  - split; [|lia]. unfold handleSwipeLeft. destruct (currentTrial s); exact Hinv.
  - unfold handleSwipeRight. destruct (currentTrial s); cbn [ui searches sent];
      (split; [exact Hinv | lia]).
  - pose proof (more_start_frame p s) as Hfr. cbn zeta in Hfr.
    destruct (loadMoreTrials_start p s) as [s1 [[req k]|]] eqn:E;
      cbn [ui searches sent fst snd] in *;
      destruct Hfr as [_ [_ [_ [_ [Hf Hreq]]]]]; rewrite Hf.
    + split; [exact Hinv|].
      destruct (Hreq req k eq_refl) as [_ Hno].
      rewrite filter_app. cbn [filter]. rewrite Hno, app_nil_r. lia.
    + split; [exact Hinv | lia].
  - destruct mrs as [|k rest]; cbn [ui searches sent]; [split; [exact Hinv | lia]|].
    destruct (more_settle_frame k r s) as [_ [_ [_ [Hf _]]]]. cbn zeta in Hf. rewrite Hf.
    split; [exact Hinv | lia].
  - split; [exact Hinv | lia].
Qed.

Lemma performAll_searchInSync :
  forall acts w,
    searchInSync w ->
    let w' := performAll JSON_stringify w acts in
    searchInSync w' /\
    (List.length (filter isSearchRequest (sent w')) + List.length (searches w) <=
     List.length (filter isSearchRequest (sent w)) + List.length (searches w') +
     List.length (filter isSearchSettled acts))%nat.
Proof.
  unfold performAll. induction acts as [|a r IH]; intros w Hinv.
  - cbn. split; [exact Hinv | lia].
  - cbn [fold_left filter].
    destruct (@perform_searchInSync w a Hinv) as [Hinv1 Hc1]. cbn zeta in Hc1.
    destruct (IH _ Hinv1) as [Hinv2 Hc2]. cbn zeta in Hc2.
    split; [exact Hinv2|].
    destruct (isSearchSettled a); cbn [List.length]; lia.
Qed.

(** X13: Whatever the user and the network do after the component is
    mounted, at most one search is in flight, and the searches sent are
    at most one more than the searches that have settled. *)
Theorem searches_one_at_a_time :
  forall acts st,
    let w := performAll JSON_stringify (mounted st) acts in
    (List.length (searches w) <= 1)%nat /\
    (List.length (filter isSearchRequest (sent w)) <=
     List.length (filter isSearchSettled acts) + 1)%nat.
Proof.
  intros acts st w.
  assert (H0 : searchInSync (mounted st)) by (right; split; reflexivity).
  destruct (@performAll_searchInSync acts _ H0) as [Hinv Hc]. cbn zeta in Hc.
  fold w in Hinv, Hc. cbn [mounted sent searches filter List.length] in Hc.
  assert (Hlen : (List.length (searches w) <= 1)%nat).
  { destruct Hinv as [[_ [k Hk]]|[_ Hk]]; rewrite Hk; cbn; lia. }
  split; [exact Hlen | lia].
Qed.

Lemma perform_counts :
  forall w a,
    let w' := perform JSON_stringify w a in
    (currentIndex (ui w) =
       List.length (matchedTrials (ui w)) + List.length (rejectedTrials (ui w)))%nat ->
    (currentIndex (ui w') =
       List.length (matchedTrials (ui w')) + List.length (rejectedTrials (ui w')))%nat.
Proof.
  intros [s srch mrs st snt] a. cbn [ui].
  destruct a as [p|r| | |p|r|]; cbn [perform ui searches mores storage sent]; intro H.
  - pose proof (start_frame JSON_stringify p s) as Hfr. cbn zeta in Hfr.
    destruct (loadTrials_start JSON_stringify p s) as [s1 [[req k]|]];
      cbn [ui fst] in *; destruct Hfr as [_ [-> [-> [-> _]]]]; exact H.
  - destruct srch as [|k rest]; cbn [ui]; [exact H|].
    pose proof (settle_buckets k r s) as Hb. cbn zeta in Hb.
    destruct Hb as [[-> [-> ->]]|[-> [-> ->]]]; [reflexivity | exact H].
  - unfold handleSwipeLeft. destruct (currentTrial s); [|exact H].
    cbn. rewrite length_app. cbn. lia.
  - unfold handleSwipeRight. destruct (currentTrial s); cbn [ui]; [|exact H].
    cbn. rewrite length_app. cbn. lia.
  - pose proof (more_start_frame p s) as Hfr. cbn zeta in Hfr.
    destruct (loadMoreTrials_start p s) as [s1 [[req k]|]];
      cbn [ui fst] in *; destruct Hfr as [_ [-> [-> [-> _]]]]; exact H.
  - destruct mrs as [|k rest]; cbn [ui]; [exact H|].
    pose proof (more_settle_frame k r s) as Hb. cbn zeta in Hb.
    destruct Hb as [-> [-> [-> _]]]. exact H.
  - exact H.
Qed.

(** X14: The three numbers of the line "Viewed | Matched | Passed" always add
    up: the cursor is the number of matched plus the number of passed
    trials, whatever happened since the component was mounted. *)
Theorem viewed_is_matched_plus_passed :
  forall acts st,
    let w := performAll JSON_stringify (mounted st) acts in
    currentIndex (ui w) =
    (List.length (matchedTrials (ui w)) + List.length (rejectedTrials (ui w)))%nat.
Proof.
  intros acts st. cbn zeta.
  assert (H0 : currentIndex (ui (mounted st)) =
               (List.length (matchedTrials (ui (mounted st))) +
                List.length (rejectedTrials (ui (mounted st))))%nat) by reflexivity.
  generalize dependent (mounted st). unfold performAll.
  induction acts as [|a r IH]; intros w H; [exact H|].
  cbn [fold_left]. apply IH. apply perform_counts. exact H.
Qed.

Lemma perform_saved :
  forall w a,
    let w' := perform JSON_stringify w a in
    (exists before, savedMatches (storage w) = (before ++ matchedTrials (ui w))%list) ->
    (exists before, savedMatches (storage w') = (before ++ matchedTrials (ui w'))%list) /\
    (exists added, savedMatches (storage w') = (savedMatches (storage w) ++ added)%list).
Proof.
  intros [s srch mrs st snt] a. cbn [ui storage].
  destruct a as [p|r| | |p|r|]; cbn [perform ui searches mores storage sent]; intros [b Hb].
  - pose proof (start_frame JSON_stringify p s) as Hfr. cbn zeta in Hfr.
    destruct (loadTrials_start JSON_stringify p s) as [s1 [[req k]|]];
      cbn [ui storage fst] in *; destruct Hfr as [_ [_ [-> _]]];
      (split; [exists b; exact Hb | exists []; rewrite app_nil_r; reflexivity]).
  - destruct srch as [|k rest]; cbn [ui storage].
    + split; [exists b; exact Hb | exists []; rewrite app_nil_r; reflexivity].
    + split; [|exists []; rewrite app_nil_r; reflexivity].
      pose proof (settle_buckets k r s) as Hs. cbn zeta in Hs.
      destruct Hs as [[_ [-> _]]|[_ [-> _]]].
      * exists (savedMatches st). rewrite app_nil_r. reflexivity.
      * exists b. exact Hb.
  - split; [|exists []; rewrite app_nil_r; reflexivity].
    unfold handleSwipeLeft. destruct (currentTrial s); exists b; exact Hb.
  - unfold handleSwipeRight. destruct (currentTrial s) as [t|]; cbn [ui storage].
    + cbn [savedMatches matchedTrialsItem setCurrentIndex setMatchedTrials matchedTrials].
      split; [|exists [t]; reflexivity].
      exists b. rewrite Hb, app_assoc. reflexivity.
    + split; [exists b; exact Hb | exists []; rewrite app_nil_r; reflexivity].
  - pose proof (more_start_frame p s) as Hfr. cbn zeta in Hfr.
    destruct (loadMoreTrials_start p s) as [s1 [[req k]|]];
      cbn [ui storage fst] in *; destruct Hfr as [_ [_ [-> _]]];
      (split; [exists b; exact Hb | exists []; rewrite app_nil_r; reflexivity]).
  - destruct mrs as [|k rest]; cbn [ui storage].
    + split; [exists b; exact Hb | exists []; rewrite app_nil_r; reflexivity].
    + pose proof (more_settle_frame k r s) as Hs. cbn zeta in Hs.
      destruct Hs as [_ [-> _]].
      split; [exists b; exact Hb | exists []; rewrite app_nil_r; reflexivity].
  - split; [exists b; exact Hb | exists []; rewrite app_nil_r; reflexivity].
Qed.

(** X15: The saved matches only grow: what was stored when the component was
    mounted stays in front, and the matches on screen are always the end
    of the stored list. *)
Theorem saved_matches_only_grow :
  forall acts st,
    let w := performAll JSON_stringify (mounted st) acts in
    (exists added, savedMatches (storage w) = (savedMatches st ++ added)%list) /\
    (exists before, savedMatches (storage w) = (before ++ matchedTrials (ui w))%list).
Proof.
  intros acts st. cbn zeta.
  assert (H0 : exists before,
             savedMatches (storage (mounted st)) =
             (before ++ matchedTrials (ui (mounted st)))%list).
  { exists (savedMatches st). cbn. rewrite app_nil_r. reflexivity. }
  change (savedMatches st) with (savedMatches (storage (mounted st))).
  generalize dependent (mounted st). unfold performAll.
  induction acts as [|a r IH]; intros w H.
  - cbn. split; [exists []; rewrite app_nil_r; reflexivity | exact H].
  - cbn [fold_left].
    destruct (@perform_saved w a H) as [H1 [added1 Ha1]].
    destruct (IH _ H1) as [[added Ha] Hb]. split; [|exact Hb].
    exists (added1 ++ added)%list. rewrite Ha, Ha1, app_assoc. reflexivity.
Qed.
End SessionOverTime.

(** ** Swiping through the list *)

Lemma skipn_nth_error_Some :
  forall (A : Type) (l : list A) (i : nat) (x : A),
    nth_error l i = Some x -> skipn i l = x :: skipn (S i) l.
Proof.
  intros A l. induction l as [|a r IH]; intros [|i] x H; try discriminate.
  - injection H as <-. reflexivity.
  - cbn [skipn]. apply IH. exact H.
Qed.

Lemma skipn_nth_error_None :
  forall (A : Type) (l : list A) (i : nat),
    nth_error l i = None -> skipn i l = [].
Proof.
  intros A l i H. apply skipn_all2. apply nth_error_None. exact H.
Qed.

Lemma chosen_cons :
  forall right t l c cs,
    chosen right (t :: l) (c :: cs) =
    ((if Bool.eqb c right then [t] else []) ++ chosen right l cs)%list.
Proof.
  intros right t l c cs. unfold chosen. cbn [combine filter snd].
  destruct (Bool.eqb c right); reflexivity.
Qed.

Section Swipes.
Variable JSON_stringify : KeyFields -> string.

Lemma swipes_from :
  forall choices w,
    let rest := skipn (currentIndex (ui w)) (trials (ui w)) in
    let w' := performAll JSON_stringify w (map swipeOf choices) in
    matchedTrials (ui w') = (matchedTrials (ui w) ++ chosen true rest choices)%list /\
    rejectedTrials (ui w') = (rejectedTrials (ui w) ++ chosen false rest choices)%list /\
    currentIndex (ui w') =
      (currentIndex (ui w) + Nat.min (List.length rest) (List.length choices))%nat /\
    trials (ui w') = trials (ui w) /\
    savedMatches (storage w') = (savedMatches (storage w) ++ chosen true rest choices)%list /\
    sent w' = sent w.
Proof.
  unfold performAll. induction choices as [|c cs IH]; intros w.
  - cbn [map fold_left List.length]. unfold chosen.
    rewrite combine_nil, Nat.min_0_r. cbn. rewrite !app_nil_r, Nat.add_0_r. repeat split.
  - cbn [map fold_left]. cbn zeta.
    destruct w as [s srch mrs st snt]. cbn [ui storage sent].
    destruct (nth_error (trials s) (currentIndex s)) as [t|] eqn:Et.
    + rewrite (skipn_nth_error_Some _ _ Et), !chosen_cons. cbn [List.length].
      destruct c; cbn [swipeOf perform ui searches mores storage sent].
      * unfold handleSwipeRight, currentTrial. rewrite Et.
        specialize (IH (mkSession
          (setCurrentIndex (currentIndex s + 1) (setMatchedTrials (matchedTrials s ++ [t]) s))
          srch mrs (mkStorage (Some (savedMatches st ++ [t])%list)) snt)).
        cbn zeta in IH. cbn [ui storage sent] in IH.
        destruct IH as [H1 [H2 [H3 [H4 [H5 H6]]]]].
        rewrite H1, H2, H3, H4, H5, H6.
        cbn [setCurrentIndex setMatchedTrials matchedTrials rejectedTrials currentIndex trials
             savedMatches matchedTrialsItem Bool.eqb].
        replace (currentIndex s + 1)%nat with (S (currentIndex s)) by lia.
        rewrite <- !app_assoc. cbn [app]. repeat split. lia.
      * unfold handleSwipeLeft, currentTrial. rewrite Et.
        specialize (IH (mkSession
          (setCurrentIndex (currentIndex s + 1) (setRejectedTrials (rejectedTrials s ++ [t]) s))
          srch mrs st snt)).
        cbn zeta in IH. cbn [ui storage sent] in IH.
        destruct IH as [H1 [H2 [H3 [H4 [H5 H6]]]]].
        rewrite H1, H2, H3, H4, H5, H6.
        cbn [setCurrentIndex setRejectedTrials matchedTrials rejectedTrials currentIndex trials
             Bool.eqb].
        replace (currentIndex s + 1)%nat with (S (currentIndex s)) by lia.
        rewrite <- !app_assoc. cbn [app]. repeat split. lia.
    + assert (Hsame : perform JSON_stringify (mkSession s srch mrs st snt) (swipeOf c) =
                      mkSession s srch mrs st snt).
      { destruct c; cbn [swipeOf perform ui searches mores storage sent];
          unfold handleSwipeRight, handleSwipeLeft, currentTrial; rewrite Et; reflexivity. }
      rewrite Hsame. specialize (IH (mkSession s srch mrs st snt)).
      cbn zeta in IH. cbn [ui storage sent] in IH.
      rewrite (skipn_nth_error_None _ _ Et) in *.
      unfold chosen in *. cbn [combine filter map List.length Nat.min] in *. exact IH.
Qed.

(** X16: Swiping through a fresh list sorts its trials into the two buckets
    by the choices made, in order: the matched trials are the ones swiped
    right, the rejected ones those swiped left, the cursor counts them,
    each right swipe is appended to the saved matches, and swipes past
    the end of the list do nothing. *)
Theorem swiping_sorts_into_buckets :
  forall choices w,
    currentIndex (ui w) = 0%nat ->
    matchedTrials (ui w) = [] ->
    rejectedTrials (ui w) = [] ->
    let w' := performAll JSON_stringify w (map swipeOf choices) in
    matchedTrials (ui w') = chosen true (trials (ui w)) choices /\
    rejectedTrials (ui w') = chosen false (trials (ui w)) choices /\
    currentIndex (ui w') = Nat.min (List.length (trials (ui w))) (List.length choices) /\
    trials (ui w') = trials (ui w) /\
    savedMatches (storage w') =
      (savedMatches (storage w) ++ chosen true (trials (ui w)) choices)%list /\
    sent w' = sent w.
Proof.
  intros choices w Hi Hm Hr.
  pose proof (swipes_from choices w) as H. cbn zeta in *.
  rewrite Hi, Hm, Hr in H. cbn [skipn app Nat.add] in H. exact H.
Qed.
End Swipes.

Lemma swiping_sorts_into_buckets_witness :
  let w := mkSession
             (mkState [MoreSamples.trialWithId "A"; MoreSamples.trialWithId "B";
                       MoreSamples.trialWithId "C"] 0 false None [] [] true false None)
             [] [] (mkStorage None) [] in
  let w' := performAll Samples.keyString w (map swipeOf [true; false; true; true]) in
  matchedTrials (ui w') = [MoreSamples.trialWithId "A"; MoreSamples.trialWithId "C"] /\
  rejectedTrials (ui w') = [MoreSamples.trialWithId "B"] /\
  currentIndex (ui w') = 3%nat /\
  savedMatches (storage w') = [MoreSamples.trialWithId "A"; MoreSamples.trialWithId "C"].
Proof.
  intros w w'.
  destruct (@swiping_sorts_into_buckets Samples.keyString [true; false; true; true] w
              eq_refl eq_refl eq_refl) as [H1 [H2 [H3 [_ [H5 _]]]]].
  repeat split; assumption.
Defined.

(** ** Loading more trials *)

Lemma scoreTrial_id :
  forall profile t x, scoreTrial profile t = Ok x -> Trial.id x = Trial.id t.
Proof.
  intros profile t x. unfold scoreTrial.
  destruct (calculateMatchScore profile t); cbn [bind]; [|discriminate].
  intro H. injection H as <-. reflexivity.
Qed.

Lemma Forall2_map_eq :
  forall (A B C : Type) (f : A -> C) (g : B -> C) (R : A -> B -> Prop) l l',
    (forall a b, R a b -> g b = f a) -> Forall2 R l l' -> map g l' = map f l.
Proof.
  intros A B C f g R l l' HR H. induction H as [|a b r r' Hab _ IH]; [reflexivity|].
  cbn [map]. rewrite (HR a b Hab), IH. reflexivity.
Qed.

(** The ranking returns the [id]s of the trials the filter keeps, in some
    order. *)
Lemma rank_ids :
  forall trials profile ranked,
    rankTrialsByMatchScore trials profile = Ok ranked ->
    Permutation (ids (filterTrialsByAllergies trials (UserProfile.allergies profile)))
                (ids ranked).
Proof.
  intros trials profile ranked. unfold rankTrialsByMatchScore.
  destruct (mapM (scoreTrial profile) _) as [scored|e] eqn:Em; [|discriminate].
  cbn [bind]. intro H. injection H as <-.
  pose proof (mapM_Ok_Forall2 _ _ Em) as Hf.
  unfold ids.
  rewrite <- (@Forall2_map_eq _ _ _ Trial.id Trial.id _ _ _
                (fun a b H => scoreTrial_id profile a H) Hf).
  apply Permutation_map.
  exact (sort_perm scoreOrZero scoreOrZero_not_NaN scored).
Qed.

Lemma NoDup_map_filter :
  forall (A B : Type) (g : A -> B) (f : A -> bool) (l : list A),
    NoDup (map g l) -> NoDup (map g (filter f l)).
Proof.
  intros A B g f l. induction l as [|a r IH]; intro H; [constructor|].
  cbn [map] in H. inversion H as [|? ? Hnin Hr]; subst.
  cbn [filter]. destruct (f a); [|apply IH, Hr].
  cbn [map]. constructor; [|apply IH, Hr].
  intro Hin. apply Hnin. apply in_map_iff in Hin. destruct Hin as [x [Hx Hin]].
  apply filter_In in Hin. apply in_map_iff. exists x. tauto.
Qed.

Lemma In_map_filter :
  forall (A B : Type) (g : A -> B) (f : A -> bool) (l : list A) (b : B),
    In b (map g (filter f l)) -> exists a, In a l /\ f a = true /\ g a = b.
Proof.
  intros A B g f l b H. apply in_map_iff in H. destruct H as [a [Ha Hin]].
  apply filter_In in Hin. exists a. tauto.
Qed.

Lemma filter_ids_NoDup :
  forall trials allergies,
    NoDup (ids trials) -> NoDup (ids (filterTrialsByAllergies trials allergies)).
Proof.
  intros trials [allergies|] H; [|exact H].
  rewrite filter_is_filter. apply NoDup_map_filter, H.
Qed.

Lemma rank_ids_NoDup :
  forall trials profile ranked,
    NoDup (ids trials) ->
    rankTrialsByMatchScore trials profile = Ok ranked ->
    NoDup (ids ranked).
Proof.
  intros trials profile ranked Hnd Hr.
  eapply Permutation_NoDup; [apply (rank_ids _ _ Hr)|].
  apply filter_ids_NoDup, Hnd.
Qed.

Lemma unseen_not_In :
  forall existing t, unseen existing t = true -> ~ In (Trial.id t) (ids existing).
Proof.
  intros existing t H Hin. unfold unseen in H. apply negb_true_iff in H.
  assert (Ht : existsb (String.eqb (Trial.id t)) (map Trial.id existing) = true).
  { apply existsb_exists. exists (Trial.id t). split; [exact Hin | apply String.eqb_refl]. }
  congruence.
Qed.

Lemma rank_ids_from :
  forall trials profile ranked i,
    rankTrialsByMatchScore trials profile = Ok ranked ->
    In i (ids ranked) -> In i (ids trials).
Proof.
  intros trials profile ranked i Hr Hin.
  apply (Permutation_in _ (Permutation_sym (rank_ids _ _ Hr))) in Hin.
  unfold ids in *. apply in_map_iff in Hin. destruct Hin as [t [Ht Hin]].
  apply in_map_iff. exists t. split; [exact Ht|].
  eapply filter_keeps_sublist, Hin.
Qed.

Lemma scoreTrial_scoredFrom :
  forall profile t x, scoreTrial profile t = Ok x -> scoredFrom profile t x.
Proof.
  intros profile t x. unfold scoreTrial.
  destruct (calculateMatchScore profile t) as [v|e] eqn:Ev; cbn [bind]; [|discriminate].
  intro H. injection H as <-. apply withMatchScore_scoredFrom, Ev.
Qed.

Lemma rank_nil : forall profile, rankTrialsByMatchScore [] profile = Ok [].
Proof.
  intro profile. unfold rankTrialsByMatchScore, filterTrialsByAllergies.
  destruct (UserProfile.allergies profile) as [[|a r]|]; reflexivity.
Qed.

(** What a successful ranking returns: scored trials of the input, in
    descending order of their scores. *)
Lemma rank_Ok_inv :
  forall trials profile ranked,
    rankTrialsByMatchScore trials profile = Ok ranked ->
    descendingScores ranked /\
    Forall (fun x => exists t, In t trials /\ scoredFrom profile t x) ranked.
Proof.
  intros trials profile ranked. unfold rankTrialsByMatchScore.
  destruct (mapM (scoreTrial profile) _) as [scored|e] eqn:Em; [|discriminate].
  cbn [bind]. intro H. injection H as <-.
  split; [apply sort_descendingScores|].
  pose proof (mapM_Ok_Forall2 _ _ Em) as Hf.
  apply Forall_forall. intros x Hx.
  apply (Permutation_in _
           (Permutation_sym (sort_perm scoreOrZero scoreOrZero_not_NaN scored))) in Hx.
  destruct (@Forall2_In_r _ _ _ _ _ x Hf Hx) as [t [Ht Hs]].
  exists t. split; [eapply filter_keeps_sublist, Ht | apply scoreTrial_scoredFrom, Hs].
Qed.

(** X17: What [loadMoreTrials] does to the list once its call has settled:
    either nothing, or the list is the one held when the button was
    clicked followed by the ranking of the records of the response whose
    [id] is not in that list: trials of the response with their match
    scores attached, in descending order of the scores, none of which has
    an [id] of that list.  Whenever that ranking succeeds and is not
    empty, it is appended and the error is left as it is.  The cursor, the
    buckets, the in-flight flag and the stored key are untouched and the
    spinner is cleared; a failed call changes neither the list nor the
    error. *)
Theorem load_more_appends_unseen :
  forall k r s,
    let s' := loadMoreTrials_settle k r s in
    let isNew := fun t => negb (existsb (String.eqb (Trial.id t)) (ids (more_trials k))) in
    (trials s' = trials s \/
     exists data added,
       r = Resolved (Some data) /\
       rankTrialsByMatchScore (filter isNew data) (more_profile k) = Ok added /\
       trials s' = (more_trials k ++ added)%list /\
       descendingScores added /\
       Forall (fun x => exists t, In t data /\ isNew t = true /\
                                  scoredFrom (more_profile k) t x) added /\
       forall i, In i (ids added) -> ~ In i (ids (more_trials k))) /\
    (forall data added,
        r = Resolved (Some data) ->
        rankTrialsByMatchScore (filter isNew data) (more_profile k) = Ok added ->
        added <> [] ->
        trials s' = (more_trials k ++ added)%list /\ error s' = error s) /\
    currentIndex s' = currentIndex s /\
    matchedTrials s' = matchedTrials s /\
    rejectedTrials s' = rejectedTrials s /\
    isFetchingRef s' = isFetchingRef s /\
    searchedProfileRef s' = searchedProfileRef s /\
    loading s' = false /\
    (forall err, r = Rejected err -> trials s' = trials s /\ error s' = error s).
Proof.
  intros k r s. cbn zeta.
  pose proof (more_settle_frame k r s) as Hfr. cbn zeta in Hfr.
  destruct Hfr as [H1 [H2 [H3 [H4 [_ [H6 H7]]]]]].
  change (fun t => negb (existsb (String.eqb (Trial.id t)) (ids (more_trials k))))
    with (unseen (more_trials k)).
  split; [|split; [|repeat split; try assumption]].
  - unfold loadMoreTrials_settle, afterAwaitMore.
    destruct r as [[[|d ds]|]|err]; try (left; reflexivity).
    destruct (filter (unseen (more_trials k)) (d :: ds)) as [|n ns] eqn:Ef;
      [left; reflexivity|].
    destruct (rankTrialsByMatchScore (n :: ns) (more_profile k)) as [ranked|e] eqn:Er;
      cbn [bind]; [|left; reflexivity].
    right. exists (d :: ds), ranked.
    destruct (rank_Ok_inv _ _ Er) as [Hsorted Hscored].
    split; [reflexivity|]. split; [rewrite Ef; exact Er|].
    split; [reflexivity|]. split; [exact Hsorted|]. split.
    + eapply Forall_impl; [|exact Hscored].
      intros x [t [Ht Hs]]. exists t. rewrite <- Ef in Ht.
      apply filter_In in Ht. destruct Ht as [Hin Hnew].
      split; [exact Hin|]. split; [exact Hnew | exact Hs].
    + intros i Hi. apply (rank_ids_from _ _ _ Er) in Hi.
      rewrite <- Ef in Hi. unfold ids in Hi.
      destruct (In_map_filter _ _ _ _ Hi) as [t [_ [Hu <-]]].
      apply unseen_not_In, Hu.
  - intros data added -> Hr Hne.
    unfold loadMoreTrials_settle, afterAwaitMore.
    destruct data as [|d ds].
    { cbn [filter] in Hr. rewrite rank_nil in Hr. congruence. }
    destruct (filter (unseen (more_trials k)) (d :: ds)) as [|n ns] eqn:Ef.
    { rewrite rank_nil in Hr. congruence. }
    rewrite Hr. cbn [bind]. split; reflexivity.
  - subst r. reflexivity.
  - subst r. reflexivity.
Qed.

Lemma load_more_appends_unseen_witness :
  trials (loadMoreTrials_settle
            (mkPendingMore Samples.asthmaProfile [MoreSamples.trialWithId "A"])
            (Resolved (Some [MoreSamples.trialWithId "A"; Samples.asthmaTrial;
                             Samples.peanutTrial; Samples.asthmaTrialAt (Fin 50)]))
            (mkState [MoreSamples.trialWithId "A"] 1 true None [] [] true false None)) =
    ([MoreSamples.trialWithId "A"] ++
     [Trial.withMatchScore (Samples.asthmaTrialAt (Fin 50)) (Fin (17 # 20));
      Trial.withMatchScore Samples.asthmaTrial (Fin (4 # 5))])%list /\
  error (loadMoreTrials_settle
           (mkPendingMore Samples.asthmaProfile [MoreSamples.trialWithId "A"])
           (Resolved (Some [MoreSamples.trialWithId "A"; Samples.asthmaTrial;
                            Samples.peanutTrial; Samples.asthmaTrialAt (Fin 50)]))
           (mkState [MoreSamples.trialWithId "A"] 1 true None [] [] true false None)) = None.
Proof.
  destruct (load_more_appends_unseen
              (mkPendingMore Samples.asthmaProfile [MoreSamples.trialWithId "A"])
              (Resolved (Some [MoreSamples.trialWithId "A"; Samples.asthmaTrial;
                               Samples.peanutTrial; Samples.asthmaTrialAt (Fin 50)]))
              (mkState [MoreSamples.trialWithId "A"] 1 true None [] [] true false None))
    as [_ [Hadded _]].
  apply (Hadded [MoreSamples.trialWithId "A"; Samples.asthmaTrial;
                 Samples.peanutTrial; Samples.asthmaTrialAt (Fin 50)]
                [Trial.withMatchScore (Samples.asthmaTrialAt (Fin 50)) (Fin (17 # 20));
                 Trial.withMatchScore Samples.asthmaTrial (Fin (4 # 5))]).
  - reflexivity.
  - reflexivity.
  - discriminate.
Defined.

(** A response that repeats a trial of the list, brings one twice and
    one the profile is allergic to. *)
Example load_more_sample :
  trials (loadMoreTrials_settle
            (mkPendingMore Samples.asthmaProfile [MoreSamples.trialWithId "A"])
            (Resolved (Some [MoreSamples.trialWithId "A"; MoreSamples.trialWithId "B";
                             Samples.peanutTrial; MoreSamples.trialWithId "B"]))
            (mkState [MoreSamples.trialWithId "A"] 1 true None [] [] true false None)) =
  [MoreSamples.trialWithId "A";
   Trial.withMatchScore (MoreSamples.trialWithId "B") (Fin (4 # 5));
   Trial.withMatchScore (MoreSamples.trialWithId "B") (Fin (4 # 5))].
Proof. reflexivity. Qed.

Section UniqueIds.
Variable JSON_stringify : KeyFields -> string.

Lemma perform_uniqueIds :
  forall w a,
    uniqueIdsIn a -> uniqueIds w -> uniqueIds (perform JSON_stringify w a).
Proof.
  intros [s srch mrs st snt] a Ha [Hnd Hm]. unfold uniqueIds in *.
  cbn [ui mores] in *.
  destruct a as [p|r| | |p|r|]; cbn [perform ui searches mores storage sent].
  - pose proof (start_frame JSON_stringify p s) as Hfr. cbn zeta in Hfr.
    destruct (loadTrials_start JSON_stringify p s) as [s1 [[req k]|]];
      cbn [ui mores fst] in *; destruct Hfr as [-> _]; split; assumption.
  - destruct srch as [|k rest]; cbn [ui mores]; [split; assumption|].
    split; [|exact Hm].
    destruct (settle_trials k r s) as [->|[->|[data [-> Hr]]]].
    + exact Hnd.
    + constructor.
    + cbn [uniqueIdsIn] in Ha. eapply rank_ids_NoDup; [exact Ha | exact Hr].
  - split; [|exact Hm]. unfold handleSwipeLeft. destruct (currentTrial s); exact Hnd.
  - unfold handleSwipeRight. destruct (currentTrial s); cbn [ui mores]; split; assumption.
  - pose proof (more_start_frame p s) as Hfr. cbn zeta in Hfr.
    destruct (loadMoreTrials_start p s) as [s1 [[req k]|]];
      cbn [ui mores fst snd] in *; destruct Hfr as [Ht [_ [_ [_ [_ Hk]]]]]; rewrite Ht.
    + split; [exact Hnd|]. apply Forall_app. split; [exact Hm|].
      constructor; [|constructor]. destruct (Hk req k eq_refl) as [-> _]. exact Hnd.
    + split; assumption.
  - destruct mrs as [|k rest]; cbn [ui mores]; [split; assumption|].
    inversion Hm as [|? ? Hk Hrest]; subst. split; [|exact Hrest].
    unfold loadMoreTrials_settle, afterAwaitMore.
    destruct r as [[[|d ds]|]|err]; try exact Hnd.
    destruct (filter (unseen (more_trials k)) (d :: ds)) as [|n ns] eqn:Ef; [exact Hnd|].
    destruct (rankTrialsByMatchScore (n :: ns) (more_profile k)) as [ranked|e] eqn:Er;
      cbn [bind]; [|exact Hnd].
    cbn [setLoading setTrials trials]. unfold ids. rewrite map_app.
    cbn [uniqueIdsIn] in Ha.
    apply NoDup_app.
    + exact Hk.
    + eapply rank_ids_NoDup; [|exact Er]. rewrite <- Ef.
      apply NoDup_map_filter, Ha.
    + intros i Hi Hin. apply (rank_ids_from _ _ _ Er) in Hin.
      rewrite <- Ef in Hin. unfold ids in Hin.
      destruct (In_map_filter _ _ _ _ Hin) as [t [_ [Hu <-]]].
      exact (unseen_not_In _ _ Hu Hi).
  - split; assumption.
Qed.

(** X18: If no response holds the same [id] twice, the list on screen never
    does either, whatever the order in which searches, swipes and
    load-more calls start and settle. *)
Theorem screen_ids_stay_unique :
  forall acts st,
    Forall uniqueIdsIn acts ->
    NoDup (ids (trials (ui (performAll JSON_stringify (mounted st) acts)))).
Proof.
  intros acts st Hall.
  assert (H0 : uniqueIds (mounted st)).
  { split; [constructor | constructor]. }
  generalize dependent (mounted st). unfold performAll.
  induction Hall as [|a r Ha _ IH]; intros w H; [exact (proj1 H)|].
  cbn [fold_left]. apply IH. apply perform_uniqueIds; assumption.
Qed.
End UniqueIds.

Lemma screen_ids_stay_unique_witness :
  NoDup (ids (trials (ui (performAll Samples.keyString (mounted (mkStorage None))
    [Search Samples.asthmaProfile;
     SearchSettled (Resolved (Some [MoreSamples.trialWithId "A"; MoreSamples.trialWithId "B"]));
     SwipeRight;
     LoadMore Samples.asthmaProfile;
     SwipeLeft;
     MoreSettled (Resolved (Some [MoreSamples.trialWithId "B"; MoreSamples.trialWithId "C"]))])))).
Proof.
  apply screen_ids_stay_unique.
  repeat constructor; cbn; intuition discriminate.
Defined.

(** ** The requests *)

Lemma hasChar_splitHead : forall c s, hasChar c (splitHead c s) = false.
Proof.
  intros c s. induction s as [|x r IH]; [reflexivity|].
  cbn [splitHead]. destruct (Ascii.eqb x c) eqn:E; [reflexivity|].
  cbn [hasChar]. rewrite E, IH. reflexivity.
Qed.

Lemma hasChar_trimStart :
  forall c s, hasChar c s = false -> hasChar c (trimStart s) = false.
Proof.
  intros c s. induction s as [|x r IH]; intro H; [reflexivity|].
  cbn [trimStart]. destruct (isWhiteSpace x); [|exact H].
  apply IH. cbn [hasChar] in H. apply orb_false_iff in H. tauto.
Qed.

Lemma hasChar_trimEnd :
  forall c s, hasChar c s = false -> hasChar c (trimEnd s) = false.
Proof.
  intros c s. induction s as [|x r IH]; intro H; [reflexivity|].
  cbn [hasChar] in H. apply orb_false_iff in H. destruct H as [Hx Hr].
  cbn [trimEnd]. specialize (IH Hr).
  destruct (trimEnd r) as [|a b].
  - destruct (isWhiteSpace x); [reflexivity|]. cbn [hasChar]. rewrite Hx. reflexivity.
  - cbn [hasChar] in *. rewrite Hx, IH. reflexivity.
Qed.

Lemma trimEnd_trimEnd : forall s, trimEnd (trimEnd s) = trimEnd s.
Proof.
  induction s as [|x r IH]; [reflexivity|].
  cbn [trimEnd]. destruct (trimEnd r) as [|a b] eqn:E.
  - destruct (isWhiteSpace x) eqn:Ex; [reflexivity|]. cbn [trimEnd]. rewrite Ex. reflexivity.
  - cbn [trimEnd] in *. rewrite IH. reflexivity.
Qed.

Lemma trimStart_clean :
  forall s,
    match s with String c _ => isWhiteSpace c = false | EmptyString => True end ->
    trimStart s = s.
Proof. intros [|c r] H; [reflexivity|]. cbn [trimStart]. rewrite H. reflexivity. Qed.

Lemma trimStart_is_clean :
  forall s,
    match trimStart s with String c _ => isWhiteSpace c = false | EmptyString => True end.
Proof.
  induction s as [|x r IH]; [exact I|].
  cbn [trimStart]. destruct (isWhiteSpace x) eqn:E; [exact IH | exact E].
Qed.

Lemma trimEnd_keeps_clean :
  forall s,
    match s with String c _ => isWhiteSpace c = false | EmptyString => True end ->
    match trimEnd s with String c _ => isWhiteSpace c = false | EmptyString => True end.
Proof.
  intros [|x r] H; [exact I|]. cbn [trimEnd].
  destruct (trimEnd r); [rewrite H|]; exact H.
Qed.

Lemma trim_trim : forall s, trim (trim s) = trim s.
Proof.
  intro s. unfold trim.
  rewrite (trimStart_clean (trimEnd (trimStart s))).
  - apply trimEnd_trimEnd.
  - apply trimEnd_keeps_clean, trimStart_is_clean.
Qed.

Section Requests.
Variable JSON_stringify : KeyFields -> string.

(** X19: The request of a search names the first condition of the profile and
    a city that holds no comma and no white space at either end; it asks
    for 30 results within the maximal travel distance. *)
Theorem search_request_from_profile :
  forall userProfile s s1 req k,
    loadTrials_start JSON_stringify userProfile s = (s1, Some (req, k)) ->
    hd_error (UserProfile.medicalConditions userProfile) = Some (req_condition req) /\
    hasChar ","%char (req_location req) = false /\
    trim (req_location req) = req_location req /\
    req_distance req = UserProfile.maxTravelDistance userProfile /\
    req_max_results req = 30%Z.
Proof.
  intros userProfile s s1 req k H.
  destruct (@start_issued_eq _ _ _ _ _ _ H) as [_ [_ [c [rest [Hc [_ ->]]]]]].
  cbn [req_condition req_location req_distance req_max_results]. rewrite Hc.
  repeat split.
  - unfold trim. apply hasChar_trimEnd, hasChar_trimStart, hasChar_splitHead.
  - apply trim_trim.
Qed.

(** X20: On the wire a search always asks for 30 results and for a distance
    that is a number other than 0: the maximal travel distance of the
    profile, or 50 when that is 0 or not a number. *)
Theorem search_params_defaults :
  forall userProfile s s1 req k,
    loadTrials_start JSON_stringify userProfile s = (s1, Some (req, k)) ->
    Api.p_max_results (Api.paramsOf req) = Fin 30 /\
    truthy (Api.p_distance (Api.paramsOf req)) = true /\
    (truthy (UserProfile.maxTravelDistance userProfile) = true ->
     Api.p_distance (Api.paramsOf req) = UserProfile.maxTravelDistance userProfile) /\
    (truthy (UserProfile.maxTravelDistance userProfile) = false ->
     Api.p_distance (Api.paramsOf req) = Fin 50).
Proof.
  intros userProfile s s1 req k H.
  destruct (@start_issued_eq _ _ _ _ _ _ H) as [_ [_ [c [rest [_ [_ ->]]]]]].
  unfold Api.paramsOf, Api.searchParams, Api.orDefault, num_or.
  cbn [req_condition req_location req_distance req_max_results
       Api.p_max_results Api.p_distance Api.max_results Api.distance].
  split; [reflexivity|].
  destruct (truthy (UserProfile.maxTravelDistance userProfile)) eqn:E.
  - repeat split; try assumption. discriminate.
  - repeat split. discriminate.
Qed.

(** X21: A complete profile meets what the search needs: when no search is in
    flight and its key is new, a search starts, so neither "missing"
    message can appear for it. *)
Theorem complete_profile_starts_search :
  forall profile s,
    App.isComplete profile = true ->
    isFetchingRef s = false ->
    isMountedRef s = true ->
    searchedProfileRef s <> Some (profileKey JSON_stringify (App.matching profile)) ->
    exists s1 req k,
      loadTrials_start JSON_stringify (App.matching profile) s = (s1, Some (req, k)) /\
      error s1 = None /\ loading s1 = true.
Proof.
  intros profile s Hc Hf Hm Hk. unfold App.isComplete in Hc.
  repeat (apply andb_prop in Hc; destruct Hc as [Hc ?]).
  destruct (UserProfile.medicalConditions (App.matching profile)) as [|c rest] eqn:Ec;
    [discriminate|].
  assert (Hl : UserProfile.location (App.matching profile) <> "").
  { intro E. rewrite E in *. discriminate. }
  destruct (@start_issues JSON_stringify _ s c rest Hf Hm Hk Ec Hl) as [s1 [k Hs]].
  exists s1. eexists. exists k. split; [exact Hs|].
  destruct (@start_issued_eq _ _ _ _ _ _ Hs) as [-> _]. split; reflexivity.
Qed.
End Requests.

Lemma search_request_from_profile_witness :
  hd_error (UserProfile.medicalConditions Samples.asthmaProfile) = Some "Asthma" /\
  hasChar ","%char "Durham" = false /\
  trim "Durham" = "Durham" /\
  Fin 50 = UserProfile.maxTravelDistance Samples.asthmaProfile /\
  30%Z = 30%Z.
Proof.
  apply (@search_request_from_profile Samples.keyString Samples.asthmaProfile initial
           (setError None (setLoading true (setIsFetching true initial)))
           (mkRequest "Asthma" "Durham" (Fin 50) 30)
           (mkPending Samples.asthmaProfile "Asthma|Durham, NC")).
  reflexivity.
Defined.

Lemma search_params_defaults_witness :
  Api.p_max_results
    (Api.paramsOf (mkRequest "Asthma" "Durham" (Fin 0) 30)) = Fin 30 /\
  truthy (Api.p_distance (Api.paramsOf (mkRequest "Asthma" "Durham" (Fin 0) 30))) = true /\
  (truthy (UserProfile.maxTravelDistance Samples.stayAtHomeProfile) = true ->
   Api.p_distance (Api.paramsOf (mkRequest "Asthma" "Durham" (Fin 0) 30)) =
   UserProfile.maxTravelDistance Samples.stayAtHomeProfile) /\
  (truthy (UserProfile.maxTravelDistance Samples.stayAtHomeProfile) = false ->
   Api.p_distance (Api.paramsOf (mkRequest "Asthma" "Durham" (Fin 0) 30)) = Fin 50).
Proof.
  apply (@search_params_defaults Samples.keyString Samples.stayAtHomeProfile initial
           (setError None (setLoading true (setIsFetching true initial)))
           (mkRequest "Asthma" "Durham" (Fin 0) 30)
           (mkPending Samples.stayAtHomeProfile "Asthma|Durham, NC")).
  reflexivity.
Defined.

Lemma complete_profile_starts_search_witness :
  exists s1 req k,
    loadTrials_start Samples.keyString Samples.asthmaProfile initial = (s1, Some (req, k)) /\
    error s1 = None /\ loading s1 = true.
Proof.
  apply (@complete_profile_starts_search Samples.keyString
           (App.mkProfile "Ada" "Lovelace" "ada@example.org" Samples.asthmaProfile) initial).
  - reflexivity.
  - reflexivity.
  - reflexivity.
  - discriminate.
Defined.

(** X22: A load-more request names one of the conditions of the profile, the
    first one as long as nothing is matched, sends the whole location
    string and asks for 20 results; the suspended call holds the list on
    screen at that moment.  Without conditions nothing happens. *)
Theorem load_more_request :
  forall userProfile s,
    (UserProfile.medicalConditions userProfile = [] ->
     loadMoreTrials_start userProfile s = (s, None)) /\
    (UserProfile.medicalConditions userProfile <> [] ->
     exists req k,
       loadMoreTrials_start userProfile s = (setLoading true s, Some (req, k)) /\
       In (req_condition req) (UserProfile.medicalConditions userProfile) /\
       (matchedTrials s = [] ->
        hd_error (UserProfile.medicalConditions userProfile) = Some (req_condition req)) /\
       req_location req = UserProfile.location userProfile /\
       req_max_results req = 20%Z /\
       more_trials k = trials s /\
       more_profile k = userProfile).
Proof.
  intros userProfile s. unfold loadMoreTrials_start. split.
  - intros ->. reflexivity.
  - destruct (UserProfile.medicalConditions userProfile) as [|first rest] eqn:Ec;
      [congruence|]. intros _.
    eexists. eexists. split; [reflexivity|].
    cbn [req_condition req_location req_max_results more_trials more_profile].
    repeat split.
    + unfold moreCondition.
      destruct (nth_error (first :: rest) _) as [c|] eqn:En; [|left; reflexivity].
      destruct (nonEmpty c); [|left; reflexivity].
      eapply nth_error_In, En.
    + intros ->. cbn [List.length Nat.ltb Nat.leb]. unfold moreCondition.
      cbn [nth_error hd_error]. destruct (nonEmpty first); reflexivity.
Qed.

Lemma load_more_request_witness :
  exists req k,
    loadMoreTrials_start
      (UserProfile.mk ["Asthma"; "Eczema"] "male" (Fin 30) "Durham, NC" (Fin 50) None None)
      (mkState [Samples.rankedAsthmaTrial] 1 false None [Samples.rankedAsthmaTrial] []
         true false None) =
    (setLoading true
       (mkState [Samples.rankedAsthmaTrial] 1 false None [Samples.rankedAsthmaTrial] []
          true false None), Some (req, k)) /\
    req_condition req = "Eczema" /\ req_location req = "Durham, NC".
Proof.
  destruct (load_more_request
              (UserProfile.mk ["Asthma"; "Eczema"] "male" (Fin 30) "Durham, NC" (Fin 50)
                 None None)
              (mkState [Samples.rankedAsthmaTrial] 1 false None [Samples.rankedAsthmaTrial] []
                 true false None)) as [_ H].
  destruct H as [req [k [Hs [_ [_ [Hl _]]]]]]; [discriminate|].
  exists req, k. split; [exact Hs|].
  injection Hs as <- _. split; reflexivity.
Defined.

(** ** What is on screen *)

(** X23: When the component is neither loading nor showing an error, exactly
    one of the card, the end-of-list panel and the empty-list warning is
    on screen, and the card always has a trial to show; while loading or
    with an error, none of the three is. *)
Theorem one_main_view :
  forall s,
    (idle s = true ->
     (showsCard s = true /\ showsDone s = false /\ showsEmpty s = false /\
      exists trial, currentTrial s = Some trial) \/
     (showsCard s = false /\ showsDone s = true /\ showsEmpty s = false) \/
     (showsCard s = false /\ showsDone s = false /\ showsEmpty s = true)) /\
    (idle s = false ->
     showsCard s = false /\ showsDone s = false /\ showsEmpty s = false /\
     showsStats s = false).
Proof.
  intro s. unfold showsCard, showsDone, showsEmpty, showsStats, currentTrial. split; intro Hi;
    rewrite Hi; cbn [andb]; [|repeat split].
  destruct (trials s) as [|t l] eqn:Et.
  - right. right. repeat split.
  - cbn [List.length]. destruct (Nat.ltb_spec (currentIndex s) (S (List.length l))) as [Hlt|Hge].
    + left. repeat split.
      * apply Nat.leb_gt. exact Hlt.
      * destruct (nth_error (t :: l) (currentIndex s)) as [x|] eqn:En; [exists x; reflexivity|].
        apply nth_error_None in En. cbn [List.length] in En. lia.
    + right. left. repeat split. apply Nat.leb_le. exact Hge.
Qed.

Lemma one_main_view_witness :
  showsCard (mkState [Samples.rankedAsthmaTrial] 0 false None [] [] true false None) = true /\
  showsDone (mkState [Samples.rankedAsthmaTrial] 1 false None [] [] true false None) = true /\
  showsEmpty (mkState [] 0 false None [] [] true false None) = true /\
  showsCard Samples.searchingState = false.
Proof.
  split; [|split; [|split]].
  - destruct (one_main_view
                (mkState [Samples.rankedAsthmaTrial] 0 false None [] [] true false None))
      as [H _].
    destruct (H eq_refl) as [[H1 _]|[[H1 _]|[H1 _]]]; [exact H1 | discriminate H1 | discriminate H1].
  - destruct (one_main_view
                (mkState [Samples.rankedAsthmaTrial] 1 false None [] [] true false None))
      as [H _].
    destruct (H eq_refl) as [[_ [H2 _]]|[[_ [H2 _]]|[_ [H2 _]]]];
      [discriminate H2 | exact H2 | discriminate H2].
  - destruct (one_main_view (mkState [] 0 false None [] [] true false None)) as [H _].
    destruct (H eq_refl) as [[_ [_ [H3 _]]]|[[_ [_ H3]]|[_ [_ H3]]]];
      [discriminate H3 | discriminate H3 | exact H3].
  - destruct (one_main_view Samples.searchingState) as [_ H].
    destruct (H eq_refl) as [H1 _]. exact H1.
Defined.

(** ** The two versions of the search effect *)

Section Versions.
Variable JSON_stringify : KeyFields -> string.

(** X24: Whenever the second version starts a search, it shows the user what
    the first version shows, before and after the call settles, and it
    asks for the same condition and city; the first version leaves the
    result cap and the distance to the defaults of [searchTrials], 20
    and 50. *)
Theorem second_version_refines_first :
  forall userProfile s s1 req k r,
    loadTrials_start JSON_stringify userProfile s = (s1, Some (req, k)) ->
    exists params,
      FirstVersion.loadTrials_start userProfile s =
        (setError None (setLoading true s), Some params) /\
      visible s1 = visible (setError None (setLoading true s)) /\
      visible (loadTrials_settle k r s1) =
        visible (FirstVersion.loadTrials_settle userProfile r
                   (setError None (setLoading true s))) /\
      Api.p_condition (Api.paramsOf req) = Api.p_condition params /\
      Api.p_location (Api.paramsOf req) = Api.p_location params /\
      Api.p_max_results params = Fin 20 /\
      Api.p_distance params = Fin 50.
Proof.
  intros userProfile s s1 req k r H.
  destruct (@start_issued _ _ _ _ _ _ H) as [_ [_ [Hm _]]].
  destruct (@start_issued_eq _ _ _ _ _ _ H) as [-> [-> [c [rest [Hc [_ ->]]]]]].
  unfold FirstVersion.loadTrials_start. rewrite Hc.
  eexists. split; [reflexivity|]. split; [reflexivity|].
  split; [|repeat split].
  destruct s as [t ci ld er mt rj mo fe sp]. cbn [isMountedRef] in Hm. subst mo.
  unfold loadTrials_settle, afterAwait, onError, FirstVersion.loadTrials_settle,
    FirstVersion.afterAwait.
  cbn [isMountedRef setError setLoading setIsFetching negb pend_profile].
  destruct r as [[[|d ds]|]|err]; try reflexivity.
  destruct (rankTrialsByMatchScore (d :: ds) userProfile); reflexivity.
Qed.
End Versions.

Lemma second_version_refines_first_witness :
  exists params,
    FirstVersion.loadTrials_start Samples.asthmaProfile initial =
      (setError None (setLoading true initial), Some params) /\
    visible (setError None (setLoading true (setIsFetching true initial))) =
      visible (setError None (setLoading true initial)) /\
    visible (loadTrials_settle (mkPending Samples.asthmaProfile "Asthma|Durham, NC")
               (Resolved (Some [Samples.asthmaTrial]))
               (setError None (setLoading true (setIsFetching true initial)))) =
      visible (FirstVersion.loadTrials_settle Samples.asthmaProfile
                 (Resolved (Some [Samples.asthmaTrial]))
                 (setError None (setLoading true initial))) /\
    Api.p_condition (Api.paramsOf (mkRequest "Asthma" "Durham" (Fin 50) 30)) =
      Api.p_condition params /\
    Api.p_location (Api.paramsOf (mkRequest "Asthma" "Durham" (Fin 50) 30)) =
      Api.p_location params /\
    Api.p_max_results params = Fin 20 /\
    Api.p_distance params = Fin 50.
Proof.
  apply (@second_version_refines_first Samples.keyString Samples.asthmaProfile initial
           (setError None (setLoading true (setIsFetching true initial)))
           (mkRequest "Asthma" "Durham" (Fin 50) 30)
           (mkPending Samples.asthmaProfile "Asthma|Durham, NC")
           (Resolved (Some [Samples.asthmaTrial]))).
  reflexivity.
Defined.
